(** * Solana bug-bounty hunter: the discovery ranker and the findings store

    A shallow embedding of [scripts/github-monitor.py] (class
    [GitHubMonitor]), [scripts/findings-db.py] (class
    [FindingsDatabase] and its command line) and of the message
    [scripts/telegram-notify.py] builds for a finding, with the
    properties of the specification that concern them and further
    properties read off the code.

    Conventions of the embedding.
    - A Python [dict] read only through fixed keys is a record; a field
      of type [option _] is [None] when the key is absent. The
      dictionaries handed to the findings store can hold [None] (a JSON
      [null]) under any key: where the store reads a key with a
      plain [d.get(key)], which makes no difference between an absent
      key and a null, [None] stands for both; where it tells them apart
      (the test [key in d], a [d.get(key, default)]) the field is a
      [PyDict.item]: absent, null or given. In the items of a GitHub
      answer the keys that can hold null, [description] and [language],
      are read in ways that treat a null as an absent key. The values
      under the keys have the types the table columns and the GitHub
      API give them.
    - Python numbers are exact: [int] is [Z]; the [float] produced by true
      division [/] is a rational [Q]. Every concrete scenario below only
      divides to integers, which binary floating point represents exactly.
    - Instants are integers (microseconds since the epoch); the text form
      in which the programs carry them is reached through a parser that
      the ranker takes as a parameter.
    - A SQLite table is the list of its rows in rowid order; a raised
      exception is the [Err] branch of [result]. A Python [int] that
      reaches SQLite must fit the 64 bits of a SQLite integer, [sqlite3]
      raising [OverflowError] otherwise: [add_finding] and
      [add_scan_history] have that exception; the counts given to
      [add_repository] and the limit of [get_findings] are taken to
      fit. *)

From Stdlib Require Import ZArith QArith Qround Qminmax String Ascii List Lia Lqa.
From Stdlib Require Import Permutation Sorted.
From stdpp Require Import base decidable gmap list pretty.
Import ListNotations.

Open Scope string_scope.
Open Scope list_scope.
Open Scope Z_scope.

(** ** Python strings *)

Module PyStr.

(** [c.lower()] on one ASCII character. *)
Definition lower_ascii (c : ascii) : ascii :=
  let n := nat_of_ascii c in
  if (Nat.leb 65 n && Nat.leb n 90)%bool then ascii_of_nat (n + 32) else c.

(** [s.lower()]. *)
Fixpoint lower (s : string) : string :=
  match s with
  | EmptyString => EmptyString
  | String c s' => String (lower_ascii c) (lower s')
  end.

(** [sub in s]: [sub] occurs in [s] as a contiguous run. *)
Fixpoint contains (sub s : string) : bool :=
  if String.prefix sub s then true
  else match s with
       | EmptyString => false
       | String _ s' => contains sub s'
       end.

(** [s[:n]]. *)
Definition take (n : nat) (s : string) : string := String.substring 0 n s.

(** [s.replace("Z", new)]: every occurrence of the one-character string. *)
Fixpoint replace_char (old : ascii) (new : string) (s : string) : string :=
  match s with
  | EmptyString => EmptyString
  | String c s' =>
      if Ascii.eqb c old then (new ++ replace_char old new s')%string
      else String c (replace_char old new s')
  end.

(** [x in l] for a list of strings. *)
Definition mem (x : string) (l : list string) : bool :=
  existsb (String.eqb x) l.

(** [any(p(x) for x in l)]. *)
Definition any {A} (p : A -> bool) (l : list A) : bool := existsb p l.

End PyStr.

(** ** Python numbers *)

Module PyNum.

(** [int(x)] on a float: truncation towards zero. *)
Definition int (x : Q) : Z :=
  if Qle_bool 0 x then Qfloor x else Qceiling x.

(** [a / b] on two integers (true division). *)
Definition truediv (a b : Z) : Q := (inject_Z a / inject_Z b)%Q.

(** [timedelta.days] of a difference in microseconds: the delta is
    normalised with a non-negative remainder, so this is the floor. *)
Definition usec_per_day : Z := 86400 * 1000000.
Definition days (delta : Z) : Z := delta / usec_per_day.

(** [l[:n]] for a possibly negative [n]. *)
Definition slice_to {A} (n : Z) (l : list A) : list A :=
  if 0 <=? n then firstn (Z.to_nat n) l
  else firstn (Z.to_nat (Z.of_nat (length l) + n)) l.

(** [float(n)] for an integer [n] within the range of binary64: the
    nearest value with a 53-bit significand, ties to even. This is the
    conversion SQLite applies to an integer stored in a [REAL] column. *)
Definition float_of_int (n : Z) : Q :=
  let a := Z.abs n in
  if a <? 2 ^ 53 then inject_Z n
  else
    let e := Z.log2 a - 52 in
    let m := Z.shiftr a e in
    let r := a - Z.shiftl m e in
    let half := Z.shiftl 1 (e - 1) in
    let m' := if (half <? r) || ((half =? r) && Z.odd m) then m + 1 else m in
    inject_Z (Z.sgn n * Z.shiftl m' e).

End PyNum.

(** ** Python dictionaries *)

Module PyDict.

(** What a dictionary holds under one key. *)
Inductive item (A : Type) :=
| Absent
| Null
| Given (a : A).
Arguments Absent {A}.
Arguments Null {A}.
Arguments Given {A} a.

(** [key in d]. *)
Definition has_key {A} (i : item A) : bool :=
  match i with Absent => false | _ => true end.

(** [d.get(key)]: [None] for an absent key and for a null. *)
Definition get {A} (i : item A) : option A :=
  match i with Given a => Some a | _ => None end.

(** [d.get(key, default)]: the default stands in for an absent key
    only. *)
Definition get_default {A} (i : item A) (default : A) : option A :=
  match i with
  | Absent => Some default
  | Null => None
  | Given a => Some a
  end.

(** The item of a dictionary that holds no null. *)
Definition of_option {A} (o : option A) : item A :=
  match o with Some a => Given a | None => Absent end.

(** A JSON number, as [json.load] reads it: an [int] or a finite
    [float]. *)
Inductive number :=
| Int (n : Z)
| Float (x : Q).

End PyDict.

(** ** A reference reader of ISO-8601 instants

    [datetime.fromisoformat] belongs to the Python library; the ranker
    below takes it as a parameter. For the concrete scenarios this reader
    covers the one shape the GitHub API emits once its trailing [Z] has
    been rewritten: [YYYY-MM-DDTHH:MM:SS+00:00]. *)

Module Iso.

Definition digit (c : ascii) : option Z :=
  let n := nat_of_ascii c in
  if (Nat.leb 48 n && Nat.leb n 57)%bool then Some (Z.of_nat (n - 48)) else None.

Fixpoint digits (acc : Z) (n : nat) (s : string) : option (Z * string) :=
  match n with
  | O => Some (acc, s)
  | S n' =>
      match s with
      | EmptyString => None
      | String c s' =>
          match digit c with
          | Some d => digits (10 * acc + d) n' s'
          | None => None
          end
      end
  end.

Definition expect (lit : string) (s : string) : option string :=
  if String.prefix lit s
  then Some (String.substring (String.length lit)
               (String.length s - String.length lit) s)
  else None.

(** Days from 1970-01-01 to the given civil date (proleptic Gregorian). *)
Definition days_from_civil (y m d : Z) : Z :=
  let y' := if m <=? 2 then y - 1 else y in
  let era := y' / 400 in
  let yoe := y' - era * 400 in
  let mp := if 2 <? m then m - 3 else m + 9 in
  let doy := (153 * mp + 2) / 5 + d - 1 in
  let doe := yoe * 365 + yoe / 4 - yoe / 100 + doy in
  era * 146097 + doe - 719468.

Definition bind {A B} (o : option A) (k : A -> option B) : option B :=
  match o with Some a => k a | None => None end.

(** Microseconds since the epoch, or [None] where Python raises. *)
Definition fromisoformat (s : string) : option Z :=
  bind (digits 0 4 s) (fun '(y, s) =>
  bind (expect "-" s) (fun s =>
  bind (digits 0 2 s) (fun '(mo, s) =>
  bind (expect "-" s) (fun s =>
  bind (digits 0 2 s) (fun '(d, s) =>
  bind (expect "T" s) (fun s =>
  bind (digits 0 2 s) (fun '(h, s) =>
  bind (expect ":" s) (fun s =>
  bind (digits 0 2 s) (fun '(mi, s) =>
  bind (expect ":" s) (fun s =>
  bind (digits 0 2 s) (fun '(sec, s) =>
  if String.eqb s "+00:00"
  then Some ((((days_from_civil y mo d * 24 + h) * 60 + mi) * 60 + sec) * 1000000)
  else None))))))))))).

End Iso.

(** ** The discovery ranker: [scripts/github-monitor.py] *)

Module Monitor.

(** One item of a GitHub search answer, with the keys the monitor reads. *)
Record Repo := {
  repo_id : Z;                        (* "id" *)
  name : option string;
  full_name : option string;
  owner_login : option string;        (* "owner" -> "login" *)
  html_url : option string;
  clone_url : option string;
  stargazers_count : option Z;
  forks_count : option Z;
  language : option string;
  description : option string;
  topics : option (list string);
  updated_at : option string;
  created_at : option string;
  archived : option bool;
}.

(** One entry of the list [discover_repositories] returns. *)
Record Discovered := {
  out_id : Z;
  out_name : option string;
  out_full_name : option string;
  out_owner : option string;
  out_url : option string;
  out_clone_url : option string;
  out_stars : option Z;
  out_forks : option Z;
  out_language : option string;
  out_description : option string;
  out_topics : list string;
  out_updated_at : option string;
  out_created_at : option string;
  audit_priority : Z;
}.

(** [d.get(key, default)]. *)
Definition get {A} (o : option A) (default : A) : A :=
  match o with Some a => a | None => default end.

(** [key in d]. *)
Definition is_Some_b {A} (o : option A) : bool :=
  match o with Some _ => true | None => false end.

Definition SOLANA_QUERIES : list string :=
  [ "language:rust solana program stars:>50";
    "language:rust solana smart contract stars:>50";
    "language:rust solana anchor stars:>50";
    "topic:solana language:rust stars:>50";
    "spl-token language:rust stars:>50" ].

Definition EXCLUDED_REPOS : list string :=
  [ "solana-labs/solana"; "solana-labs/solana-program-library" ].

Definition solana_keywords : list string :=
  [ "solana"; "spl"; "anchor"; "sealevel" ].

Definition is_solana_project (repo : Repo) : bool :=
  let description := PyStr.lower (get (description repo) "") in
  if PyStr.any (fun kw => PyStr.contains kw description) solana_keywords then true
  else
    let topics := map PyStr.lower (get (topics repo) []) in
    if PyStr.any (fun kw => PyStr.mem kw topics) solana_keywords then true
    else
      match language repo with
      | Some l => String.eqb l "Rust"
      | None => false
      end.

Definition should_audit (repo : Repo) (min_stars : Z) : bool :=
  if get (stargazers_count repo) 0 <? min_stars then false
  else if PyStr.mem (get (full_name repo) "") EXCLUDED_REPOS then false
  else if negb (is_solana_project repo) then false
  else if get (archived repo) false then false
  else true.

Definition keywords : list string :=
  [ "token"; "defi"; "lending"; "dex"; "amm"; "staking"; "governance" ].

Section Ranker.

(** [datetime.fromisoformat], [None] where it raises, and the reading of
    [datetime.now], both in microseconds. *)
Variable fromisoformat : string -> option Z.
Variable now : Z.

(** The block under "Recent activity": what it adds to the score. An
    absent or empty [updated_at] skips the block; an exception inside it
    is swallowed by the bare [except]. *)
Definition recent_activity (repo : Repo) : Q :=
  match updated_at repo with
  | None | Some EmptyString => 0%Q
  | Some updated_at =>
      match fromisoformat (PyStr.replace_char "Z" "+00:00" updated_at) with
      | None => 0%Q
      | Some updated =>
          let days_since := PyNum.days (now - updated) in
          if days_since <? 7 then 30%Q
          else if days_since <? 30 then 20%Q
          else if days_since <? 90 then 10%Q
          else 0%Q
      end
  end.

(** The loop over [keywords], threading [score]. *)
Definition keyword_loop (description : string) (score : Q) : Q :=
  fold_left
    (fun score kw => if PyStr.contains kw description then (score + 2)%Q else score)
    keywords score.

Definition _calculate_priority (repo : Repo) : Z :=
  let score := 0%Q in
  let stars := get (stargazers_count repo) 0 in
  let score := (score + Qmin (PyNum.truediv stars 100) 40)%Q in
  let score := (score + recent_activity repo)%Q in
  let forks := get (forks_count repo) 0 in
  let score := (score + Qmin (PyNum.truediv forks 20) 20)%Q in
  let description := PyStr.lower (get (description repo) "") in
  let score := keyword_loop description score in
  PyNum.int score.

End Ranker.

Section Discovery.

Variable fromisoformat : string -> option Z.
Variable now : Z.
(** [strftime("%Y-%m-%d")] of an instant. *)
Variable strftime_Ymd : Z -> string.
(** [search_repositories(query, per_page)]: the provider, already reduced
    to the list it returns (the empty list when the request fails). *)
Variable search_repositories : string -> Z -> list Repo.

(** The dictionary appended to [discovered]. *)
Definition entry (repo : Repo) : Discovered := {|
  out_id := repo_id repo;
  out_name := name repo;
  out_full_name := full_name repo;
  out_owner := owner_login repo;
  out_url := html_url repo;
  out_clone_url := clone_url repo;
  out_stars := stargazers_count repo;
  out_forks := forks_count repo;
  out_language := language repo;
  out_description := description repo;
  out_topics := get (topics repo) [];
  out_updated_at := updated_at repo;
  out_created_at := created_at repo;
  audit_priority := _calculate_priority fromisoformat now repo;
|}.

Section Loops.

Variable max_repos : Z.
Variable min_stars : Z.
Variable since_date : string.

(** [len(discovered) >= max_repos]. *)
Definition full (discovered : list Discovered) : bool :=
  max_repos <=? Z.of_nat (length discovered).

(** The inner loop [for repo in repos], threading [discovered] and
    [seen]; it stops at the [break]. *)
Fixpoint scan_repos (repos : list Repo) (discovered : list Discovered)
    (seen : gset Z) : list Discovered * gset Z :=
  match repos with
  | [] => (discovered, seen)
  | repo :: rest =>
      let repo_id := repo_id repo in
      if bool_decide (repo_id ∈ seen) then scan_repos rest discovered seen
      else
        let seen := {[repo_id]} ∪ seen in
        if should_audit repo min_stars then
          let discovered := discovered ++ [entry repo] in
          if full discovered then (discovered, seen)
          else scan_repos rest discovered seen
        else scan_repos rest discovered seen
  end.

(** The outer loop [for query in SOLANA_QUERIES]. *)
Fixpoint scan_queries (queries : list string) (discovered : list Discovered)
    (seen : gset Z) : list Discovered :=
  match queries with
  | [] => discovered
  | query :: rest =>
      let filtered_query := (query ++ " pushed:>" ++ since_date)%string in
      let repos := search_repositories filtered_query 30 in
      let '(discovered, seen) := scan_repos repos discovered seen in
      if full discovered then discovered
      else scan_queries rest discovered seen
  end.

End Loops.

(** [list.sort(key=audit_priority, reverse=True)]: stable, highest first. *)
Fixpoint insert_desc (x : Discovered) (l : list Discovered) : list Discovered :=
  match l with
  | [] => [x]
  | y :: l' =>
      if audit_priority y <=? audit_priority x then x :: y :: l'
      else y :: insert_desc x l'
  end.

Definition sort_desc (l : list Discovered) : list Discovered :=
  fold_right insert_desc [] l.

(** [a] may stand before [b] in a list sorted highest score first. *)
Definition desc (a b : Discovered) : Prop := audit_priority b <= audit_priority a.

Definition discover_repositories (max_repos min_stars days_since_update : Z)
  : list Discovered :=
  let since_date :=
    strftime_Ymd (now - days_since_update * PyNum.usec_per_day) in
  let discovered := scan_queries max_repos min_stars since_date SOLANA_QUERIES [] ∅ in
  let discovered := sort_desc discovered in
  PyNum.slice_to max_repos discovered.

(** *** The ranking as the specification words it

    Every answer of every query, deduplicated by identity (first
    occurrence wins), filtered by admission, scored, sorted by score
    descending, cut to the first [N]. *)

Fixpoint dedup (repos : list Repo) (seen : gset Z) : list Repo :=
  match repos with
  | [] => []
  | repo :: rest =>
      if bool_decide (repo_id repo ∈ seen) then dedup rest seen
      else repo :: dedup rest ({[repo_id repo]} ∪ seen)
  end.

(** The set [seen] once a whole list of answers has been looked at. *)
Definition visit (repos : list Repo) (seen : gset Z) : gset Z :=
  fold_left
    (fun seen repo =>
       if bool_decide (repo_id repo ∈ seen) then seen
       else {[repo_id repo]} ∪ seen)
    repos seen.

Definition all_results (since_date : string) : list Repo :=
  concat (map (fun query => search_repositories (query ++ " pushed:>" ++ since_date)%string 30)
              SOLANA_QUERIES).

Definition admitted (min_stars : Z) (since_date : string) : list Discovered :=
  map entry
    (List.filter (fun repo => should_audit repo min_stars)
       (dedup (all_results since_date) ∅)).

Definition spec_discover_repositories (max_repos min_stars days_since_update : Z)
  : list Discovered :=
  let since_date :=
    strftime_Ymd (now - days_since_update * PyNum.usec_per_day) in
  firstn (Z.to_nat max_repos) (sort_desc (admitted min_stars since_date)).

End Discovery.

End Monitor.

(** ** The findings store: [scripts/findings-db.py] *)

Module FindingsDb.

(** An instant, as the [TIMESTAMP] columns hold it. The columns hold
    text ([CURRENT_TIMESTAMP] for the column defaults,
    [datetime.now().isoformat()] for the values the program binds); the
    embedding keeps the instant each text denotes and takes every
    reading of a clock as an argument of the operation that makes it.
    [CURRENT_TIMESTAMP] is read in UTC and [datetime.now()] in local
    time, so nothing relates the readings of the two clocks. *)
Definition timestamp := Z.

(** [sqlite3.IntegrityError], with the constraint that failed. *)
Inductive IntegrityError :=
| NotNullFailed (column : string)
| CheckFailed (column : string)
| UniqueFailed (column : string).

(** The exceptions an operation of the store raises: the constraint
    failures of SQLite, [TypeError] from the Python code itself, and
    [OverflowError] from [sqlite3] when it binds an [int] that does not
    fit 64 bits. *)
Inductive Exception :=
| Integrity (e : IntegrityError)
| TypeError
| OverflowError.
Coercion Integrity : IntegrityError >-> Exception.

Inductive result (A : Type) :=
| Ok (a : A)
| Err (e : Exception).
Arguments Ok {A} a.
Arguments Err {A} e.

(** An [int] that [sqlite3] can bind. *)
Definition int64 (n : Z) : bool := (- 2 ^ 63 <=? n) && (n <? 2 ^ 63).

(** Binding an optional [int] ([None] binds as [NULL]). *)
Definition binds_int (n : option Z) : bool :=
  match n with Some n => int64 n | None => true end.

(** Binding an optional number: a [float] always binds. *)
Definition binds_number (x : option PyDict.number) : bool :=
  match x with Some (PyDict.Int n) => int64 n | _ => true end.

(** The value of a [REAL] column for a bound number: SQLite turns an
    integer into floating point. *)
Definition real_of (x : PyDict.number) : Q :=
  match x with
  | PyDict.Int n => PyNum.float_of_int n
  | PyDict.Float x => x
  end.

(** The dictionary given to [add_finding]: the keys the function reads,
    and the five it never reads. The function tests ['finding_id' in
    finding] and reads [repo_name], [confidence] and [created_at] with a
    default, so these four tell an absent key from a null; every other
    key is read with a plain [get], for which [None] is an absent key or
    a null. *)
Module Input.
Record Finding := {
  finding_id : PyDict.item string;
  repo_name : PyDict.item string;
  repo_url : option string;
  repo_owner : option string;
  file_path : option string;
  line_number : option Z;
  vulnerability_type : option string;
  title : option string;
  description : option string;
  severity : option string;
  impact : option string;
  recommendation : option string;
  code_snippet : option string;
  analyzer : option string;
  scan_id : option string;
  confidence : PyDict.item PyDict.number;
  created_at : PyDict.item timestamp;
  status : option string;
  bounty_platform : option string;
  bounty_url : option string;
  bounty_amount : option Q;
  notes : option string;
}.
End Input.

(** A row of the table [findings]; a nullable column is an [option]. *)
Record Row := {
  rowid : Z;                          (* id INTEGER PRIMARY KEY AUTOINCREMENT *)
  finding_id : string;                (* UNIQUE NOT NULL *)
  repo_name : string;                 (* NOT NULL *)
  repo_url : string;                  (* NOT NULL *)
  repo_owner : option string;
  file_path : option string;
  line_number : option Z;
  vulnerability_type : string;        (* NOT NULL *)
  title : string;                     (* NOT NULL *)
  description : option string;
  severity : string;                  (* NOT NULL, CHECK *)
  impact : option string;
  recommendation : option string;
  code_snippet : option string;
  status : string;                    (* DEFAULT 'pending', CHECK *)
  confidence : option Q;              (* DEFAULT 0.0 *)
  analyzer : option string;
  scan_id : option string;
  created_at : option timestamp;      (* DEFAULT CURRENT_TIMESTAMP *)
  updated_at : timestamp;             (* DEFAULT CURRENT_TIMESTAMP *)
  submitted_at : option timestamp;
  bounty_platform : option string;
  bounty_url : option string;
  bounty_amount : option Q;
  notes : option string;
}.

(** The database: the table and the counter [sqlite_sequence] keeps for
    [AUTOINCREMENT]. *)
Record Db := {
  findings : list Row;
  sqlite_sequence : Z;
}.

Definition empty_db : Db := {| findings := []; sqlite_sequence := 0 |}.

(** The two [CHECK ... IN (...)] lists of [init_database]. *)
Definition severities : list string :=
  [ "Critical"; "High"; "Medium"; "Low"; "Informational" ].

Definition statuses : list string :=
  [ "pending"; "approved"; "rejected"; "submitted"; "confirmed"; "paid" ].

Definition check_severity (s : string) : bool := PyStr.mem s severities.
Definition check_status (s : string) : bool := PyStr.mem s statuses.

(** [WHERE finding_id = ?]. *)
Definition has_id (finding_id' : string) (row : Row) : bool :=
  String.eqb (finding_id row) finding_id'.

Section Store.

(** [strftime('%Y%m%d')] of an instant. *)
Variable strftime_Ymd : timestamp -> string.

(** The first two lines of [add_finding], and [finding.get('finding_id')]
    after them: when the key is absent an identifier is made from the
    date and the first ten characters of [repo_name] (of ["unknown"]
    when that key is absent too; slicing the [None] of a null
    [repo_name] raises) and written into the dictionary; a key that is
    there is left alone, also when it holds null. [now] is the reading
    of [datetime.now()]. *)
Definition bound_finding_id (finding : Input.Finding) (now : timestamp)
  : result (option string) :=
  if negb (PyDict.has_key (Input.finding_id finding)) then
    match PyDict.get_default (Input.repo_name finding) "unknown" with
    | Some repo_name =>
        Ok (Some ("FND-" ++ strftime_Ymd now ++ "-"
                    ++ PyStr.take 10 repo_name)%string)
    | None => Err TypeError
    end
  else Ok (PyDict.get (Input.finding_id finding)).

(** The identifier a finding is stored under: the string bound to the
    column [finding_id] (the empty string when none is bound, in which
    case nothing is stored). *)
Definition effective_id (finding : Input.Finding) (now : timestamp) : string :=
  match bound_finding_id finding now with
  | Ok (Some finding_id) => finding_id
  | _ => ""
  end.

(** [add_finding]. [now] is the reading of [datetime.now()] and
    [current_timestamp] the one SQLite takes for the column default. The
    [INSERT] names seventeen columns; the others take their defaults.
    [sqlite3] binds the parameters before SQLite runs the statement;
    SQLite checks [NOT NULL], then [CHECK], then [UNIQUE]. The result is
    the new database and [cursor.lastrowid]. *)
Definition add_finding (db : Db) (finding : Input.Finding)
    (now current_timestamp : timestamp) : result (Db * Z) :=
  match bound_finding_id finding now with
  | Err e => Err e
  | Ok bound_id =>
  let confidence := PyDict.get_default (Input.confidence finding) (PyDict.Float 0) in
  let created_at := PyDict.get_default (Input.created_at finding) now in
  if negb (binds_int (Input.line_number finding) && binds_number confidence)
  then Err OverflowError
  else
  match bound_id with
  | None => Err (NotNullFailed "finding_id")
  | Some finding_id =>
  match PyDict.get (Input.repo_name finding) with
  | None => Err (NotNullFailed "repo_name")
  | Some repo_name =>
  match Input.repo_url finding with
  | None => Err (NotNullFailed "repo_url")
  | Some repo_url =>
  match Input.vulnerability_type finding with
  | None => Err (NotNullFailed "vulnerability_type")
  | Some vulnerability_type =>
  match Input.title finding with
  | None => Err (NotNullFailed "title")
  | Some title =>
  match Input.severity finding with
  | None => Err (NotNullFailed "severity")
  | Some severity =>
      if negb (check_severity severity) then Err (CheckFailed "severity")
      else if existsb (has_id finding_id) (findings db)
      then Err (UniqueFailed "finding_id")
      else
        let lastrowid := sqlite_sequence db + 1 in
        let row := {|
          rowid := lastrowid;
          finding_id := finding_id;
          repo_name := repo_name;
          repo_url := repo_url;
          repo_owner := Input.repo_owner finding;
          file_path := Input.file_path finding;
          line_number := Input.line_number finding;
          vulnerability_type := vulnerability_type;
          title := title;
          description := Input.description finding;
          severity := severity;
          impact := Input.impact finding;
          recommendation := Input.recommendation finding;
          code_snippet := Input.code_snippet finding;
          status := "pending";
          confidence := option_map real_of confidence;
          analyzer := Input.analyzer finding;
          scan_id := Input.scan_id finding;
          created_at := created_at;
          updated_at := current_timestamp;
          submitted_at := None;
          bounty_platform := None;
          bounty_url := None;
          bounty_amount := None;
          notes := None;
        |} in
        Ok ({| findings := findings db ++ [row];
               sqlite_sequence := lastrowid |}, lastrowid)
  end end end end end end end.

End Store.

(** [COALESCE(?, notes)]. *)
Definition coalesce {A} (x y : option A) : option A :=
  match x with Some _ => x | None => y end.

(** The [SET] clause of the two [UPDATE] statements, on one row. *)
Definition set_status (status' : string) (notes' : option string)
    (now_updated now_submitted : timestamp) (row : Row) : Row := {|
  rowid := rowid row;
  finding_id := finding_id row;
  repo_name := repo_name row;
  repo_url := repo_url row;
  repo_owner := repo_owner row;
  file_path := file_path row;
  line_number := line_number row;
  vulnerability_type := vulnerability_type row;
  title := title row;
  description := description row;
  severity := severity row;
  impact := impact row;
  recommendation := recommendation row;
  code_snippet := code_snippet row;
  status := status';
  confidence := confidence row;
  analyzer := analyzer row;
  scan_id := scan_id row;
  created_at := created_at row;
  updated_at := now_updated;
  submitted_at :=
    if String.eqb status' "submitted" then Some now_submitted
    else submitted_at row;
  bounty_platform := bounty_platform row;
  bounty_url := bounty_url row;
  bounty_amount := bounty_amount row;
  notes := coalesce notes' (notes row);
|}.

(** [update_finding_status]. [now_updated] and [now_submitted] are the
    successive readings of [datetime.now()] bound to [updated_at] and to
    [submitted_at]. The [CHECK] on [status] is evaluated for the rows the
    [WHERE] clause selects; when it fails nothing is written. *)
Definition update_finding_status (db : Db) (finding_id' status' : string)
    (notes' : option string) (now_updated now_submitted : timestamp)
  : result Db :=
  if (existsb (has_id finding_id') (findings db) && negb (check_status status'))%bool
  then Err (CheckFailed "status")
  else
    Ok {| findings :=
            map (fun row =>
                   if has_id finding_id' row
                   then set_status status' notes' now_updated now_submitted row
                   else row)
                (findings db);
          sqlite_sequence := sqlite_sequence db |}.

(** [get_finding_by_id]: [fetchone] on the selected rows. *)
Definition get_finding_by_id (db : Db) (finding_id' : string) : option Row :=
  find (has_id finding_id') (findings db).

(** [severity_order.index(x)], for [x] in the list. *)
Fixpoint index (x : string) (l : list string) : nat :=
  match l with
  | [] => O
  | y :: l' => if String.eqb y x then O else S (index x l')
  end.

(** The [CASE severity ... END] of the [ORDER BY] clause. *)
Definition case_severity (severity : string) : Z :=
  if String.eqb severity "Critical" then 1
  else if String.eqb severity "High" then 2
  else if String.eqb severity "Medium" then 3
  else if String.eqb severity "Low" then 4
  else 5.

(** SQLite compares [NULL] as smaller than every value. *)
Definition real_le (a b : option Q) : bool :=
  match a, b with
  | None, _ => true
  | Some _, None => false
  | Some x, Some y => Qle_bool x y
  end.

(** [ORDER BY CASE severity ... END, confidence DESC]: [a] may stand
    before [b]. *)
Definition order_by (a b : Row) : bool :=
  (case_severity (severity a) <? case_severity (severity b))
  || ((case_severity (severity a) =? case_severity (severity b))
      && real_le (confidence b) (confidence a)).

(** The sort that realises the [ORDER BY]: rows that compare equal stay
    in table order. *)
Fixpoint insert_row (x : Row) (l : list Row) : list Row :=
  match l with
  | [] => [x]
  | y :: l' => if order_by x y then x :: y :: l' else y :: insert_row x l'
  end.

Definition sort_rows (l : list Row) : list Row := fold_right insert_row [] l.

Definition severity_order : list string :=
  [ "Critical"; "High"; "Medium"; "Low"; "Informational" ].

(** [get_pending_findings]. *)
Definition get_pending_findings (db : Db) (min_severity : string) : list Row :=
  let min_index :=
    if PyStr.mem min_severity severity_order
    then index min_severity severity_order else O in
  let allowed_severities := firstn (min_index + 1) severity_order in
  sort_rows
    (List.filter
       (fun row =>
          String.eqb (status row) "pending"
          && PyStr.mem (severity row) allowed_severities)
       (findings db)).

(** A run of [update_finding_status] calls, each with its arguments and
    its clock readings; a call that raises leaves the database as it
    was. *)
Record Call := {
  call_id : string;
  call_status : string;
  call_notes : option string;
  call_now_updated : timestamp;
  call_now_submitted : timestamp;
}.

Definition step (db : Db) (c : Call) : Db :=
  match update_finding_status db (call_id c) (call_status c) (call_notes c)
          (call_now_updated c) (call_now_submitted c) with
  | Ok db' => db'
  | Err _ => db
  end.

Definition run (db : Db) (calls : list Call) : Db := fold_left step calls db.

(** *** The vocabulary of the specification *)

(** The place of a severity in the order Critical, High, Medium, Low,
    Informational. *)
Definition rank (severity : string) : option nat :=
  if String.eqb severity "Critical" then Some 0%nat
  else if String.eqb severity "High" then Some 1%nat
  else if String.eqb severity "Medium" then Some 2%nat
  else if String.eqb severity "Low" then Some 3%nat
  else if String.eqb severity "Informational" then Some 4%nat
  else None.

(** [severity] is at or above [min_severity]. *)
Definition at_or_above (severity min_severity : string) : bool :=
  match rank severity, rank min_severity with
  | Some i, Some j => Nat.leb i j
  | _, _ => false
  end.

Definition is_pending (row : Row) : bool := String.eqb (status row) "pending".

(** [a] is at least [b] as a stored real. *)
Definition real_ge (a b : option Q) : Prop :=
  match b, a with
  | None, _ => True
  | Some _, None => False
  | Some y, Some x => (y <= x)%Q
  end.

(** Severity rank ascending, then confidence descending. *)
Definition ranked (a b : Row) : Prop :=
  exists i j : nat,
    rank (severity a) = Some i /\ rank (severity b) = Some j
    /\ ((i < j)%nat \/ (i = j /\ real_ge (confidence a) (confidence b))).

(** Slicing [repo_name] raises: the identifier has to be generated and
    [repo_name] holds null. *)
Definition slices_null (finding : Input.Finding) : bool :=
  match Input.finding_id finding, Input.repo_name finding with
  | PyDict.Absent, PyDict.Null => true
  | _, _ => false
  end.

(** An integer of the dictionary does not fit 64 bits: [line_number], or
    a [confidence] given as an integer. *)
Definition too_large (finding : Input.Finding) : bool :=
  negb (binds_int (Input.line_number finding))
  || negb (binds_number (PyDict.get (Input.confidence finding))).

(** A required key of the dictionary is absent or holds null; for
    [finding_id], which is generated when absent, it holds null. *)
Definition missing_required (finding : Input.Finding) : bool :=
  match Input.finding_id finding with PyDict.Null => true | _ => false end
  || negb (Monitor.is_Some_b (PyDict.get (Input.repo_name finding)))
  || negb (Monitor.is_Some_b (Input.repo_url finding))
  || negb (Monitor.is_Some_b (Input.vulnerability_type finding))
  || negb (Monitor.is_Some_b (Input.title finding))
  || negb (Monitor.is_Some_b (Input.severity finding)).

(** The severity supplied is not one of the five. *)
Definition bad_severity (finding : Input.Finding) : bool :=
  match Input.severity finding with
  | Some severity => negb (check_severity severity)
  | None => false
  end.

(** The same dictionary with other values under the keys [add_finding]
    never reads. *)
Definition with_unread (finding : Input.Finding)
    (status bounty_platform bounty_url : option string)
    (bounty_amount : option Q) (notes : option string) : Input.Finding := {|
  Input.finding_id := Input.finding_id finding;
  Input.repo_name := Input.repo_name finding;
  Input.repo_url := Input.repo_url finding;
  Input.repo_owner := Input.repo_owner finding;
  Input.file_path := Input.file_path finding;
  Input.line_number := Input.line_number finding;
  Input.vulnerability_type := Input.vulnerability_type finding;
  Input.title := Input.title finding;
  Input.description := Input.description finding;
  Input.severity := Input.severity finding;
  Input.impact := Input.impact finding;
  Input.recommendation := Input.recommendation finding;
  Input.code_snippet := Input.code_snippet finding;
  Input.analyzer := Input.analyzer finding;
  Input.scan_id := Input.scan_id finding;
  Input.confidence := Input.confidence finding;
  Input.created_at := Input.created_at finding;
  Input.status := status;
  Input.bounty_platform := bounty_platform;
  Input.bounty_url := bounty_url;
  Input.bounty_amount := bounty_amount;
  Input.notes := notes;
|}.

(** The call is [update_finding_status(finding_id', "submitted", ...)]. *)
Definition submits (finding_id' : string) (c : Call) : bool :=
  String.eqb (call_id c) finding_id' && String.eqb (call_status c) "submitted".

(** The reading bound to [submitted_at] by the last such call of a run,
    or [init] when there is none. *)
Definition last_submitted (finding_id' : string) (calls : list Call)
    (init : option timestamp) : option timestamp :=
  fold_left
    (fun acc c => if submits finding_id' c then Some (call_now_submitted c) else acc)
    calls init.

End FindingsDb.

(** ** Concrete scenarios *)

Module Scenario.

Import Monitor.

(** 2026-11-03T12:00:00Z. *)
Definition now : Z := 1793707200000000.

Definition repo (repo_id : Z) (full_name : string) (stars forks : Z)
    (description updated_at : string) : Repo := {|
  repo_id := repo_id;
  name := Some full_name;
  full_name := Some full_name;
  owner_login := Some "acme";
  html_url := None;
  clone_url := None;
  stargazers_count := Some stars;
  forks_count := Some forks;
  language := Some "Rust";
  description := Some description;
  topics := Some [];
  updated_at := Some updated_at;
  created_at := None;
  archived := Some false;
|}.

(** 4000 stars, pushed two days before [now], 80 forks. *)
Definition lending : Repo :=
  repo 1 "acme/lend" 4000 80 "solana lending protocol" "2026-11-01T12:00:00Z".

(** Every term of the score at its largest. *)
Definition saturated : Repo :=
  repo 2 "acme/everything" 4000 400
    "Solana DeFi: token lending, DEX and AMM, staking, governance"
    "2026-11-03T08:30:00Z".

(** A small project that the first query answers before a large one. *)
Definition small : Repo :=
  repo 3 "acme/small" 100 0 "solana program" "2026-11-01T12:00:00Z".

Definition strftime_Ymd (t : Z) : string := "2026-10-27".

Definition search_repositories (query : string) (per_page : Z) : list Repo :=
  if String.prefix "language:rust solana program" query
  then [ small; lending ] else [].

End Scenario.

Module Ledger.

Import FindingsDb.

Definition strftime_Ymd (t : timestamp) : string := "20261103".

(** An analyzer result with every required key but, possibly, the
    identifier and the repository name. *)
Definition analyzer_result (finding_id repo_name : PyDict.item string)
    (line_number : option Z) (severity : string)
    (confidence : PyDict.item PyDict.number)
    (created_at : PyDict.item timestamp) : Input.Finding := {|
  Input.finding_id := finding_id;
  Input.repo_name := repo_name;
  Input.repo_url := Some "https://github.com/acme/lend";
  Input.repo_owner := Some "acme";
  Input.file_path := Some "programs/lend/src/lib.rs";
  Input.line_number := line_number;
  Input.vulnerability_type := Some "missing-signer-check";
  Input.title := Some "Authority is not checked";
  Input.description := None;
  Input.severity := Some severity;
  Input.impact := None;
  Input.recommendation := None;
  Input.code_snippet := None;
  Input.analyzer := Some "semgrep";
  Input.scan_id := None;
  Input.confidence := confidence;
  Input.created_at := created_at;
  Input.status := None;
  Input.bounty_platform := None;
  Input.bounty_url := None;
  Input.bounty_amount := None;
  Input.notes := None;
|}.

(** The usual one: repository [acme/lend], line 42, a confidence given
    as a float, no [created_at]. *)
Definition finding (finding_id : option string) (severity : string)
    (confidence : Q) : Input.Finding :=
  analyzer_result (PyDict.of_option finding_id) (PyDict.Given "acme/lend")
    (Some 42) severity (PyDict.Given (PyDict.Float confidence)) PyDict.Absent.

(** The same with a status outside the six, and bounty fields. *)
Definition finding_with_status : Input.Finding :=
  with_unread (finding (Some "FND-1") "High" 80)
    (Some "escalated") (Some "immunefi") None (Some 5000%Q) (Some "urgent").

(** No title. *)
Definition finding_without_title : Input.Finding := {|
  Input.finding_id := PyDict.Given "FND-2";
  Input.repo_name := PyDict.Given "acme/lend";
  Input.repo_url := Some "https://github.com/acme/lend";
  Input.repo_owner := None;
  Input.file_path := None;
  Input.line_number := None;
  Input.vulnerability_type := Some "missing-signer-check";
  Input.title := None;
  Input.description := None;
  Input.severity := Some "High";
  Input.impact := None;
  Input.recommendation := None;
  Input.code_snippet := None;
  Input.analyzer := None;
  Input.scan_id := None;
  Input.confidence := PyDict.Absent;
  Input.created_at := PyDict.Absent;
  Input.status := None;
  Input.bounty_platform := None;
  Input.bounty_url := None;
  Input.bounty_amount := None;
  Input.notes := None;
|}.

(** [add_finding] at instant [t], the database kept when it raises. *)
Definition add (db : Db) (f : Input.Finding) (t : timestamp) : Db :=
  match add_finding strftime_Ymd db f t t with
  | Ok (db', _) => db'
  | Err _ => db
  end.

(** One pending finding of severity High. *)
Definition one_high : Db := add empty_db (finding (Some "FND-1") "High" 80) 100.

(** Its row. *)
Definition high_row : Row := {|
  rowid := 1;
  finding_id := "FND-1";
  repo_name := "acme/lend";
  repo_url := "https://github.com/acme/lend";
  repo_owner := Some "acme";
  file_path := Some "programs/lend/src/lib.rs";
  line_number := Some 42;
  vulnerability_type := "missing-signer-check";
  title := "Authority is not checked";
  description := None;
  severity := "High";
  impact := None;
  recommendation := None;
  code_snippet := None;
  status := "pending";
  confidence := Some 80%Q;
  analyzer := Some "semgrep";
  scan_id := None;
  created_at := Some 100;
  updated_at := 100;
  submitted_at := None;
  bounty_platform := None;
  bounty_url := None;
  bounty_amount := None;
  notes := None;
|}.

(** Pending findings of severities Critical, Low, High, Medium. *)
Definition four : Db :=
  add (add (add (add empty_db
    (finding (Some "FND-C") "Critical" 50) 100)
    (finding (Some "FND-L") "Low" 90) 101)
    (finding (Some "FND-H") "High" 70) 102)
    (finding (Some "FND-M") "Medium" 60) 103.

Definition call (finding_id status : string) (t : timestamp) : Call := {|
  call_id := finding_id;
  call_status := status;
  call_notes := None;
  call_now_updated := t;
  call_now_submitted := t;
|}.

End Ledger.

(** ** Sorting, as the table queries and [list.sort] do it

    A stable insertion sort under a test [before a b] that tells whether
    [a] may stand before [b]. *)

Module Sorting.

Fixpoint insert_by {A} (before : A -> A -> bool) (x : A) (l : list A) : list A :=
  match l with
  | [] => [x]
  | y :: l' => if before x y then x :: y :: l' else y :: insert_by before x l'
  end.

Definition sort_by {A} (before : A -> A -> bool) (l : list A) : list A :=
  fold_right (insert_by before) [] l.

End Sorting.

(** ** The findings store: the list query *)

Module Queries.

Import FindingsDb.

(** [if severity:] on an optional string argument: given and not empty. *)
Definition given (arg : option string) : bool :=
  match arg with
  | Some (String _ _) => true
  | _ => false
  end.

(** The fragment [AND column = ?], present only for a given argument. *)
Definition and_equals (arg : option string) (column : string) : bool :=
  if given arg then String.eqb column (Monitor.get arg "") else true.

(** The [WHERE] clause [get_findings] assembles. *)
Definition where_clause (severity' status' repo : option string) (row : Row) : bool :=
  and_equals severity' (severity row)
  && and_equals status' (status row)
  && and_equals repo (repo_name row).

(** [ORDER BY created_at DESC]; a null sorts below every value. The
    column holds text and SQLite compares the texts; the embedding
    compares the instants, which is the same order only among texts of
    one layout and one offset. Nothing below relies on this order. *)
Definition newest_first (a b : Row) : bool :=
  match created_at b, created_at a with
  | None, _ => true
  | Some _, None => false
  | Some t_b, Some t_a => t_b <=? t_a
  end.

(** [LIMIT ?]: SQLite reads a negative bound as no bound. The limit is
    taken to fit 64 bits. *)
Definition limit_to {A} (limit : Z) (l : list A) : list A :=
  if limit <? 0 then l else firstn (Z.to_nat limit) l.

Definition get_findings (db : Db) (severity' status' repo : option string)
    (limit : Z) : list Row :=
  limit_to limit
    (Sorting.sort_by newest_first
       (List.filter (where_clause severity' status' repo) (findings db))).

End Queries.

(** ** The findings store: statistics *)

Module Statistics.

Import FindingsDb.

(** The dictionary [get_statistics] returns. *)
Record Stats := {
  total_findings : Z;
  by_severity : gmap string Z;
  by_status : gmap string Z;
  by_repo : gmap string Z;
  recent_findings : Z;
  submissions : Z;
  total_earnings : Q;
}.

(** [SELECT COUNT( * ) FROM findings WHERE p]. *)
Definition count_where (p : Row -> bool) (rows : list Row) : Z :=
  Z.of_nat (length (List.filter p rows)).

(** [SELECT column, COUNT( * ) FROM findings GROUP BY column], as the
    dictionary built from its rows. *)
Definition group_count (column : Row -> string) (rows : list Row) : gmap string Z :=
  fold_left
    (fun groups row => <[column row := default 0 (groups !! column row) + 1]> groups)
    rows ∅.

(** [ORDER BY count DESC LIMIT n] over the groups. SQLite leaves the
    order of groups with equal counts open; the embedding takes one. *)
Definition top_groups (n : nat) (groups : gmap string Z) : list (string * Z) :=
  firstn n
    (Sorting.sort_by (fun a b : string * Z => snd b <=? snd a) (map_to_list groups)).

(** [SUM(column)]: [NULL] when no row has a value. *)
Definition sum_real (values : list (option Q)) : option Q :=
  fold_left
    (fun acc v =>
       match v with
       | None => acc
       | Some x => Some (Monitor.get acc 0%Q + x)%Q
       end)
    values None.

Definition is_paid (row : Row) : bool := String.eqb (status row) "paid".

Definition is_submission (row : Row) : bool :=
  PyStr.mem (status row) [ "submitted"; "confirmed"; "paid" ].

(** [get_statistics]; [now] is the instant SQLite reads for
    [datetime('now', '-7 days')]. As in [Queries.newest_first], the
    comparison behind [recent_findings] is made on instants where SQLite
    compares texts (a null compares as unknown and is not counted);
    nothing below relies on that field. *)
Definition get_statistics (db : Db) (now : timestamp) : Stats := {|
  total_findings := count_where (fun _ => true) (findings db);
  by_severity := group_count severity (findings db);
  by_status := group_count status (findings db);
  by_repo := list_to_map (top_groups 10 (group_count repo_name (findings db)));
  recent_findings :=
    count_where
      (fun row =>
         match created_at row with
         | Some t => now - 7 * PyNum.usec_per_day <? t
         | None => false
         end)
      (findings db);
  submissions := count_where is_submission (findings db);
  total_earnings :=
    Monitor.get
      (sum_real (map bounty_amount (List.filter is_paid (findings db)))) 0%Q;
|}.

(** The counts of a grouping, added up. *)
Definition total_of (groups : gmap string Z) : Z :=
  map_fold (fun _ n acc => n + acc) 0 groups.

(** The number of rows whose [column] holds [value]. *)
Definition occurrences (column : Row -> string) (value : string) (rows : list Row) : Z :=
  count_where (fun row => String.eqb (column row) value) rows.

End Statistics.

(** ** The findings store: what a session can do to the table *)

Module Session.

Import FindingsDb.

(** A call of one of the two functions that write to [findings]. *)
Inductive Op :=
| AddFinding (finding : Input.Finding) (now current_timestamp : timestamp)
| UpdateStatus (c : Call).

Section Exec.

Variable strftime_Ymd : timestamp -> string.

(** The database after the call; a call that raises leaves it as it
    was. *)
Definition exec (db : Db) (op : Op) : Db :=
  match op with
  | AddFinding finding now current_timestamp =>
      match add_finding strftime_Ymd db finding now current_timestamp with
      | Ok (db', _) => db'
      | Err _ => db
      end
  | UpdateStatus c => step db c
  end.

Definition exec_all (db : Db) (ops : list Op) : Db := fold_left exec ops db.

End Exec.

(** What the schema promises of a row. *)
Definition row_ok (db : Db) (row : Row) : Prop :=
  check_severity (severity row) = true
  /\ check_status (status row) = true
  /\ 0 < rowid row <= sqlite_sequence db.

(** The table is in order: identifiers are unique, every row meets the
    two [CHECK]s, row numbers grow with the position in the table and
    stay within the sequence. *)
Definition well_formed (db : Db) : Prop :=
  0 <= sqlite_sequence db
  /\ List.NoDup (map finding_id (findings db))
  /\ Forall (row_ok db) (findings db)
  /\ StronglySorted (fun a b => rowid a < rowid b) (findings db).

(** No bounty has been recorded in the row. *)
Definition no_bounty (row : Row) : Prop :=
  bounty_platform row = None /\ bounty_url row = None /\ bounty_amount row = None.

(** [new] is [old] but for the four columns an update of the status
    writes. *)
Definition same_but_workflow (old new : Row) : Prop :=
  new = {|
    rowid := rowid old;
    finding_id := finding_id old;
    repo_name := repo_name old;
    repo_url := repo_url old;
    repo_owner := repo_owner old;
    file_path := file_path old;
    line_number := line_number old;
    vulnerability_type := vulnerability_type old;
    title := title old;
    description := description old;
    severity := severity old;
    impact := impact old;
    recommendation := recommendation old;
    code_snippet := code_snippet old;
    status := status new;
    confidence := confidence old;
    analyzer := analyzer old;
    scan_id := scan_id old;
    created_at := created_at old;
    updated_at := updated_at new;
    submitted_at := submitted_at new;
    bounty_platform := bounty_platform old;
    bounty_url := bounty_url old;
    bounty_amount := bounty_amount old;
    notes := notes new;
  |}.

End Session.

(** ** The findings store: repositories *)

Module Repositories.

Import FindingsDb.

(** The dictionary given to [add_repository]; every key is read with a
    plain [get]. The three counts are taken to fit 64 bits. *)
Module Input.
Record RepoInfo := {
  repo_name : option string;
  repo_url : option string;
  owner : option string;
  stars : option Z;
  forks : option Z;
  audit_priority : option Z;
  last_scan_id : option string;
  last_scan_date : option timestamp;
}.
End Input.

(** A row of the table [repositories]. *)
Record RepoRow := {
  id : Z;                             (* INTEGER PRIMARY KEY AUTOINCREMENT *)
  repo_name : string;                 (* UNIQUE NOT NULL *)
  repo_url : string;                  (* NOT NULL *)
  owner : option string;
  stars : option Z;
  forks : option Z;
  audit_priority : option Z;
  last_scan_id : option string;
  last_scan_date : option timestamp;
  total_findings : Z;                 (* DEFAULT 0 *)
  status : string;                    (* DEFAULT 'active', CHECK *)
  created_at : timestamp;             (* DEFAULT CURRENT_TIMESTAMP *)
}.

Record Table := {
  repositories : list RepoRow;
  sqlite_sequence : Z;
}.

Definition empty : Table := {| repositories := []; sqlite_sequence := 0 |}.

Definition named (repo_name' : string) (row : RepoRow) : bool :=
  String.eqb (repo_name row) repo_name'.

(** [add_repository]: [INSERT OR REPLACE]. A null in a [NOT NULL]
    column without default aborts the statement; a row that holds the
    same [repo_name] is deleted before the new one is written. The
    columns the statement does not name take their defaults. *)
Definition add_repository (t : Table) (repo_info : Input.RepoInfo)
    (current_timestamp : timestamp) : result Table :=
  match Input.repo_name repo_info with
  | None => Err (NotNullFailed "repo_name")
  | Some repo_name =>
  match Input.repo_url repo_info with
  | None => Err (NotNullFailed "repo_url")
  | Some repo_url =>
      let id := sqlite_sequence t + 1 in
      let row := {|
        id := id;
        repo_name := repo_name;
        repo_url := repo_url;
        owner := Input.owner repo_info;
        stars := Input.stars repo_info;
        forks := Input.forks repo_info;
        audit_priority := Input.audit_priority repo_info;
        last_scan_id := Input.last_scan_id repo_info;
        last_scan_date := Input.last_scan_date repo_info;
        total_findings := 0;
        status := "active";
        created_at := current_timestamp;
      |} in
      Ok {| repositories :=
              List.filter (fun old => negb (named repo_name old)) (repositories t)
              ++ [row];
            sqlite_sequence := id |}
  end end.

(** [SELECT * FROM repositories WHERE repo_name = ?]. *)
Definition lookup (t : Table) (repo_name' : string) : list RepoRow :=
  List.filter (named repo_name') (repositories t).

(** A run of [add_repository] calls. *)
Definition upsert (t : Table) (call : Input.RepoInfo * timestamp) : Table :=
  match add_repository t (fst call) (snd call) with
  | Ok t' => t'
  | Err _ => t
  end.

Definition upsert_all (t : Table) (calls : list (Input.RepoInfo * timestamp)) : Table :=
  fold_left upsert calls t.

(** What holds of each row of [repositories] however often the
    function is called. *)
Definition row_ok (t : Table) (row : RepoRow) : Prop :=
  status row = "active" /\ total_findings row = 0 /\ 0 < id row <= sqlite_sequence t.

Definition well_formed (t : Table) : Prop :=
  0 <= sqlite_sequence t
  /\ List.NoDup (map repo_name (repositories t))
  /\ Forall (row_ok t) (repositories t)
  /\ StronglySorted (fun a b => id a < id b) (repositories t).

End Repositories.

(** ** The findings store: scan history *)

Module ScanHistory.

Import FindingsDb.

(** The dictionary given to [add_scan_history]; the statement never
    reads [error_message]. The five counts and the status are read with
    a default, which stands in for an absent key and not for a null. *)
Module Input.
Record ScanInfo := {
  scan_id : option string;
  repo_name : option string;
  scan_date : option timestamp;
  semgrep_findings : PyDict.item Z;
  cargo_vulnerabilities : PyDict.item Z;
  llm_findings : PyDict.item Z;
  files_scanned : PyDict.item Z;
  lines_scanned : PyDict.item Z;
  duration_seconds : option Z;
  status : PyDict.item string;
  error_message : option string;
}.
End Input.

(** A row of the table [scan_history]; only [scan_id] and [repo_name]
    are [NOT NULL]. *)
Record ScanRow := {
  id : Z;
  scan_id : string;                   (* UNIQUE NOT NULL *)
  repo_name : string;                 (* NOT NULL *)
  scan_date : option timestamp;       (* DEFAULT CURRENT_TIMESTAMP *)
  semgrep_findings : option Z;        (* DEFAULT 0 *)
  cargo_vulnerabilities : option Z;   (* DEFAULT 0 *)
  llm_findings : option Z;            (* DEFAULT 0 *)
  files_scanned : option Z;           (* DEFAULT 0 *)
  lines_scanned : option Z;           (* DEFAULT 0 *)
  duration_seconds : option Z;
  status : option string;             (* DEFAULT 'completed', CHECK *)
  error_message : option string;
}.

Record Table := {
  scan_history : list ScanRow;
  sqlite_sequence : Z;
}.

Definition empty : Table := {| scan_history := []; sqlite_sequence := 0 |}.

Definition scan_statuses : list string := [ "running"; "completed"; "failed" ].

(** [CHECK(status IN (...))]: a null passes, as the test is then
    unknown and not false. *)
Definition check_scan_status (status : option string) : bool :=
  match status with
  | Some status => PyStr.mem status scan_statuses
  | None => true
  end.

Definition has_scan_id (scan_id' : string) (row : ScanRow) : bool :=
  String.eqb (scan_id row) scan_id'.

(** [add_scan_history]: a plain [INSERT]. The statement names every
    column it fills, so what the dictionary yields is stored as it is:
    an absent [scan_date] as a null and not as the column default, a
    null count or status as a null. [sqlite3] binds the parameters
    before SQLite checks [NOT NULL], then [CHECK], then [UNIQUE]. *)
Definition add_scan_history (t : Table) (scan_info : Input.ScanInfo) : result Table :=
  let semgrep_findings := PyDict.get_default (Input.semgrep_findings scan_info) 0 in
  let cargo_vulnerabilities :=
    PyDict.get_default (Input.cargo_vulnerabilities scan_info) 0 in
  let llm_findings := PyDict.get_default (Input.llm_findings scan_info) 0 in
  let files_scanned := PyDict.get_default (Input.files_scanned scan_info) 0 in
  let lines_scanned := PyDict.get_default (Input.lines_scanned scan_info) 0 in
  let status := PyDict.get_default (Input.status scan_info) "completed" in
  if negb (binds_int semgrep_findings && binds_int cargo_vulnerabilities
           && binds_int llm_findings && binds_int files_scanned
           && binds_int lines_scanned
           && binds_int (Input.duration_seconds scan_info))
  then Err OverflowError
  else
  match Input.scan_id scan_info with
  | None => Err (NotNullFailed "scan_id")
  | Some scan_id =>
  match Input.repo_name scan_info with
  | None => Err (NotNullFailed "repo_name")
  | Some repo_name =>
      if negb (check_scan_status status) then Err (CheckFailed "status")
      else if existsb (has_scan_id scan_id) (scan_history t)
      then Err (UniqueFailed "scan_id")
      else
        let id := sqlite_sequence t + 1 in
        let row := {|
          id := id;
          scan_id := scan_id;
          repo_name := repo_name;
          scan_date := Input.scan_date scan_info;
          semgrep_findings := semgrep_findings;
          cargo_vulnerabilities := cargo_vulnerabilities;
          llm_findings := llm_findings;
          files_scanned := files_scanned;
          lines_scanned := lines_scanned;
          duration_seconds := Input.duration_seconds scan_info;
          status := status;
          error_message := None;
        |} in
        Ok {| scan_history := scan_history t ++ [row]; sqlite_sequence := id |}
  end end.

(** The status a row of the history can hold: one of running,
    completed, failed, or a null, which the [CHECK] lets through. *)
Definition status_ok (row : ScanRow) : Prop :=
  status row = None
  \/ exists s : string, status row = Some s /\ PyStr.mem s scan_statuses = true.

(** A run of [add_scan_history] calls; a call that raises leaves the
    table as it was. *)
Definition record (t : Table) (scan_info : Input.ScanInfo) : Table :=
  match add_scan_history t scan_info with
  | Ok t' => t'
  | Err _ => t
  end.

Definition record_all (t : Table) (calls : list Input.ScanInfo) : Table :=
  fold_left record calls t.

End ScanHistory.

(** ** More concrete scenarios *)

Module Samples.

Import FindingsDb.

(** The row of the Critical finding of [Ledger.four]. *)
Definition critical_row : Row := {|
  rowid := 1;
  finding_id := "FND-C";
  repo_name := "acme/lend";
  repo_url := "https://github.com/acme/lend";
  repo_owner := Some "acme";
  file_path := Some "programs/lend/src/lib.rs";
  line_number := Some 42;
  vulnerability_type := "missing-signer-check";
  title := "Authority is not checked";
  description := None;
  severity := "Critical";
  impact := None;
  recommendation := None;
  code_snippet := None;
  status := "pending";
  confidence := Some 50%Q;
  analyzer := Some "semgrep";
  scan_id := None;
  created_at := Some 100;
  updated_at := 100;
  submitted_at := None;
  bounty_platform := None;
  bounty_url := None;
  bounty_amount := None;
  notes := None;
|}.

Definition repo_info (repo_name : string) (stars : Z) : Repositories.Input.RepoInfo := {|
  Repositories.Input.repo_name := Some repo_name;
  Repositories.Input.repo_url := Some "https://github.com/acme/lend";
  Repositories.Input.owner := Some "acme";
  Repositories.Input.stars := Some stars;
  Repositories.Input.forks := Some 80;
  Repositories.Input.audit_priority := Some 76;
  Repositories.Input.last_scan_id := None;
  Repositories.Input.last_scan_date := None;
|}.

(** Two repositories, then the first once more with other figures. *)
Definition three_upserts : Repositories.Table :=
  Repositories.upsert_all Repositories.empty
    [ (repo_info "acme/lend" 4000, 10);
      (repo_info "acme/swap" 100, 20);
      (repo_info "acme/lend" 4100, 30) ].

(** The record of a scan; the count of cargo vulnerabilities is absent
    and the one of LLM findings null. *)
Definition scan_info (scan_id : string) (status : PyDict.item string)
  : ScanHistory.Input.ScanInfo := {|
  ScanHistory.Input.scan_id := Some scan_id;
  ScanHistory.Input.repo_name := Some "acme/lend";
  ScanHistory.Input.scan_date := None;
  ScanHistory.Input.semgrep_findings := PyDict.Given 3;
  ScanHistory.Input.cargo_vulnerabilities := PyDict.Absent;
  ScanHistory.Input.llm_findings := PyDict.Null;
  ScanHistory.Input.files_scanned := PyDict.Given 12;
  ScanHistory.Input.lines_scanned := PyDict.Given 3400;
  ScanHistory.Input.duration_seconds := Some 95;
  ScanHistory.Input.status := status;
  ScanHistory.Input.error_message := Some "analyzer timed out";
|}.

(** A failed scan, the same scan once more, and a scan with a null
    status. *)
Definition three_scans : list ScanHistory.Input.ScanInfo :=
  [ scan_info "SCAN-1" (PyDict.Given "failed");
    scan_info "SCAN-1" (PyDict.Given "completed");
    scan_info "SCAN-2" PyDict.Null ].

End Samples.

(** ** The command line of [scripts/findings-db.py] *)

Module Cli.

Import FindingsDb.

(** The parsed arguments; an option that takes a value is [None] when
    it is not on the command line. *)
Record Args := {
  init : bool;
  add : option string;
  list_ : bool;                       (* --list *)
  pending : bool;
  severity : option string;
  status : option string;
  repo : option string;
  stats : bool;
  update_status : option string;
  finding_id : option string;
  notes : option string;
  limit : Z;
}.

(** The readings of the clocks during one run. *)
Record Clock := {
  now : timestamp;
  later : timestamp;
  current_timestamp : timestamp;
}.

(** What a run of [main] shows. *)
Inductive Report :=
| Initialized
| Added (lastrowid : Z)
| ShowStatistics (stats : Statistics.Stats)
| ShowFindings (rows : list Row)
| Updated (finding_id status : string)
| Help
| Raised (e : Exception).

Section Main.

Variable strftime_Ymd : timestamp -> string.
(** [json.load] of the file at a path. *)
Variable json_load : string -> Input.Finding.

(** [main], on an initialised database: the database after the run and
    what was shown. [CREATE TABLE IF NOT EXISTS] leaves the tables of an
    initialised database alone. *)
Definition main (args : Args) (clock : Clock) (db : Db) : Db * Report :=
  if init args then (db, Initialized)
  else if Queries.given (add args) then
    let finding := json_load (Monitor.get (add args) "") in
    match add_finding strftime_Ymd db finding (now clock) (current_timestamp clock) with
    | Ok (db', lastrowid) => (db', Added lastrowid)
    | Err e => (db, Raised e)
    end
  else if stats args then
    (db, ShowStatistics (Statistics.get_statistics db (current_timestamp clock)))
  else if pending args then
    (db, ShowFindings (get_pending_findings db "High"))
  else if list_ args then
    (db, ShowFindings
           (Queries.get_findings db (severity args) (status args) (repo args)
              (limit args)))
  else if Queries.given (update_status args) && Queries.given (finding_id args) then
    let finding_id' := Monitor.get (finding_id args) "" in
    let status' := Monitor.get (update_status args) "" in
    match update_finding_status db finding_id' status' (notes args)
            (now clock) (later clock) with
    | Ok db' => (db', Updated finding_id' status')
    | Err e => (db, Raised e)
    end
  else (db, Help).

End Main.

End Cli.

(** ** The notifier: [scripts/telegram-notify.py]

    A Python [str] is the list of its code points, so that [len] and
    slices count what Python counts; the literals of the source are
    written with the code points the file holds. The values of a finding
    dictionary are the kinds a row of the table can hold. *)

Module Telegram.

Definition text := list N.

(** An ASCII literal. *)
Definition lit (s : string) : text := map N_of_ascii (list_ascii_of_string s).

Definition nl : text := [10%N].

Inductive value :=
| VNone
| VStr (t : text)
| VInt (z : Z)
| VReal (q : Q).

(** The text handed to [send_message], or the exception raised before. *)
Inductive attempt :=
| Message (message : text)
| TypeError.

(** [d.get(key, default)]. *)
Definition get (d : gmap string value) (key : string) (default : value) : value :=
  match d !! key with
  | Some v => v
  | None => default
  end.

(** [v[:n]]: only a string can be sliced. *)
Definition slice (n : nat) (v : value) : option text :=
  match v with
  | VStr t => Some (firstn n t)
  | _ => None
  end.

Definition text_eqb (a b : text) : bool := bool_decide (a = b).

(** [severity_emoji.get(severity, default)]. *)
Definition severity_emoji (severity : value) : text :=
  match severity with
  | VStr t =>
      if text_eqb t (lit "Critical") then [287; 376; 8221; 180]%N
      else if text_eqb t (lit "High") then [287; 376; 376; 160]%N
      else if text_eqb t (lit "Medium") then [287; 376; 376; 161]%N
      else if text_eqb t (lit "Low") then [287; 376; 376; 162]%N
      else if text_eqb t (lit "Informational") then [226; 353; 170]%N
      else [226; 353; 170]%N
  | _ => [226; 353; 170]%N
  end.

Definition truncation_notice : text :=
  nl ++ nl ++ lit "<i>(Message truncated - see full report in database)</i>".

Section Notifier.

(** [str] of an integer and of a float. *)
Variable str_int : Z -> text.
Variable str_real : Q -> text.

(** What a replacement field of an f-string prints. *)
Definition str (v : value) : text :=
  match v with
  | VNone => lit "None"
  | VStr t => t
  | VInt z => str_int z
  | VReal q => str_real q
  end.

(** The f-string of [send_finding], with the two slices already
    taken. *)
Definition finding_template (finding : gmap string value)
    (description impact : text) : text :=
  let severity := get finding "severity" (VStr (lit "Unknown")) in
  let emoji := severity_emoji severity in
  emoji
  ++ lit " <b>New "
  ++ str severity
  ++ lit " Severity Finding</b>"
  ++ nl
  ++ nl
  ++ lit "<b>Repository:</b> <code>"
  ++ str (get finding "repo_name" (VStr (lit "Unknown")))
  ++ lit "</code>"
  ++ nl
  ++ lit "<b>Finding ID:</b> <code>"
  ++ str (get finding "finding_id" (VStr (lit "N/A")))
  ++ lit "</code>"
  ++ nl
  ++ nl
  ++ lit "<b>Vulnerability:</b> "
  ++ str (get finding "vulnerability_type" (VStr (lit "Unknown")))
  ++ nl
  ++ lit "<b>Title:</b> "
  ++ str (get finding "title" (VStr (lit "No title")))
  ++ nl
  ++ nl
  ++ lit "<b>Location:</b>"
  ++ nl
  ++ [287; 376; 8220]%N
  ++ lit " File: <code>"
  ++ str (get finding "file_path" (VStr (lit "N/A")))
  ++ lit "</code>"
  ++ nl
  ++ [287; 376; 8220]%N
  ++ lit " Line: "
  ++ str (get finding "line_number" (VStr (lit "N/A")))
  ++ nl
  ++ nl
  ++ lit "<b>Description:</b>"
  ++ nl
  ++ description
  ++ nl
  ++ nl
  ++ lit "<b>Impact:</b>"
  ++ nl
  ++ impact
  ++ nl
  ++ nl
  ++ lit "<b>Confidence:</b> "
  ++ str (get finding "confidence" (VInt 0))
  ++ lit "%"
  ++ nl
  ++ lit "<b>Analyzer:</b> "
  ++ str (get finding "analyzer" (VStr (lit "Unknown")))
  ++ nl
  ++ nl
  ++ lit "<b>Actions:</b>"
  ++ nl
  ++ [287; 376; 8216; 8240]%N
  ++ lit " Review: <code>/bounty_review "
  ++ str (get finding "finding_id" VNone)
  ++ lit "</code>"
  ++ nl
  ++ [226; 339; 8230]%N
  ++ lit " Approve: <code>/bounty_approve "
  ++ str (get finding "finding_id" VNone)
  ++ lit "</code>"
  ++ nl
  ++ [226; 338]%N
  ++ lit " Reject: <code>/bounty_reject "
  ++ str (get finding "finding_id" VNone)
  ++ lit "</code>"
  ++ nl
  ++ nl
  ++ lit "<b>Full Details:</b>"
  ++ nl
  ++ lit "<code>"
  ++ str (get finding "repo_url" (VStr (lit "")))
  ++ lit "</code>"
  ++ nl.

(** [send_finding], up to the call of [send_message]. *)
Definition send_finding (finding : gmap string value) : attempt :=
  match slice 500 (get finding "description" (VStr (lit "No description"))) with
  | None => TypeError
  | Some description =>
  match slice 300 (get finding "impact" (VStr (lit "No impact analysis"))) with
  | None => TypeError
  | Some impact =>
      let message := finding_template finding description impact in
      let message :=
        if (4000 <? length message)%nat
        then firstn 3900 message ++ truncation_notice
        else message in
      Message message
  end end.

(** [dict(row)] for a row of [findings], as [load_finding_from_db]
    returns it; [isoformat] writes an instant as the column holds it. *)
Variable isoformat : FindingsDb.timestamp -> text.

Definition text_or_null (o : option string) : value :=
  match o with
  | Some s => VStr (lit s)
  | None => VNone
  end.

Definition dict_of_row (row : FindingsDb.Row) : gmap string value :=
  list_to_map
    [ ("id", VInt (FindingsDb.rowid row));
      ("finding_id", VStr (lit (FindingsDb.finding_id row)));
      ("repo_name", VStr (lit (FindingsDb.repo_name row)));
      ("repo_url", VStr (lit (FindingsDb.repo_url row)));
      ("repo_owner", text_or_null (FindingsDb.repo_owner row));
      ("file_path", text_or_null (FindingsDb.file_path row));
      ("line_number",
        match FindingsDb.line_number row with Some n => VInt n | None => VNone end);
      ("vulnerability_type", VStr (lit (FindingsDb.vulnerability_type row)));
      ("title", VStr (lit (FindingsDb.title row)));
      ("description", text_or_null (FindingsDb.description row));
      ("severity", VStr (lit (FindingsDb.severity row)));
      ("impact", text_or_null (FindingsDb.impact row));
      ("recommendation", text_or_null (FindingsDb.recommendation row));
      ("code_snippet", text_or_null (FindingsDb.code_snippet row));
      ("status", VStr (lit (FindingsDb.status row)));
      ("confidence",
        match FindingsDb.confidence row with Some q => VReal q | None => VNone end);
      ("analyzer", text_or_null (FindingsDb.analyzer row));
      ("scan_id", text_or_null (FindingsDb.scan_id row));
      ("created_at",
        match FindingsDb.created_at row with
        | Some t => VStr (isoformat t)
        | None => VNone
        end);
      ("updated_at", VStr (isoformat (FindingsDb.updated_at row)));
      ("submitted_at",
        match FindingsDb.submitted_at row with
        | Some t => VStr (isoformat t)
        | None => VNone
        end);
      ("bounty_platform", text_or_null (FindingsDb.bounty_platform row));
      ("bounty_url", text_or_null (FindingsDb.bounty_url row));
      ("bounty_amount",
        match FindingsDb.bounty_amount row with Some q => VReal q | None => VNone end);
      ("notes", text_or_null (FindingsDb.notes row)) ].

(** [load_finding_from_db]. *)
Definition load_finding_from_db (db : FindingsDb.Db) (finding_id : string)
  : option (gmap string value) :=
  option_map dict_of_row (FindingsDb.get_finding_by_id db finding_id).

End Notifier.

End Telegram.

(** ** Concrete scenarios for the notifier *)

Module Notices.

Import Telegram.

Definition str_int (z : Z) : text := lit (pretty z).

(** Enough for the floats that are whole numbers. *)
Definition str_real (q : Q) : text := lit (pretty (Qfloor q)) ++ lit ".0".

(** A stand-in for the text of an instant. *)
Definition isoformat (t : FindingsDb.timestamp) : text := lit (pretty t).

(** A finding from an analyzer, with a description of 600 characters. *)
Definition long_finding : gmap string value :=
  list_to_map
    [ ("finding_id", VStr (lit "FND-1"));
      ("repo_name", VStr (lit "acme/lend"));
      ("severity", VStr (lit "High"));
      ("line_number", VInt 42);
      ("description", VStr (repeat 120%N 600));
      ("impact", VStr (lit "Funds can be withdrawn by anyone"));
      ("confidence", VReal 80) ].

(** What [send_finding] hands to [send_message] for it. *)
Definition long_finding_message : text :=
  Eval vm_compute in
    match send_finding str_int str_real long_finding with
    | Message message => message
    | TypeError => []
    end.

End Notices.

(** ** Properties of the discovery ranker *)

Module MonitorFacts.

Import Monitor.

Section RankerFacts.

Variable fromisoformat : string -> option Z.
Variable now : Z.

Lemma recent_activity_range (repo : Repo) :
  (0 <= recent_activity fromisoformat now repo
   /\ recent_activity fromisoformat now repo <= 30)%Q.
Proof.
  unfold recent_activity.
  destruct (updated_at repo) as [[|c s]|]; try (split; lra).
  destruct (fromisoformat _) as [updated|]; try (split; lra).
  repeat (match goal with |- context [if ?b then _ else _] => destruct b end);
    split; lra.
Qed.

(** The keyword loop adds two points per keyword found and nothing else. *)
Lemma keyword_fold_range (description : string) (kws : list string) (score : Q) :
  (score <=
     fold_left (fun score kw =>
                  if PyStr.contains kw description then score + 2 else score)
               kws score
   /\ fold_left (fun score kw =>
                  if PyStr.contains kw description then score + 2 else score)
               kws score
      <= score + 2 * inject_Z (Z.of_nat (length kws)))%Q.
Proof.
  revert score; induction kws as [|kw kws IH]; intros score.
  - cbn [fold_left length]. change (inject_Z (Z.of_nat 0)) with 0%Q. split; lra.
  - cbn [fold_left length]. rewrite Nat2Z.inj_succ, <- Z.add_1_r, inject_Z_plus.
    change (inject_Z 1) with 1%Q.
    destruct (PyStr.contains kw description);
      destruct (IH (score + 2)%Q) as [L2 U2]; destruct (IH score) as [L0 U0];
      split; lra.
Qed.

Lemma keyword_loop_range (description : string) (score : Q) :
  (score <= keyword_loop description score
   /\ keyword_loop description score <= score + 14)%Q.
Proof.
  unfold keyword_loop.
  destruct (keyword_fold_range description keywords score) as [L U].
  change (inject_Z (Z.of_nat (length keywords))) with 7%Q in U.
  split; lra.
Qed.

Lemma truediv_nonneg (a b : Z) : 0 <= a -> 0 < b -> (0 <= PyNum.truediv a b)%Q.
Proof.
  intros Ha Hb. unfold PyNum.truediv, Qdiv.
  apply Qmult_le_0_compat.
  - change 0%Q with (inject_Z 0). rewrite <- Zle_Qle. exact Ha.
  - apply Qinv_le_0_compat.
    change 0%Q with (inject_Z 0). rewrite <- Zle_Qle. lia.
Qed.

Lemma int_range (x : Q) (n : Z) :
  (0 <= x)%Q -> (x <= inject_Z n)%Q -> 0 <= PyNum.int x <= n.
Proof.
  intros L U. unfold PyNum.int.
  assert (Qle_bool 0 x = true) as -> by (apply Qle_bool_iff; exact L).
  split.
  - change 0 with (Qfloor 0). apply Qfloor_resp_le. exact L.
  - rewrite <- (Qfloor_Z n). apply Qfloor_resp_le. exact U.
Qed.

(** What the code guarantees for counts that are not negative: the four
    terms are bounded by 40, 30, 20 and 14. *)
Lemma priority_range (repo : Repo) :
  0 <= get (stargazers_count repo) 0 ->
  0 <= get (forks_count repo) 0 ->
  0 <= _calculate_priority fromisoformat now repo <= 104.
Proof.
  intros Hs Hf. unfold _calculate_priority.
  set (d := PyStr.lower _).
  set (s := Qmin (PyNum.truediv (get (stargazers_count repo) 0) 100) 40).
  set (f := Qmin (PyNum.truediv (get (forks_count repo) 0) 20) 20).
  assert (0 <= s /\ s <= 40)%Q as [Hs0 Hs1].
  { subst s. split; [apply Q.min_glb; [apply truediv_nonneg; lia | lra]
                    | apply Q.le_min_r]. }
  assert (0 <= f /\ f <= 20)%Q as [Hf0 Hf1].
  { subst f. split; [apply Q.min_glb; [apply truediv_nonneg; lia | lra]
                    | apply Q.le_min_r]. }
  destruct (recent_activity_range repo) as [Hr0 Hr1].
  destruct (keyword_loop_range d
              (0 + s + recent_activity fromisoformat now repo + f)%Q) as [Hk0 Hk1].
  apply int_range.
  - lra.
  - change (inject_Z 104) with 104%Q. lra.
Qed.

(** C9, as the code has it. A repository with 4000 stars, 80 forks, the
    description "solana lending protocol" and a last update two days
    before the current time scores 40 + 30 + 4 + 2 = 76: the description
    holds one keyword of the fixed set ("lending"), worth 2 points. *)
Theorem C9_lending_scenario_scores_76 (repo : Repo) (s : string) (t : Z) :
  stargazers_count repo = Some 4000 ->
  forks_count repo = Some 80 ->
  description repo = Some "solana lending protocol" ->
  updated_at repo = Some s ->
  s <> "" ->
  fromisoformat (PyStr.replace_char "Z" "+00:00" s) = Some t ->
  PyNum.days (now - t) = 2 ->
  _calculate_priority fromisoformat now repo = 76.
Proof.
  intros Hstars Hforks Hdescr Hupd Hne Hparse Hdays.
  unfold _calculate_priority, recent_activity.
  rewrite Hstars, Hforks, Hdescr, Hupd.
  destruct s as [|c s']; [contradiction|].
  rewrite Hparse, Hdays.
  vm_compute. reflexivity.
Qed.

End RankerFacts.

Lemma C9_lending_scenario_scores_76_witness :
  _calculate_priority Iso.fromisoformat Scenario.now Scenario.lending = 76.
Proof.
  apply (C9_lending_scenario_scores_76 Iso.fromisoformat Scenario.now
           Scenario.lending "2026-11-01T12:00:00Z" 1793534400000000).
  - reflexivity.
  - reflexivity.
  - reflexivity.
  - reflexivity.
  - discriminate.
  - vm_compute. reflexivity.
  - vm_compute. reflexivity.
Defined.

(** C9, as the specification words it: the score of that repository is
    not 78. *)
Lemma C9_lending_scenario_not_78 :
  _calculate_priority Iso.fromisoformat Scenario.now Scenario.lending <> 78.
Proof. vm_compute. discriminate. Qed.

(** C1: the score leaves the interval [0, 100]. With 4000 stars, 400
    forks, an update on the same day and a description that holds all
    seven keywords the four terms are 40, 30, 20 and 14, and
    [_calculate_priority] returns 104. *)
Theorem C1_saturated_scores_104 :
  let score := _calculate_priority Iso.fromisoformat Scenario.now Scenario.saturated in
  score = 104 /\ ~ (0 <= score <= 100).
Proof. vm_compute. split; [reflexivity|]. intros [_ H]. apply H. reflexivity. Qed.

(** *** The stable sort *)

Lemma insert_desc_perm (x : Discovered) (l : list Discovered) :
  Permutation (insert_desc x l) (x :: l).
Proof.
  induction l as [|y l IH]; cbn [insert_desc].
  - reflexivity.
  - destruct (audit_priority y <=? audit_priority x).
    + reflexivity.
    + rewrite IH. apply perm_swap.
Qed.

Lemma sort_desc_perm (l : list Discovered) : Permutation (sort_desc l) l.
Proof.
  induction l as [|x l IH]; cbn [sort_desc fold_right].
  - reflexivity.
  - fold (sort_desc l). rewrite insert_desc_perm. now constructor.
Qed.

Lemma sort_desc_length (l : list Discovered) : length (sort_desc l) = length l.
Proof. apply Permutation_length, sort_desc_perm. Qed.

Lemma insert_desc_sorted (x : Discovered) (l : list Discovered) :
  StronglySorted desc l -> StronglySorted desc (insert_desc x l).
Proof.
  induction 1 as [|y l Hl IH Hy]; cbn [insert_desc].
  - repeat constructor.
  - destruct (Z.leb_spec (audit_priority y) (audit_priority x)) as [Hle|Hlt].
    + constructor; [now constructor|].
      constructor; [exact Hle|].
      eapply List.Forall_impl; [|exact Hy]. unfold desc. intros; lia.
    + constructor; [exact IH|].
      eapply Permutation_Forall; [symmetry; apply insert_desc_perm|].
      constructor; [unfold desc; lia | exact Hy].
Qed.

Lemma sort_desc_sorted (l : list Discovered) : StronglySorted desc (sort_desc l).
Proof.
  induction l as [|x l IH]; cbn [sort_desc fold_right].
  - constructor.
  - apply insert_desc_sorted, IH.
Qed.

(** *** The two loops *)

Section DiscoveryFacts.

Variable fromisoformat : string -> option Z.
Variable now : Z.
Variable strftime_Ymd : Z -> string.
Variable search_repositories : string -> Z -> list Repo.
Variables max_repos min_stars : Z.
Variable since_date : string.

Local Abbreviation E := (entry fromisoformat now).
Local Abbreviation is_full := (full max_repos).
Local Abbreviation candidates repos seen :=
  (map E (List.filter (fun repo => should_audit repo min_stars) (dedup repos seen))).
Local Abbreviation room d := (Z.to_nat max_repos - length d)%nat.

Lemma dedup_app (a b : list Repo) (seen : gset Z) :
  dedup (a ++ b) seen = dedup a seen ++ dedup b (visit a seen).
Proof.
  revert seen; induction a as [|repo a IH]; intros seen.
  - reflexivity.
  - cbn [app dedup visit fold_left].
    destruct (bool_decide (repo_id repo ∈ seen)).
    + apply IH.
    + cbn [app]. f_equal. apply IH.
Qed.

Lemma full_false (d : list Discovered) :
  is_full d = false <-> (length d < Z.to_nat max_repos)%nat.
Proof. unfold full. rewrite Z.leb_gt. lia. Qed.

Lemma full_true (d : list Discovered) :
  is_full d = true <-> (Z.to_nat max_repos <= length d)%nat.
Proof. unfold full. rewrite Z.leb_le. lia. Qed.

(** The inner loop appends the admitted answers it has not seen, in
    order, until [discovered] is full; when it ends without being full
    it has looked at every answer. *)
Lemma scan_repos_spec (repos : list Repo) (d : list Discovered) (seen : gset Z) :
  is_full d = false ->
  fst (scan_repos fromisoformat now max_repos min_stars repos d seen)
    = d ++ firstn (room d) (candidates repos seen)
  /\ (is_full (fst (scan_repos fromisoformat now max_repos min_stars repos d seen)) = false ->
      snd (scan_repos fromisoformat now max_repos min_stars repos d seen)
        = visit repos seen).
Proof.
  revert d seen; induction repos as [|repo rest IH]; intros d seen Hd.
  - cbn. rewrite firstn_nil, app_nil_r. auto.
  - cbn [scan_repos dedup visit fold_left].
    destruct (bool_decide (repo_id repo ∈ seen)); [apply IH; exact Hd|].
    cbn [List.filter].
    destruct (should_audit repo min_stars); [|apply IH; exact Hd].
    cbn [map].
    pose proof (proj1 (full_false d) Hd) as Hlt.
    destruct (room d) as [|k] eqn:Hroom; [lia|].
    cbn [firstn].
    destruct (is_full (d ++ [E repo])) eqn:Hfull.
    + cbn [fst snd]. apply full_true in Hfull.
      rewrite length_app in Hfull. cbn [length] in Hfull.
      assert (k = 0%nat) as -> by lia.
      rewrite firstn_O. split; [reflexivity|].
      intros Hn. apply full_false in Hn. rewrite length_app in Hn.
      cbn [length] in Hn. lia.
    + destruct (IH (d ++ [E repo]) ({[repo_id repo]} ∪ seen) Hfull) as [Hfst Hsnd].
      split; [|exact Hsnd].
      rewrite Hfst, <- app_assoc. cbn [app].
      rewrite length_app. cbn [length].
      replace (Z.to_nat max_repos - (length d + 1))%nat with k by lia.
      reflexivity.
Qed.

(** The outer loop does the same over the answers of the queries taken
    one after the other. *)
Lemma scan_queries_spec (queries : list string) (d : list Discovered) (seen : gset Z) :
  is_full d = false ->
  scan_queries fromisoformat now search_repositories max_repos min_stars since_date
      queries d seen
    = d ++ firstn (room d)
             (candidates
                (concat (map (fun query =>
                                search_repositories
                                  (query ++ " pushed:>" ++ since_date)%string 30)
                             queries))
                seen).
Proof.
  revert d seen; induction queries as [|query rest IH]; intros d seen Hd.
  - cbn. rewrite firstn_nil, app_nil_r. reflexivity.
  - cbn [scan_queries map concat].
    set (repos := search_repositories _ 30).
    destruct (scan_repos_spec repos d seen Hd) as [Hfst Hsnd].
    destruct (scan_repos fromisoformat now max_repos min_stars repos d seen)
      as [d1 seen1] eqn:Hscan.
    cbn [fst snd] in Hfst, Hsnd.
    rewrite dedup_app, List.filter_app, map_app.
    destruct (is_full d1) eqn:Hfull.
    + apply full_true in Hfull.
      rewrite Hfst. f_equal.
      rewrite Hfst, length_app in Hfull.
      pose proof (firstn_le_length (room d) (candidates repos seen)) as Hk.
      assert (length (firstn (room d) (candidates repos seen)) = room d) as Hlen by lia.
      rewrite length_firstn in Hlen.
      rewrite firstn_app.
      replace (room d - length (candidates repos seen))%nat with 0%nat by lia.
      rewrite firstn_O, app_nil_r. reflexivity.
    + rewrite (IH d1 seen1 Hfull), (Hsnd eq_refl).
      apply full_false in Hfull.
      rewrite Hfst, length_app in Hfull.
      rewrite length_firstn in Hfull.
      assert (length (candidates repos seen) < room d)%nat as Hshort by lia.
      rewrite Hfst at 1.
      rewrite (@firstn_all2 _ (room d) (candidates repos seen)) by lia.
      rewrite <- app_assoc. f_equal.
      rewrite firstn_app.
      rewrite (@firstn_all2 _ (room d) (candidates repos seen)) by lia.
      f_equal. f_equal.
      rewrite Hfst, length_app.
      rewrite (@firstn_all2 _ (room d) (candidates repos seen)) by lia.
      lia.
Qed.

End DiscoveryFacts.

Section DiscoverRepositories.

Variable fromisoformat : string -> option Z.
Variable now : Z.
Variable strftime_Ymd : Z -> string.
Variable search_repositories : string -> Z -> list Repo.

(** C8, as the code has it. For [max_repos >= 1] the search stops as soon
    as [max_repos] candidates have been admitted: the list returned is
    made of the first [max_repos] admitted candidates in the order the
    queries answer them (all of them when there are fewer), sorted by
    score, highest first. *)
Theorem C8_discover_sorts_first_admitted (max_repos min_stars days_since_update : Z) :
  1 <= max_repos ->
  let since_date :=
    strftime_Ymd (now - days_since_update * PyNum.usec_per_day) in
  let chosen :=
    firstn (Z.to_nat max_repos)
      (admitted fromisoformat now search_repositories min_stars since_date) in
  let returned :=
    discover_repositories fromisoformat now strftime_Ymd search_repositories
      max_repos min_stars days_since_update in
  returned = sort_desc chosen
  /\ Permutation returned chosen
  /\ StronglySorted desc returned.
Proof.
  intros Hmax since_date chosen returned.
  assert (returned = sort_desc chosen) as Heq.
  { subst returned chosen. unfold discover_repositories. fold since_date.
    rewrite scan_queries_spec by (apply full_false; cbn [length]; lia).
    cbn [app length]. rewrite Nat.sub_0_r.
    change (map (entry fromisoformat now) _)
      with (admitted fromisoformat now search_repositories min_stars since_date).
    unfold PyNum.slice_to.
    assert ((0 <=? max_repos) = true) as -> by (apply Z.leb_le; lia).
    apply firstn_all2. rewrite sort_desc_length. apply firstn_le_length. }
  rewrite Heq. split; [reflexivity|]. split.
  - apply sort_desc_perm.
  - apply sort_desc_sorted.
Qed.

End DiscoverRepositories.

Lemma C8_discover_sorts_first_admitted_witness :
  let returned :=
    discover_repositories Iso.fromisoformat Scenario.now Scenario.strftime_Ymd
      Scenario.search_repositories 1 50 7 in
  let chosen :=
    firstn 1 (admitted Iso.fromisoformat Scenario.now Scenario.search_repositories
                50 "2026-10-27") in
  returned = sort_desc chosen
  /\ Permutation returned chosen
  /\ StronglySorted desc returned.
Proof.
  apply (C8_discover_sorts_first_admitted Iso.fromisoformat Scenario.now
           Scenario.strftime_Ymd Scenario.search_repositories 1 50 7).
  lia.
Defined.

(** C8, as the specification words it: the list returned is not the
    [max_repos] best of all admitted candidates. The first query answers
    a project that scores 31 before one that scores 76; with
    [max_repos = 1] the search stops at the first. *)
Lemma C8_discover_is_not_the_overall_top :
  map audit_priority
    (discover_repositories Iso.fromisoformat Scenario.now Scenario.strftime_Ymd
       Scenario.search_repositories 1 50 7) = [31]
  /\ map audit_priority
       (spec_discover_repositories Iso.fromisoformat Scenario.now
          Scenario.strftime_Ymd Scenario.search_repositories 1 50 7) = [76]
  /\ discover_repositories Iso.fromisoformat Scenario.now Scenario.strftime_Ymd
       Scenario.search_repositories 1 50 7
     <> spec_discover_repositories Iso.fromisoformat Scenario.now
          Scenario.strftime_Ymd Scenario.search_repositories 1 50 7.
Proof.
  split; [vm_compute; reflexivity|].
  split; [vm_compute; reflexivity|].
  intros H. apply (f_equal (map audit_priority)) in H.
  vm_compute in H. discriminate H.
Qed.

End MonitorFacts.

(** ** Properties of the findings store *)

Module FindingsDbFacts.

Import FindingsDb.

(** *** Rows selected by [finding_id] *)

Lemma find_none_existsb {A} (p : A -> bool) (l : list A) :
  find p l = None -> existsb p l = false.
Proof.
  induction l as [|x l IH]; cbn; [reflexivity|].
  destruct (p x); [discriminate|]. exact IH.
Qed.

Lemma find_some_existsb {A} (p : A -> bool) (l : list A) (x : A) :
  find p l = Some x -> existsb p l = true.
Proof.
  induction l as [|y l IH]; cbn; [discriminate|].
  destruct (p y); [reflexivity|]. exact IH.
Qed.

Lemma map_unselected {A} (p : A -> bool) (f : A -> A) (l : list A) :
  existsb p l = false -> map (fun x => if p x then f x else x) l = l.
Proof.
  induction l as [|x l IH]; cbn; [reflexivity|].
  destruct (p x); [discriminate|]. cbn. intros H. now rewrite IH.
Qed.

(** *** Updating a finding that does not exist *)

(** C3, as the code has it. When no row has the given [finding_id], the
    [UPDATE] selects nothing: [update_finding_status] returns normally
    and the database is the one it was given. *)
Theorem C3_update_of_unknown_id_changes_nothing (db : Db) (finding_id' status' : string)
    (notes' : option string) (now_updated now_submitted : timestamp) :
  get_finding_by_id db finding_id' = None ->
  update_finding_status db finding_id' status' notes' now_updated now_submitted
    = Ok db.
Proof.
  intros Hnone. apply find_none_existsb in Hnone.
  unfold update_finding_status. rewrite Hnone. cbn [andb].
  rewrite map_unselected by exact Hnone.
  destruct db; reflexivity.
Qed.

Lemma C3_update_of_unknown_id_changes_nothing_witness :
  update_finding_status Ledger.one_high "FND-404" "approved" None 200 200
    = Ok Ledger.one_high.
Proof.
  apply (C3_update_of_unknown_id_changes_nothing Ledger.one_high "FND-404"
           "approved" None 200 200).
  reflexivity.
Defined.

(** C3, as the specification words it: an update of an identifier that
    is not in the store does not fail; it returns normally. *)
Lemma C3_update_of_unknown_id_does_not_fail :
  get_finding_by_id empty_db "FND-404" = None
  /\ update_finding_status empty_db "FND-404" "approved" None 1 1 = Ok empty_db
  /\ ~ (exists e, update_finding_status empty_db "FND-404" "approved" None 1 1
                  = Err e).
Proof.
  split; [reflexivity|]. split; [reflexivity|].
  intros [e He]. discriminate He.
Qed.

(** *** The [ORDER BY] of [get_pending_findings] *)

Lemma real_le_total (a b : option Q) : real_le a b = false -> real_le b a = true.
Proof.
  destruct a as [x|], b as [y|]; cbn; try congruence.
  intros H. apply Qle_bool_iff. apply Qlt_le_weak, Qnot_le_lt.
  intros Hle. apply Qle_bool_iff in Hle. congruence.
Qed.

Lemma real_le_trans (a b c : option Q) :
  real_le a b = true -> real_le b c = true -> real_le a c = true.
Proof.
  destruct a as [x|], b as [y|], c as [z|]; cbn; try congruence.
  rewrite !Qle_bool_iff. apply Qle_trans.
Qed.

Lemma real_le_ge (a b : option Q) : real_le b a = true <-> real_ge a b.
Proof.
  destruct a as [x|], b as [y|]; cbn; try (now split);
    try (split; [discriminate | contradiction]).
  apply Qle_bool_iff.
Qed.

Lemma order_by_spec (a b : Row) :
  order_by a b = true <->
  case_severity (severity a) < case_severity (severity b)
  \/ (case_severity (severity a) = case_severity (severity b)
      /\ real_le (confidence b) (confidence a) = true).
Proof.
  unfold order_by.
  rewrite orb_true_iff, andb_true_iff, Z.ltb_lt, Z.eqb_eq. reflexivity.
Qed.

Lemma order_by_total (a b : Row) : order_by a b = false -> order_by b a = true.
Proof.
  intros H. apply order_by_spec.
  destruct (Z.lt_trichotomy (case_severity (severity a)) (case_severity (severity b)))
    as [Hlt|[Heq|Hgt]].
  - assert (order_by a b = true) by (apply order_by_spec; now left). congruence.
  - right. split; [now symmetry|].
    apply real_le_total.
    destruct (real_le (confidence b) (confidence a)) eqn:Hc; [|reflexivity].
    assert (order_by a b = true) by (apply order_by_spec; now right). congruence.
  - left. lia.
Qed.

Lemma order_by_trans (a b c : Row) :
  order_by a b = true -> order_by b c = true -> order_by a c = true.
Proof.
  rewrite !order_by_spec.
  intros [Hab|[Hab Cab]] [Hbc|[Hbc Cbc]].
  - left; lia.
  - left; lia.
  - left; lia.
  - right. split; [congruence|]. eapply real_le_trans; eassumption.
Qed.

Lemma insert_row_perm (x : Row) (l : list Row) :
  Permutation (insert_row x l) (x :: l).
Proof.
  induction l as [|y l IH]; cbn [insert_row].
  - reflexivity.
  - destruct (order_by x y).
    + reflexivity.
    + rewrite IH. apply perm_swap.
Qed.

Lemma sort_rows_perm (l : list Row) : Permutation (sort_rows l) l.
Proof.
  induction l as [|x l IH]; cbn [sort_rows fold_right].
  - reflexivity.
  - fold (sort_rows l). rewrite insert_row_perm. now constructor.
Qed.

Lemma insert_row_sorted (x : Row) (l : list Row) :
  StronglySorted (fun a b => order_by a b = true) l ->
  StronglySorted (fun a b => order_by a b = true) (insert_row x l).
Proof.
  induction 1 as [|y l Hl IH Hy]; cbn [insert_row].
  - repeat constructor.
  - destruct (order_by x y) eqn:Hxy.
    + constructor; [now constructor|].
      constructor; [exact Hxy|].
      eapply List.Forall_impl; [|exact Hy].
      intros z Hyz. eapply order_by_trans; eassumption.
    + constructor; [exact IH|].
      eapply Permutation_Forall; [symmetry; apply insert_row_perm|].
      constructor; [now apply order_by_total | exact Hy].
Qed.

Lemma sort_rows_sorted (l : list Row) :
  StronglySorted (fun a b => order_by a b = true) (sort_rows l).
Proof.
  induction l as [|x l IH]; cbn [sort_rows fold_right].
  - constructor.
  - apply insert_row_sorted, IH.
Qed.

Lemma sort_rows_In (l : list Row) (row : Row) : In row (sort_rows l) <-> In row l.
Proof.
  split; apply Permutation_in; [|symmetry]; apply sort_rows_perm.
Qed.

(** *** The severity threshold *)

Ltac split_eqb :=
  repeat match goal with
         | |- context [String.eqb ?a ?b] => destruct (String.eqb a b)
         end.

(** For a threshold among the five, the list [allowed_severities] holds
    the severities at or above it. *)
Lemma allowed_at_or_above (min_severity severity : string) :
  check_severity min_severity = true ->
  PyStr.mem severity
    (firstn (index min_severity severity_order + 1) severity_order)
  = at_or_above severity min_severity.
Proof.
  unfold check_severity, PyStr.mem at 1, severities. cbn [existsb].
  rewrite !orb_true_iff, !String.eqb_eq.
  intros [->|[->|[->|[->|[->|H]]]]]; try discriminate H;
    match goal with
    | |- context [index ?m severity_order] =>
        let i := eval vm_compute in (index m severity_order) in
        change (index m severity_order) with i;
        let r := eval vm_compute in (rank m) in
        unfold at_or_above; change (rank m) with r
    end;
    unfold rank, PyStr.mem, severity_order;
    cbn [Nat.add firstn existsb];
    split_eqb; reflexivity.
Qed.

Lemma rank_case_severity (severity : string) (i : nat) :
  rank severity = Some i -> case_severity severity = Z.of_nat i + 1.
Proof.
  unfold rank, case_severity. split_eqb; intros [= <-]; reflexivity.
Qed.

Lemma at_or_above_ranked (severity min_severity : string) :
  at_or_above severity min_severity = true -> exists i, rank severity = Some i.
Proof.
  unfold at_or_above. destruct (rank severity) as [i|]; [eauto | discriminate].
Qed.

Lemma order_by_ranked (a b : Row) :
  (exists i, rank (severity a) = Some i) ->
  (exists j, rank (severity b) = Some j) ->
  order_by a b = true -> ranked a b.
Proof.
  intros [i Hi] [j Hj] Hab. exists i, j. split; [exact Hi|]. split; [exact Hj|].
  apply order_by_spec in Hab.
  rewrite (rank_case_severity _ _ Hi), (rank_case_severity _ _ Hj) in Hab.
  destruct Hab as [Hlt|[Heq Hc]].
  - left. lia.
  - right. split; [lia|]. apply real_le_ge. exact Hc.
Qed.

Lemma StronglySorted_restrict {A} (R R' : A -> A -> Prop) (P : A -> Prop) (l : list A) :
  (forall a b, P a -> P b -> R a b -> R' a b) ->
  Forall P l -> StronglySorted R l -> StronglySorted R' l.
Proof.
  intros HR HP Hs. induction Hs as [|x l Hs IH Hx].
  - constructor.
  - apply List.Forall_cons_iff in HP as [Px Pl].
    constructor; [apply IH; exact Pl|].
    rewrite List.Forall_forall in *. intros y Hy. apply HR; auto.
Qed.

(** C7. For a threshold among the five severities, [get_pending_findings]
    returns exactly the pending rows whose severity is at or above it,
    by severity rank ascending and then by confidence descending; when
    the table holds four pending rows of severities Critical, Low, High,
    Medium, the threshold Medium gives the Critical, High and Medium
    rows in that order. *)
Theorem C7_pending_findings_ranked (db : Db) (min_severity : string) :
  check_severity min_severity = true ->
  Permutation (get_pending_findings db min_severity)
    (List.filter
       (fun row => is_pending row && at_or_above (severity row) min_severity)
       (findings db))
  /\ StronglySorted ranked (get_pending_findings db min_severity)
  /\ (min_severity = "Medium" ->
      forall r1 r2 r3 r4 : Row,
        findings db = [r1; r2; r3; r4] ->
        is_pending r1 = true -> is_pending r2 = true ->
        is_pending r3 = true -> is_pending r4 = true ->
        severity r1 = "Critical" -> severity r2 = "Low" ->
        severity r3 = "High" -> severity r4 = "Medium" ->
        get_pending_findings db min_severity = [r1; r3; r4]).
Proof.
  intros Hvalid.
  assert (get_pending_findings db min_severity
          = sort_rows
              (List.filter
                 (fun row => is_pending row && at_or_above (severity row) min_severity)
                 (findings db))) as Heq.
  { unfold get_pending_findings.
    change (PyStr.mem min_severity severity_order) with (check_severity min_severity).
    rewrite Hvalid. f_equal.
    apply List.filter_ext. intros row.
    rewrite allowed_at_or_above by exact Hvalid. reflexivity. }
  split; [rewrite Heq; apply sort_rows_perm|]. split.
  - rewrite Heq.
    eapply (StronglySorted_restrict _ _ (fun row => exists i, rank (severity row) = Some i)).
    + intros a b. apply order_by_ranked.
    + apply List.Forall_forall. intros row Hin.
      apply sort_rows_In, List.filter_In in Hin as [_ Hin].
      apply andb_true_iff in Hin as [_ Hin].
      eapply at_or_above_ranked; exact Hin.
    + apply sort_rows_sorted.
  - intros -> r1 r2 r3 r4 Hrows P1 P2 P3 P4 S1 S2 S3 S4.
    rewrite Heq, Hrows. cbn [List.filter].
    rewrite P1, P2, P3, P4, S1, S2, S3, S4. cbn [andb at_or_above rank].
    cbn.
    assert (order_by r3 r4 = true) as ->
      by (unfold order_by; rewrite S3, S4; reflexivity).
    cbn [insert_row].
    assert (order_by r1 r3 = true) as ->
      by (unfold order_by; rewrite S1, S3; reflexivity).
    reflexivity.
Qed.

Lemma C7_pending_findings_ranked_witness :
  Permutation (get_pending_findings Ledger.four "Medium")
    (List.filter
       (fun row => is_pending row && at_or_above (severity row) "Medium")
       (findings Ledger.four))
  /\ StronglySorted ranked (get_pending_findings Ledger.four "Medium")
  /\ ("Medium" = "Medium" ->
      forall r1 r2 r3 r4 : Row,
        findings Ledger.four = [r1; r2; r3; r4] ->
        is_pending r1 = true -> is_pending r2 = true ->
        is_pending r3 = true -> is_pending r4 = true ->
        severity r1 = "Critical" -> severity r2 = "Low" ->
        severity r3 = "High" -> severity r4 = "Medium" ->
        get_pending_findings Ledger.four "Medium" = [r1; r3; r4]).
Proof.
  apply (C7_pending_findings_ranked Ledger.four "Medium").
  reflexivity.
Defined.

(** C2, as the code has it. A threshold outside the five severities
    does not make [get_pending_findings] fail; the index falls back to 0,
    the place of Critical, so the answer is the one for the threshold
    Critical: the pending rows of severity Critical and no others. *)
Theorem C2_invalid_threshold_selects_critical (db : Db) (min_severity : string) :
  check_severity min_severity = false ->
  get_pending_findings db min_severity = get_pending_findings db "Critical"
  /\ (forall row : Row,
        In row (get_pending_findings db min_severity) <->
        In row (findings db) /\ status row = "pending" /\ severity row = "Critical").
Proof.
  intros Hbad.
  assert (get_pending_findings db min_severity
          = sort_rows
              (List.filter
                 (fun row => String.eqb (status row) "pending"
                             && PyStr.mem (severity row) ["Critical"])
                 (findings db))) as Heq.
  { unfold get_pending_findings.
    change (PyStr.mem min_severity severity_order) with (check_severity min_severity).
    rewrite Hbad. reflexivity. }
  split; [rewrite Heq; reflexivity|].
  intros row. rewrite Heq, sort_rows_In, List.filter_In, andb_true_iff.
  unfold PyStr.mem. cbn [existsb]. rewrite orb_false_r, !String.eqb_eq.
  reflexivity.
Qed.

Lemma C2_invalid_threshold_selects_critical_witness :
  get_pending_findings Ledger.four "Urgent" = get_pending_findings Ledger.four "Critical"
  /\ (forall row : Row,
        In row (get_pending_findings Ledger.four "Urgent") <->
        In row (findings Ledger.four)
        /\ status row = "pending" /\ severity row = "Critical").
Proof.
  apply (C2_invalid_threshold_selects_critical Ledger.four "Urgent").
  reflexivity.
Defined.

(** C2, as the specification words it: with a threshold outside the five
    severities the pending findings are not all returned. A store whose
    one finding is pending with severity High answers the empty list. *)
Lemma C2_invalid_threshold_drops_pending_findings :
  check_severity "Urgent" = false
  /\ get_pending_findings Ledger.one_high "Urgent" = []
  /\ exists row : Row,
       In row (findings Ledger.one_high)
       /\ status row = "pending"
       /\ ~ In row (get_pending_findings Ledger.one_high "Urgent").
Proof.
  split; [reflexivity|]. split; [reflexivity|].
  destruct (findings Ledger.one_high) as [|row rest] eqn:Hrows;
    [discriminate Hrows|].
  exists row. injection Hrows as <- _.
  split; [now left|]. split; [reflexivity|].
  intros [].
Qed.

(** *** Inserting a finding *)

Section AddFinding.

Variable strftime_Ymd : timestamp -> string.

Lemma binds_confidence (finding : Input.Finding) :
  binds_number (PyDict.get_default (Input.confidence finding) (PyDict.Float 0))
  = binds_number (PyDict.get (Input.confidence finding)).
Proof. destruct (Input.confidence finding); reflexivity. Qed.

(** C4, as the code has it. [add_finding] first makes the identifier
    when the key [finding_id] is absent, which raises [TypeError] when
    [repo_name] holds null; [sqlite3] then binds the values, which
    raises [OverflowError] when [line_number], or a [confidence] given
    as an integer, does not fit 64 bits. Past these, the [INSERT] raises
    [IntegrityError] when [finding_id] holds null, when a required key
    ([repo_name], [repo_url], [vulnerability_type], [title],
    [severity]) is absent or holds null, when the severity is not one of
    the five, or when a row already has the identifier; in every other
    case it succeeds, appends one row and returns the next number of the
    sequence. The key [status] plays no part. *)
Theorem C4_insert_fails_on_id_severity_or_missing_key (db : Db)
    (finding : Input.Finding) (now current_timestamp : timestamp) :
  let finding_id' := effective_id strftime_Ymd finding now in
  let rejected :=
    missing_required finding
    || bad_severity finding
    || existsb (has_id finding_id') (findings db) in
  let insert := add_finding strftime_Ymd db finding now current_timestamp in
  (slices_null finding = true -> insert = Err TypeError)
  /\ (slices_null finding = false -> too_large finding = true ->
      insert = Err OverflowError)
  /\ (slices_null finding = false -> too_large finding = false ->
      rejected = true ->
      exists e : IntegrityError, insert = Err e)
  /\ (slices_null finding = false -> too_large finding = false ->
      rejected = false ->
      exists row : Row,
        insert
        = Ok ({| findings := findings db ++ [row];
                 sqlite_sequence := sqlite_sequence db + 1 |},
              sqlite_sequence db + 1)
        /\ finding_id row = finding_id'
        /\ rowid row = sqlite_sequence db + 1).
Proof.
  intros finding_id' rejected insert. subst finding_id' rejected insert.
  unfold add_finding, effective_id, slices_null, too_large, missing_required,
    bad_severity.
  rewrite binds_confidence.
  destruct (bound_finding_id strftime_Ymd finding now) as [bound|e] eqn:Hbound.
  2:{ unfold bound_finding_id in Hbound.
      destruct (Input.finding_id finding); try discriminate Hbound.
      destruct (Input.repo_name finding); try discriminate Hbound.
      injection Hbound as <-.
      split; [reflexivity|]. split; [discriminate|]. split; discriminate. }
  assert (match Input.finding_id finding, Input.repo_name finding with
          | PyDict.Absent, PyDict.Null => true
          | _, _ => false
          end = false) as ->.
  { unfold bound_finding_id in Hbound.
    destruct (Input.finding_id finding); [|reflexivity..].
    destruct (Input.repo_name finding); [reflexivity | discriminate | reflexivity]. }
  split; [discriminate|].
  destruct (binds_int (Input.line_number finding)); cbn [negb andb orb];
    [|repeat split; try reflexivity; discriminate].
  destruct (binds_number _); cbn [negb];
    [|repeat split; try reflexivity; discriminate].
  split; [discriminate|].
  assert (forall P Q : Prop, (P /\ Q) ->
            (false = false -> false = false -> P)
            /\ (false = false -> false = false -> Q)) as Hskip by tauto.
  apply Hskip. clear Hskip.
  destruct bound as [finding_id'|].
  2:{ unfold bound_finding_id in Hbound.
      destruct (Input.finding_id finding); try discriminate Hbound.
      - destruct (PyDict.get_default _ _); discriminate Hbound.
      - cbn [orb]. split; [eauto | discriminate]. }
  assert (match Input.finding_id finding with
          | PyDict.Null => true
          | _ => false
          end = false) as ->.
  { unfold bound_finding_id in Hbound.
    destruct (Input.finding_id finding); [reflexivity | discriminate | reflexivity]. }
  cbn [orb].
  destruct (PyDict.get (Input.repo_name finding)) as [repo_name|];
    [|split; [eauto | discriminate]].
  destruct (Input.repo_url finding) as [repo_url|];
    [|split; [eauto | discriminate]].
  destruct (Input.vulnerability_type finding) as [vulnerability_type|];
    [|split; [eauto | discriminate]].
  destruct (Input.title finding) as [title|];
    [|split; [eauto | discriminate]].
  destruct (Input.severity finding) as [severity|];
    [|split; [eauto | discriminate]].
  cbn [Monitor.is_Some_b negb orb].
  destruct (check_severity severity); cbn [negb orb];
    [|split; [eauto | discriminate]].
  destruct (existsb (has_id finding_id') (findings db));
    [split; [eauto | discriminate]|].
  split; [discriminate|]. intros _.
  eexists. split; [reflexivity|]. split; reflexivity.
Qed.

(** C10. Whatever the dictionary holds under [status],
    [bounty_platform], [bounty_url], [bounty_amount] and [notes],
    [add_finding] does what it does without them, and the row it appends
    has status pending and null bounty and notes columns. *)
Theorem C10_insert_ignores_workflow_keys (db : Db) (finding : Input.Finding)
    (status' bounty_platform' bounty_url' : option string)
    (bounty_amount' : option Q) (notes' : option string)
    (now current_timestamp : timestamp) :
  add_finding strftime_Ymd db
    (with_unread finding status' bounty_platform' bounty_url' bounty_amount' notes')
    now current_timestamp
  = add_finding strftime_Ymd db finding now current_timestamp
  /\ (forall (db' : Db) (lastrowid : Z),
        add_finding strftime_Ymd db finding now current_timestamp
        = Ok (db', lastrowid) ->
        exists row : Row,
          findings db' = findings db ++ [row]
          /\ status row = "pending"
          /\ bounty_platform row = None
          /\ bounty_url row = None
          /\ bounty_amount row = None
          /\ notes row = None).
Proof.
  split; [reflexivity|].
  intros db' lastrowid. unfold add_finding.
  destruct (bound_finding_id _ _ _) as [[finding_id'|]|e]; [| |discriminate].
  2:{ destruct (negb _); discriminate. }
  destruct (negb _); [discriminate|].
  destruct (PyDict.get (Input.repo_name finding)); [|discriminate].
  destruct (Input.repo_url finding); [|discriminate].
  destruct (Input.vulnerability_type finding); [|discriminate].
  destruct (Input.title finding); [|discriminate].
  destruct (Input.severity finding); [|discriminate].
  destruct (negb _); [discriminate|].
  destruct (existsb _ _); [discriminate|].
  intros [= <- _]. eexists. cbn [findings]. split; [reflexivity|].
  repeat split.
Qed.

End AddFinding.

Lemma C10_insert_ignores_workflow_keys_witness :
  add_finding Ledger.strftime_Ymd empty_db Ledger.finding_with_status 100 100
  = add_finding Ledger.strftime_Ymd empty_db
      (Ledger.finding (Some "FND-1") "High" 80) 100 100
  /\ (forall (db' : Db) (lastrowid : Z),
        add_finding Ledger.strftime_Ymd empty_db
          (Ledger.finding (Some "FND-1") "High" 80) 100 100
        = Ok (db', lastrowid) ->
        exists row : Row,
          findings db' = findings empty_db ++ [row]
          /\ status row = "pending"
          /\ bounty_platform row = None
          /\ bounty_url row = None
          /\ bounty_amount row = None
          /\ notes row = None).
Proof.
  apply (C10_insert_ignores_workflow_keys Ledger.strftime_Ymd empty_db
           (Ledger.finding (Some "FND-1") "High" 80)
           (Some "escalated") (Some "immunefi") None (Some 5000%Q) (Some "urgent")
           100 100).
Defined.

Lemma C4_insert_fails_on_id_severity_or_missing_key_witness :
  add_finding Ledger.strftime_Ymd empty_db
    (Ledger.analyzer_result PyDict.Absent PyDict.Null (Some 42) "High"
       PyDict.Absent PyDict.Absent) 100 100
  = Err TypeError
  /\ add_finding Ledger.strftime_Ymd empty_db
       (Ledger.analyzer_result (PyDict.Given "FND-1") (PyDict.Given "acme/lend")
          (Some (2 ^ 63)) "High" PyDict.Absent PyDict.Absent) 100 100
     = Err OverflowError
  /\ (exists e : IntegrityError,
        add_finding Ledger.strftime_Ymd empty_db
          (Ledger.analyzer_result PyDict.Null (PyDict.Given "acme/lend")
             (Some 42) "High" PyDict.Absent PyDict.Absent) 100 100
        = Err e)
  /\ (exists row : Row,
        add_finding Ledger.strftime_Ymd empty_db
          (Ledger.finding (Some "FND-1") "High" 80) 100 100
        = Ok ({| findings := [row]; sqlite_sequence := 1 |}, 1)
        /\ finding_id row = "FND-1"
        /\ rowid row = 1).
Proof.
  split; [|split; [|split]].
  - apply (C4_insert_fails_on_id_severity_or_missing_key Ledger.strftime_Ymd
             empty_db
             (Ledger.analyzer_result PyDict.Absent PyDict.Null (Some 42) "High"
                PyDict.Absent PyDict.Absent) 100 100).
    reflexivity.
  - apply (C4_insert_fails_on_id_severity_or_missing_key Ledger.strftime_Ymd
             empty_db
             (Ledger.analyzer_result (PyDict.Given "FND-1")
                (PyDict.Given "acme/lend") (Some (2 ^ 63)) "High"
                PyDict.Absent PyDict.Absent) 100 100);
      reflexivity.
  - apply (C4_insert_fails_on_id_severity_or_missing_key Ledger.strftime_Ymd
             empty_db
             (Ledger.analyzer_result PyDict.Null (PyDict.Given "acme/lend")
                (Some 42) "High" PyDict.Absent PyDict.Absent) 100 100);
      reflexivity.
  - apply (C4_insert_fails_on_id_severity_or_missing_key Ledger.strftime_Ymd
             empty_db (Ledger.finding (Some "FND-1") "High" 80) 100 100);
      reflexivity.
Defined.

(** C4, as the specification words it. A status outside the six does not
    make the insertion fail: the dictionary with status "escalated" is
    inserted, as a pending finding. And an insertion can fail although
    the identifier is new and the severity and the status are in order:
    the dictionary without a title is rejected. *)
Lemma C4_insert_with_unknown_status_succeeds :
  Input.status Ledger.finding_with_status = Some "escalated"
  /\ check_status "escalated" = false
  /\ (exists db', add_finding Ledger.strftime_Ymd empty_db
                    Ledger.finding_with_status 100 100 = Ok (db', 1))
  /\ add_finding Ledger.strftime_Ymd empty_db Ledger.finding_without_title 100 100
     = Err (NotNullFailed "title").
Proof.
  split; [reflexivity|]. split; [reflexivity|].
  split; [eexists; reflexivity | reflexivity].
Qed.

(** *** Updating the status of a finding *)

Lemma find_holds {A} (p : A -> bool) (l : list A) (x : A) :
  find p l = Some x -> p x = true.
Proof.
  induction l as [|y l IH]; cbn; [discriminate|].
  destruct (p y) eqn:Hy; [intros [= <-]; exact Hy | exact IH].
Qed.

Lemma find_map_stable {A} (p : A -> bool) (g : A -> A) (l : list A) :
  (forall y, p (g y) = p y) ->
  find p (map g l) = option_map g (find p l).
Proof.
  intros Hg. induction l as [|y l IH]; cbn; [reflexivity|].
  rewrite Hg. destruct (p y); [reflexivity | exact IH].
Qed.

Lemma has_id_set_status (finding_id' status' : string) (notes' : option string)
    (now_updated now_submitted : timestamp) (row : Row) :
  has_id finding_id' (set_status status' notes' now_updated now_submitted row)
  = has_id finding_id' row.
Proof. reflexivity. Qed.

(** An update with a status among the six rewrites the row the
    identifier selects. *)
Lemma update_selected (db : Db) (finding_id' status' : string)
    (notes' : option string) (now_updated now_submitted : timestamp) (row : Row) :
  get_finding_by_id db finding_id' = Some row ->
  check_status status' = true ->
  exists db',
    update_finding_status db finding_id' status' notes' now_updated now_submitted
      = Ok db'
    /\ get_finding_by_id db' finding_id'
       = Some (set_status status' notes' now_updated now_submitted row).
Proof.
  intros Hrow Hst. unfold update_finding_status.
  rewrite Hst, andb_false_r. eexists. split; [reflexivity|].
  unfold get_finding_by_id in *. cbn [findings].
  rewrite find_map_stable.
  - rewrite Hrow. cbn [option_map].
    now rewrite (find_holds _ _ _ Hrow).
  - intros y. destruct (has_id finding_id' y) eqn:Hy; [|exact Hy].
    rewrite has_id_set_status. exact Hy.
Qed.

(** C5, as the code has it. For a stored finding,
    [update_finding_status] with a status outside the six raises
    [IntegrityError] (the [CHECK] on [status]) and writes nothing. With
    a status among the six it sets [updated_at] to the reading of the
    clock, sets [submitted_at] to the reading of the clock when the new
    status is submitted and leaves it alone otherwise, and keeps the
    stored notes unless notes are supplied; after an update to
    submitted, [submitted_at] is not null, and a later update to
    confirmed leaves it as it is. Nothing is said of the order between
    the new [updated_at] and the one stored before: the function writes
    the reading without comparing. *)
Theorem C5_update_status_effects (db : Db) (finding_id' status' : string)
    (notes' : option string) (now_updated now_submitted : timestamp) (row : Row) :
  get_finding_by_id db finding_id' = Some row ->
  (check_status status' = false ->
   update_finding_status db finding_id' status' notes' now_updated now_submitted
   = Err (CheckFailed "status"))
  /\ (check_status status' = true ->
      exists (db' : Db) (row' : Row),
        update_finding_status db finding_id' status' notes' now_updated now_submitted
          = Ok db'
        /\ get_finding_by_id db' finding_id' = Some row'
        /\ status row' = status'
        /\ updated_at row' = now_updated
        /\ submitted_at row'
           = (if String.eqb status' "submitted" then Some now_submitted
              else submitted_at row)
        /\ notes row' = match notes' with Some n => Some n | None => notes row end
        /\ (status' = "submitted" ->
            submitted_at row' <> None
            /\ forall (notes'' : option string) (later later' : timestamp),
                 exists (db'' : Db) (row'' : Row),
                   update_finding_status db' finding_id' "confirmed" notes''
                     later later'
                     = Ok db''
                   /\ get_finding_by_id db'' finding_id' = Some row''
                   /\ submitted_at row'' = submitted_at row')).
Proof.
  intros Hrow. split.
  - intros Hst. unfold update_finding_status.
    unfold get_finding_by_id in Hrow.
    rewrite (find_some_existsb _ _ _ Hrow), Hst. reflexivity.
  - intros Hst.
    destruct (update_selected db finding_id' status' notes' now_updated
                now_submitted row Hrow Hst) as [db' [Hupd Hget]].
    exists db', (set_status status' notes' now_updated now_submitted row).
    split; [exact Hupd|]. split; [exact Hget|].
    split; [reflexivity|]. split; [reflexivity|]. split; [reflexivity|].
    split; [destruct notes'; reflexivity|].
    intros ->. split; [discriminate|].
    intros notes'' later later'.
    destruct (update_selected db' finding_id' "confirmed" notes'' later later'
                _ Hget eq_refl) as [db'' [Hupd' Hget']].
    exists db'', (set_status "confirmed" notes'' later later'
                    (set_status "submitted" notes' now_updated now_submitted row)).
    split; [exact Hupd'|]. split; [exact Hget'|]. reflexivity.
Qed.

Lemma C5_update_status_effects_witness :
  update_finding_status Ledger.one_high "FND-1" "escalated" None 200 201
  = Err (CheckFailed "status")
  /\ exists (db' : Db) (row' : Row),
       update_finding_status Ledger.one_high "FND-1" "submitted" None 200 201 = Ok db'
       /\ get_finding_by_id db' "FND-1" = Some row'
       /\ status row' = "submitted"
       /\ updated_at row' = 200
       /\ submitted_at row' = Some 201
       /\ notes row' = None
       /\ ("submitted" = "submitted" ->
           submitted_at row' <> None
           /\ forall (notes'' : option string) (later later' : timestamp),
                exists (db'' : Db) (row'' : Row),
                  update_finding_status db' "FND-1" "confirmed" notes'' later later'
                    = Ok db''
                  /\ get_finding_by_id db'' "FND-1" = Some row''
                  /\ submitted_at row'' = submitted_at row').
Proof.
  split.
  - apply (C5_update_status_effects Ledger.one_high "FND-1" "escalated" None 200 201
             Ledger.high_row); reflexivity.
  - apply (C5_update_status_effects Ledger.one_high "FND-1" "submitted" None 200 201
             Ledger.high_row); reflexivity.
Defined.

(** C5, as the specification words it. An update does not always set
    [updated_at]: with the status "escalated", which is not one of the
    six, the update of a stored finding raises and the finding keeps the
    [updated_at] it had. And after an update to submitted, [updated_at]
    can be before the previous one: the row is inserted with the
    [CURRENT_TIMESTAMP] of SQLite, which is UTC, and updated with the
    reading of [datetime.now()], which is local time, here 50 against a
    stored 100. *)
Lemma C5_update_can_fail_and_updated_at_can_go_back :
  get_finding_by_id Ledger.one_high "FND-1" = Some Ledger.high_row
  /\ updated_at Ledger.high_row = 100
  /\ update_finding_status Ledger.one_high "FND-1" "escalated" None 200 200
     = Err (CheckFailed "status")
  /\ exists (db' : Db) (row' : Row),
       update_finding_status Ledger.one_high "FND-1" "submitted" None 50 50 = Ok db'
       /\ get_finding_by_id db' "FND-1" = Some row'
       /\ submitted_at row' <> None
       /\ updated_at row' = 50
       /\ updated_at row' < updated_at Ledger.high_row.
Proof.
  split; [reflexivity|]. split; [reflexivity|]. split; [reflexivity|].
  eexists _, _. split; [reflexivity|]. split; [reflexivity|].
  split; [discriminate|]. split; reflexivity.
Qed.

(** *** Runs of updates *)

Lemma find_app_first {A} (p : A -> bool) (l1 l2 : list A) :
  find p (l1 ++ l2)
  = match find p l1 with Some x => Some x | None => find p l2 end.
Proof.
  induction l1 as [|y l1 IH]; cbn; [reflexivity|].
  destruct (p y); [reflexivity | exact IH].
Qed.

(** One call, seen from a stored finding: the row is rewritten when the
    call names it with a status among the six, and is left alone
    otherwise. *)
Lemma step_lookup (db : Db) (c : Call) (finding_id' : string) (row : Row) :
  get_finding_by_id db finding_id' = Some row ->
  get_finding_by_id (step db c) finding_id'
  = Some (if has_id (call_id c) row && check_status (call_status c)
          then set_status (call_status c) (call_notes c)
                 (call_now_updated c) (call_now_submitted c) row
          else row).
Proof.
  intros Hrow. unfold step, update_finding_status.
  destruct (existsb (has_id (call_id c)) (findings db)) eqn:Hex;
    destruct (check_status (call_status c)) eqn:Hst; cbn [andb negb].
  - unfold get_finding_by_id in *. cbn [findings].
    rewrite find_map_stable, Hrow, andb_true_r; [reflexivity|].
    intros y. destruct (has_id (call_id c) y); reflexivity.
  - rewrite andb_false_r. exact Hrow.
  - unfold get_finding_by_id in *. cbn [findings].
    rewrite map_unselected by exact Hex. rewrite Hrow, andb_true_r.
    destruct (has_id (call_id c) row) eqn:Hsel; [|reflexivity].
    exfalso. apply find_some in Hrow as [Hin _].
    assert (existsb (has_id (call_id c)) (findings db) = true) as Habs
      by (apply existsb_exists; eauto).
    congruence.
  - unfold get_finding_by_id in *. cbn [findings].
    rewrite map_unselected by exact Hex. rewrite andb_false_r. exact Hrow.
Qed.

Lemma step_submitted_at (db : Db) (c : Call) (finding_id' : string) (row : Row) :
  get_finding_by_id db finding_id' = Some row ->
  exists row',
    get_finding_by_id (step db c) finding_id' = Some row'
    /\ submitted_at row'
       = (if submits finding_id' c then Some (call_now_submitted c)
          else submitted_at row).
Proof.
  intros Hrow. rewrite (step_lookup db c finding_id' row Hrow).
  eexists. split; [reflexivity|].
  pose proof (find_holds _ _ _ Hrow) as Hid.
  unfold has_id in Hid. apply String.eqb_eq in Hid.
  unfold submits, has_id. rewrite Hid.
  rewrite (String.eqb_sym finding_id' (call_id c)).
  destruct (String.eqb (call_id c) finding_id'); cbn [andb]; [|reflexivity].
  destruct (String.eqb (call_status c) "submitted") eqn:Hsub.
  - apply String.eqb_eq in Hsub. rewrite Hsub. reflexivity.
  - destruct (check_status (call_status c)); [|reflexivity].
    cbn [set_status submitted_at]. rewrite Hsub. reflexivity.
Qed.

Lemma last_submitted_unchanged (finding_id' : string) (calls : list Call)
    (init : option timestamp) :
  forallb (fun c => negb (submits finding_id' c)) calls = true ->
  last_submitted finding_id' calls init = init.
Proof.
  unfold last_submitted. revert init.
  induction calls as [|c calls IH]; intros init; cbn [forallb fold_left];
    [reflexivity|].
  rewrite andb_true_iff, negb_true_iff. intros [-> Hrest]. now apply IH.
Qed.

Lemma last_submitted_kept (finding_id' : string) (calls : list Call)
    (init : option timestamp) :
  init <> None -> last_submitted finding_id' calls init <> None.
Proof.
  unfold last_submitted. revert init.
  induction calls as [|c calls IH]; intros init Hinit; cbn [fold_left];
    [exact Hinit|].
  apply IH. destruct (submits finding_id' c); [discriminate | exact Hinit].
Qed.

(** C6, as the code has it. A finding is inserted with a null
    [submitted_at]. Over any run of [update_finding_status] calls the
    field holds the clock reading of the last call that set the finding
    to submitted, and what it held before when there is no such call: it
    stays as it is while no call submits the finding, every call that
    submits it writes it anew, and once not null it is never null
    again. *)
Theorem C6_submitted_at_follows_last_submission
    (strftime_Ymd : timestamp -> string) (db0 db : Db) (finding : Input.Finding)
    (now current_timestamp : timestamp) (lastrowid : Z)
    (finding_id' : string) (row : Row) (calls : list Call) :
  get_finding_by_id db finding_id' = Some row ->
  (add_finding strftime_Ymd db0 finding now current_timestamp = Ok (db, lastrowid) ->
   effective_id strftime_Ymd finding now = finding_id' ->
   submitted_at row = None)
  /\ exists row' : Row,
       get_finding_by_id (run db calls) finding_id' = Some row'
       /\ submitted_at row' = last_submitted finding_id' calls (submitted_at row)
       /\ (forallb (fun c => negb (submits finding_id' c)) calls = true ->
           submitted_at row' = submitted_at row)
       /\ (submitted_at row <> None -> submitted_at row' <> None).
Proof.
  intros Hrow. split.
  - intros Hadd Hid. revert Hadd. unfold add_finding.
    unfold effective_id in Hid.
    destruct (bound_finding_id _ _ _) as [[bound|]|e]; [| |discriminate].
    2:{ destruct (negb _); discriminate. }
    subst bound.
    destruct (negb _); [discriminate|].
    destruct (PyDict.get (Input.repo_name finding)); [|discriminate].
    destruct (Input.repo_url finding); [|discriminate].
    destruct (Input.vulnerability_type finding); [|discriminate].
    destruct (Input.title finding); [|discriminate].
    destruct (Input.severity finding); [|discriminate].
    destruct (negb _); [discriminate|].
    destruct (existsb _ _) eqn:Hnew; [discriminate|].
    intros [= <- _]. unfold get_finding_by_id in Hrow. cbn [findings] in Hrow.
    rewrite find_app_first in Hrow.
    destruct (find (has_id finding_id') (findings db0)) as [old|] eqn:Hold.
    + apply find_some_existsb in Hold. congruence.
    + cbn [find] in Hrow. destruct (has_id finding_id' _) in Hrow;
        [|discriminate]. injection Hrow as <-. reflexivity.
  - assert (exists row' : Row,
              get_finding_by_id (run db calls) finding_id' = Some row'
              /\ submitted_at row'
                 = last_submitted finding_id' calls (submitted_at row))
      as [row' [Hget Hlast]].
    { clear db0 finding now current_timestamp lastrowid strftime_Ymd.
      unfold run, last_submitted. revert db row Hrow.
      induction calls as [|c calls IH]; intros db row Hrow; cbn [fold_left].
      - exists row. split; [exact Hrow | reflexivity].
      - destruct (step_submitted_at db c finding_id' row Hrow) as [row1 [H1 S1]].
        destruct (IH (step db c) row1 H1) as [row' [Hget Hlast]].
        exists row'. split; [exact Hget|]. rewrite Hlast, S1. reflexivity. }
    exists row'. split; [exact Hget|]. split; [exact Hlast|]. split.
    + intros Hnone. rewrite Hlast. now apply last_submitted_unchanged.
    + intros Hset. rewrite Hlast. now apply last_submitted_kept.
Qed.

Lemma C6_submitted_at_follows_last_submission_witness :
  (add_finding Ledger.strftime_Ymd empty_db (Ledger.finding (Some "FND-1") "High" 80)
     100 100 = Ok (Ledger.one_high, 1) ->
   effective_id Ledger.strftime_Ymd (Ledger.finding (Some "FND-1") "High" 80) 100
   = "FND-1" ->
   submitted_at Ledger.high_row = None)
  /\ exists row' : Row,
       get_finding_by_id
         (run Ledger.one_high
            [Ledger.call "FND-1" "approved" 150; Ledger.call "FND-1" "submitted" 200;
             Ledger.call "FND-1" "confirmed" 250])
         "FND-1" = Some row'
       /\ submitted_at row' = Some 200
       /\ (forallb (fun c => negb (submits "FND-1" c))
             [Ledger.call "FND-1" "approved" 150; Ledger.call "FND-1" "submitted" 200;
              Ledger.call "FND-1" "confirmed" 250] = true ->
           submitted_at row' = submitted_at Ledger.high_row)
       /\ (submitted_at Ledger.high_row <> None -> submitted_at row' <> None).
Proof.
  apply (C6_submitted_at_follows_last_submission Ledger.strftime_Ymd empty_db
           Ledger.one_high (Ledger.finding (Some "FND-1") "High" 80) 100 100 1
           "FND-1" Ledger.high_row
           [Ledger.call "FND-1" "approved" 150; Ledger.call "FND-1" "submitted" 200;
            Ledger.call "FND-1" "confirmed" 250]).
  reflexivity.
Defined.

(** C6, as the specification words it: [submitted_at] is not set exactly
    once. A second update to submitted, at a later instant, replaces the
    instant the first one stored. *)
Lemma C6_submitted_at_is_written_again :
  option_map submitted_at
    (get_finding_by_id
       (run Ledger.one_high [Ledger.call "FND-1" "submitted" 200]) "FND-1")
  = Some (Some 200)
  /\ option_map submitted_at
       (get_finding_by_id
          (run Ledger.one_high
             [Ledger.call "FND-1" "submitted" 200; Ledger.call "FND-1" "submitted" 300])
          "FND-1")
     = Some (Some 300).
Proof. split; reflexivity. Qed.

End FindingsDbFacts.

(** ** Properties of the stable sort *)

Module SortingFacts.

Import Sorting.

Section SortBy.

Context {A : Type}.
Variable before : A -> A -> bool.

Lemma insert_by_perm (x : A) (l : list A) : Permutation (insert_by before x l) (x :: l).
Proof.
  induction l as [|y l IH]; cbn [insert_by].
  - reflexivity.
  - destruct (before x y).
    + reflexivity.
    + rewrite IH. apply perm_swap.
Qed.

Lemma sort_by_perm (l : list A) : Permutation (sort_by before l) l.
Proof.
  induction l as [|x l IH]; cbn [sort_by fold_right].
  - reflexivity.
  - fold (sort_by before l). rewrite insert_by_perm. now constructor.
Qed.

Lemma sort_by_In (l : list A) (x : A) : In x (sort_by before l) <-> In x l.
Proof.
  split; apply Permutation_in; [|symmetry]; apply sort_by_perm.
Qed.


Hypothesis before_total : forall a b, before a b = false -> before b a = true.
Hypothesis before_trans :
  forall a b c, before a b = true -> before b c = true -> before a c = true.

Lemma insert_by_sorted (x : A) (l : list A) :
  StronglySorted (fun a b => before a b = true) l ->
  StronglySorted (fun a b => before a b = true) (insert_by before x l).
Proof.
  induction 1 as [|y l Hl IH Hy]; cbn [insert_by].
  - repeat constructor.
  - destruct (before x y) eqn:Hxy.
    + constructor; [now constructor|].
      constructor; [exact Hxy|].
      eapply List.Forall_impl; [|exact Hy].
      intros z Hyz. eapply before_trans; eassumption.
    + constructor; [exact IH|].
      eapply Permutation_Forall; [symmetry; apply insert_by_perm|].
      constructor; [now apply before_total | exact Hy].
Qed.

Lemma sort_by_sorted (l : list A) :
  StronglySorted (fun a b => before a b = true) (sort_by before l).
Proof.
  induction l as [|x l IH]; cbn [sort_by fold_right].
  - constructor.
  - apply insert_by_sorted, IH.
Qed.

End SortBy.

Lemma In_firstn {A} (n : nat) (l : list A) (x : A) : In x (firstn n l) -> In x l.
Proof.
  revert n; induction l as [|y l IH]; intros [|n]; cbn; try contradiction.
  intros [->|H]; [now left | right; eapply IH; exact H].
Qed.

End SortingFacts.

(** ** Properties of the list query *)

Module QueriesFacts.

Import FindingsDb Queries.

Lemma and_equals_spec (arg : option string) (column : string) :
  and_equals arg column = true <->
  (forall s, arg = Some s -> s <> "" -> column = s).
Proof.
  unfold and_equals, given. destruct arg as [[|c s]|]; cbn [Monitor.get].
  - split; [intros _ s [= <-] H; now elim H | reflexivity].
  - rewrite String.eqb_eq. split.
    + intros -> s' [= <-] _. reflexivity.
    + intros H. apply H; [reflexivity | discriminate].
  - split; [intros _ s H; discriminate H | reflexivity].
Qed.

Lemma limit_to_In {A} (limit : Z) (l : list A) (x : A) :
  In x (limit_to limit l) -> In x l.
Proof.
  unfold limit_to. destruct (limit <? 0); [auto | apply SortingFacts.In_firstn].
Qed.

(** Whatever the limit, [get_findings] returns stored findings only, and
    only findings that agree with every filter that is given and not
    empty. *)
Theorem get_findings_sound (db : Db) (severity' status' repo : option string)
    (limit : Z) (row : Row) :
  In row (get_findings db severity' status' repo limit) ->
  In row (findings db)
  /\ (forall s, severity' = Some s -> s <> "" -> severity row = s)
  /\ (forall s, status' = Some s -> s <> "" -> status row = s)
  /\ (forall s, repo = Some s -> s <> "" -> repo_name row = s).
Proof.
  unfold get_findings. intros Hin.
  apply limit_to_In, SortingFacts.sort_by_In, List.filter_In in Hin as [Hin Hw].
  unfold where_clause in Hw. rewrite !andb_true_iff in Hw.
  destruct Hw as [[H1 H2] H3].
  rewrite and_equals_spec in H1, H2, H3. auto.
Qed.

Lemma get_findings_sound_witness :
  In Ledger.high_row (findings Ledger.one_high)
  /\ (forall s, Some "High" = Some s -> s <> "" -> severity Ledger.high_row = s)
  /\ (forall s, Some "" = Some s -> s <> "" -> status Ledger.high_row = s)
  /\ (forall s, @None string = Some s -> s <> "" -> repo_name Ledger.high_row = s).
Proof.
  apply (get_findings_sound Ledger.one_high (Some "High") (Some "") None 50
           Ledger.high_row).
  vm_compute. left. reflexivity.
Defined.



End QueriesFacts.

(** ** Properties of the two writers of [findings] *)

Module SessionFacts.

Import FindingsDb Session.

(** *** What an insertion stores *)

Lemma add_finding_ok (strftime_Ymd : timestamp -> string) (db db' : Db)
    (finding : Input.Finding) (now current_timestamp : timestamp) (lastrowid : Z) :
  add_finding strftime_Ymd db finding now current_timestamp = Ok (db', lastrowid) ->
  exists row : Row,
    findings db' = findings db ++ [row]
    /\ sqlite_sequence db' = sqlite_sequence db + 1
    /\ lastrowid = sqlite_sequence db + 1
    /\ existsb (has_id (effective_id strftime_Ymd finding now)) (findings db) = false
    /\ rowid row = sqlite_sequence db + 1
    /\ finding_id row = effective_id strftime_Ymd finding now
    /\ Some (repo_name row) = PyDict.get (Input.repo_name finding)
    /\ Some (repo_url row) = Input.repo_url finding
    /\ repo_owner row = Input.repo_owner finding
    /\ file_path row = Input.file_path finding
    /\ line_number row = Input.line_number finding
    /\ Some (vulnerability_type row) = Input.vulnerability_type finding
    /\ Some (title row) = Input.title finding
    /\ description row = Input.description finding
    /\ Some (severity row) = Input.severity finding
    /\ check_severity (severity row) = true
    /\ impact row = Input.impact finding
    /\ recommendation row = Input.recommendation finding
    /\ code_snippet row = Input.code_snippet finding
    /\ status row = "pending"
    /\ confidence row
       = option_map real_of
           (PyDict.get_default (Input.confidence finding) (PyDict.Float 0))
    /\ analyzer row = Input.analyzer finding
    /\ scan_id row = Input.scan_id finding
    /\ created_at row = PyDict.get_default (Input.created_at finding) now
    /\ updated_at row = current_timestamp
    /\ submitted_at row = None
    /\ no_bounty row
    /\ bound_finding_id strftime_Ymd finding now = Ok (Some (finding_id row))
    /\ binds_int (line_number row) = true.
Proof.
  unfold add_finding, effective_id.
  destruct (bound_finding_id _ _ _) as [[finding_id'|]|e]; [| |discriminate].
  2:{ destruct (negb _); discriminate. }
  destruct (binds_int (Input.line_number finding)) eqn:Hline;
    [|discriminate]. cbn [andb].
  destruct (negb _); [discriminate|].
  destruct (PyDict.get (Input.repo_name finding)); [|discriminate].
  destruct (Input.repo_url finding); [|discriminate].
  destruct (Input.vulnerability_type finding); [|discriminate].
  destruct (Input.title finding); [|discriminate].
  destruct (Input.severity finding); [|discriminate].
  destruct (check_severity _) eqn:Hsev; [|discriminate]. cbn [negb].
  destruct (existsb _ _) eqn:Hnew; [discriminate|].
  intros [= <- <-]. eexists. cbn [findings sqlite_sequence].
  split; [reflexivity|]. cbn. unfold no_bounty. cbn. repeat split; assumption.
Qed.

(** Insert, then look up. After a successful [add_finding],
    [get_finding_by_id] with the identifier of the finding (the one
    supplied, or the one generated from the date and the repository
    name) returns a row that holds every value supplied, the number
    [add_finding] returned, status pending and no submission time. An
    absent confidence is stored as 0.0 and an absent [created_at] as the
    time of the call, a null under either key as a null; a confidence
    given as an integer is stored as the nearest float. The [line_number]
    stored fits 64 bits. The look-up of any other identifier answers
    what it did before. *)
Theorem add_finding_then_lookup (strftime_Ymd : timestamp -> string) (db db' : Db)
    (finding : Input.Finding) (now current_timestamp : timestamp) (lastrowid : Z) :
  add_finding strftime_Ymd db finding now current_timestamp = Ok (db', lastrowid) ->
  (exists row : Row,
     get_finding_by_id db' (effective_id strftime_Ymd finding now) = Some row
     /\ rowid row = lastrowid
     /\ bound_finding_id strftime_Ymd finding now = Ok (Some (finding_id row))
     /\ (forall supplied : string,
           Input.finding_id finding = PyDict.Given supplied ->
           finding_id row = supplied)
     /\ Some (repo_name row) = PyDict.get (Input.repo_name finding)
     /\ Some (repo_url row) = Input.repo_url finding
     /\ repo_owner row = Input.repo_owner finding
     /\ file_path row = Input.file_path finding
     /\ line_number row = Input.line_number finding
     /\ binds_int (line_number row) = true
     /\ Some (vulnerability_type row) = Input.vulnerability_type finding
     /\ Some (title row) = Input.title finding
     /\ description row = Input.description finding
     /\ Some (severity row) = Input.severity finding
     /\ impact row = Input.impact finding
     /\ recommendation row = Input.recommendation finding
     /\ code_snippet row = Input.code_snippet finding
     /\ analyzer row = Input.analyzer finding
     /\ scan_id row = Input.scan_id finding
     /\ confidence row
        = match Input.confidence finding with
          | PyDict.Absent => Some 0%Q
          | PyDict.Null => None
          | PyDict.Given (PyDict.Float x) => Some x
          | PyDict.Given (PyDict.Int n) => Some (PyNum.float_of_int n)
          end
     /\ created_at row
        = match Input.created_at finding with
          | PyDict.Absent => Some now
          | PyDict.Null => None
          | PyDict.Given t => Some t
          end
     /\ updated_at row = current_timestamp
     /\ status row = "pending"
     /\ submitted_at row = None)
  /\ (forall other : string,
        other <> effective_id strftime_Ymd finding now ->
        get_finding_by_id db' other = get_finding_by_id db other).
Proof.
  intros Hadd.
  destruct (add_finding_ok _ _ _ _ _ _ _ Hadd)
    as (row & Hrows & _ & Hlast & Hnew & Hrowid & Hid & Hname & Hurl & Howner
        & Hpath & Hline & Hvt & Htitle & Hdesc & Hsev & _ & Himpact & Hrec & Hcode
        & Hst & Hconf & Han & Hscan & Hcreated & Hupd & Hsub & _ & Hbound & Hfits).
  unfold get_finding_by_id. rewrite Hrows. split.
  - exists row. rewrite FindingsDbFacts.find_app_first.
    destruct (find _ (findings db)) as [old|] eqn:Hold.
    { apply FindingsDbFacts.find_some_existsb in Hold. congruence. }
    cbn [find]. unfold has_id at 1. rewrite (proj2 (String.eqb_eq _ _) Hid).
    split; [reflexivity|]. split; [congruence|]. split; [exact Hbound|].
    split.
    { intros supplied Hsupplied. unfold bound_finding_id in Hbound.
      rewrite Hsupplied in Hbound.
      cbn [PyDict.has_key PyDict.get negb] in Hbound. congruence. }
    repeat (split; [assumption|]).
    split.
    { rewrite Hconf. destruct (Input.confidence finding) as [| |[n|x]]; reflexivity. }
    split.
    { rewrite Hcreated. destruct (Input.created_at finding); reflexivity. }
    auto.
  - intros other Hother. rewrite FindingsDbFacts.find_app_first.
    destruct (find _ (findings db)); [reflexivity|].
    cbn [find]. unfold has_id. rewrite Hid.
    destruct (String.eqb_spec (effective_id strftime_Ymd finding now) other);
      [congruence | reflexivity].
Qed.

Lemma add_finding_then_lookup_witness :
  (exists row : Row,
     get_finding_by_id
       (Ledger.add Ledger.one_high
          (Ledger.analyzer_result PyDict.Absent (PyDict.Given "acme/lending-pool")
             (Some 7) "Low" PyDict.Null (PyDict.Given 90)) 200)
       "FND-20261103-acme/lendi" = Some row
     /\ rowid row = 2
     /\ Ok (Some "FND-20261103-acme/lendi") = Ok (Some (finding_id row))
     /\ (forall supplied : string,
           @PyDict.Absent string = PyDict.Given supplied ->
           finding_id row = supplied)
     /\ Some (repo_name row) = Some "acme/lending-pool"
     /\ Some (repo_url row) = Some "https://github.com/acme/lend"
     /\ repo_owner row = Some "acme"
     /\ file_path row = Some "programs/lend/src/lib.rs"
     /\ line_number row = Some 7
     /\ binds_int (line_number row) = true
     /\ Some (vulnerability_type row) = Some "missing-signer-check"
     /\ Some (title row) = Some "Authority is not checked"
     /\ description row = None
     /\ Some (severity row) = Some "Low"
     /\ impact row = None
     /\ recommendation row = None
     /\ code_snippet row = None
     /\ analyzer row = Some "semgrep"
     /\ scan_id row = None
     /\ confidence row = None
     /\ created_at row = Some 90
     /\ updated_at row = 200
     /\ status row = "pending"
     /\ submitted_at row = None)
  /\ (forall other : string,
        other <> "FND-20261103-acme/lendi" ->
        get_finding_by_id
          (Ledger.add Ledger.one_high
             (Ledger.analyzer_result PyDict.Absent (PyDict.Given "acme/lending-pool")
                (Some 7) "Low" PyDict.Null (PyDict.Given 90)) 200)
          other
        = get_finding_by_id Ledger.one_high other).
Proof.
  apply (add_finding_then_lookup Ledger.strftime_Ymd Ledger.one_high
           (Ledger.add Ledger.one_high
              (Ledger.analyzer_result PyDict.Absent (PyDict.Given "acme/lending-pool")
                 (Some 7) "Low" PyDict.Null (PyDict.Given 90)) 200)
           (Ledger.analyzer_result PyDict.Absent (PyDict.Given "acme/lending-pool")
              (Some 7) "Low" PyDict.Null (PyDict.Given 90))
           200 200 2).
  reflexivity.
Defined.

(** *** What an update writes *)

Lemma update_ok (db db' : Db) (finding_id' status' : string)
    (notes' : option string) (now_updated now_submitted : timestamp) :
  update_finding_status db finding_id' status' notes' now_updated now_submitted
    = Ok db' ->
  findings db'
    = map (fun row =>
             if has_id finding_id' row
             then set_status status' notes' now_updated now_submitted row
             else row)
          (findings db)
  /\ sqlite_sequence db' = sqlite_sequence db
  /\ (existsb (has_id finding_id') (findings db) = true ->
      check_status status' = true).
Proof.
  unfold update_finding_status.
  destruct (existsb _ _) eqn:Hex; destruct (check_status status') eqn:Hst;
    cbn [andb negb]; try discriminate; intros [= <-]; cbn; auto.
Qed.

(** A successful update keeps the number and the order of the rows and
    the sequence; in every row it leaves all columns but [status],
    [updated_at], [submitted_at] and [notes] as they were, and a row
    with another identifier it leaves whole. *)
Theorem update_touches_only_workflow (db db' : Db) (finding_id' status' : string)
    (notes' : option string) (now_updated now_submitted : timestamp) :
  update_finding_status db finding_id' status' notes' now_updated now_submitted
    = Ok db' ->
  sqlite_sequence db' = sqlite_sequence db
  /\ Forall2
       (fun old new =>
          same_but_workflow old new
          /\ (finding_id old <> finding_id' -> new = old))
       (findings db) (findings db').
Proof.
  intros Hupd. apply update_ok in Hupd as (Hrows & Hseq & _).
  split; [exact Hseq|]. rewrite Hrows. clear.
  induction (findings db) as [|row rows IH]; cbn [map]; constructor; [|exact IH].
  unfold has_id. destruct (String.eqb_spec (finding_id row) finding_id') as [Heq|Hne].
  - split; [reflexivity | intros H; now elim H].
  - split; [destruct row; reflexivity | reflexivity].
Qed.

Lemma update_touches_only_workflow_witness :
  sqlite_sequence
    (run Ledger.four [Ledger.call "FND-H" "approved" 200]) = sqlite_sequence Ledger.four
  /\ Forall2
       (fun old new =>
          same_but_workflow old new /\ (finding_id old <> "FND-H" -> new = old))
       (findings Ledger.four)
       (findings (run Ledger.four [Ledger.call "FND-H" "approved" 200])).
Proof.
  apply (update_touches_only_workflow Ledger.four
           (run Ledger.four [Ledger.call "FND-H" "approved" 200])
           "FND-H" "approved" None 200 200).
  reflexivity.
Defined.

(** *** What every session keeps *)

Lemma StronglySorted_snoc {A} (R : A -> A -> Prop) (l : list A) (x : A) :
  StronglySorted R l -> Forall (fun y => R y x) l -> StronglySorted R (l ++ [x]).
Proof.
  induction 1 as [|y l Hl IH Hy]; intros Hx; cbn [app].
  - repeat constructor.
  - apply List.Forall_cons_iff in Hx as [Hyx Hlx].
    constructor; [apply IH; exact Hlx|].
    apply List.Forall_app. split; [exact Hy | now constructor].
Qed.

Lemma existsb_has_id_false (finding_id' : string) (rows : list Row) :
  existsb (has_id finding_id') rows = false -> ~ In finding_id' (map finding_id rows).
Proof.
  intros Hex Hin. apply List.in_map_iff in Hin as (row & Hid & Hin).
  assert (existsb (has_id finding_id') rows = true) as Habs.
  { apply existsb_exists. exists row. split; [exact Hin|].
    unfold has_id. rewrite Hid. apply String.eqb_refl. }
  congruence.
Qed.

Lemma add_finding_keeps_well_formed (strftime_Ymd : timestamp -> string)
    (db db' : Db) (finding : Input.Finding) (now current_timestamp : timestamp)
    (lastrowid : Z) :
  add_finding strftime_Ymd db finding now current_timestamp = Ok (db', lastrowid) ->
  well_formed db -> well_formed db'.
Proof.
  intros Hadd (Hseq & Hids & Hrows & Hsorted).
  destruct (add_finding_ok _ _ _ _ _ _ _ Hadd)
    as (row & Hrows' & Hseq' & _ & Hnew & Hrowid & Hid & _ & _ & _ & _ & _ & _ & _
        & _ & _ & Hsev & _ & _ & _ & Hst & _).
  unfold well_formed. rewrite Hrows', Hseq'. split; [lia|]. split; [|split].
  - rewrite List.map_app. cbn [map].
    apply List.NoDup_app; [exact Hids | repeat constructor; intros [] |].
    intros x Hx [<-|[]]. rewrite Hid in Hx.
    now apply (existsb_has_id_false _ _ Hnew).
  - apply List.Forall_app. split.
    + eapply List.Forall_impl; [|exact Hrows].
      unfold row_ok. intros r (? & ? & ?). rewrite Hseq'. repeat split; auto; lia.
    + constructor; [|constructor].
      unfold row_ok. rewrite Hseq', Hrowid, Hst. repeat split; auto; lia.
  - apply StronglySorted_snoc; [exact Hsorted|].
    eapply List.Forall_impl; [|exact Hrows].
    unfold row_ok. intros r (_ & _ & ?). lia.
Qed.

Lemma update_keeps_well_formed (db db' : Db) (finding_id' status' : string)
    (notes' : option string) (now_updated now_submitted : timestamp) :
  update_finding_status db finding_id' status' notes' now_updated now_submitted
    = Ok db' ->
  well_formed db -> well_formed db'.
Proof.
  intros Hupd (Hseq & Hids & Hrows & Hsorted).
  apply update_ok in Hupd as (Hrows' & Hseq' & Hcheck).
  unfold well_formed. rewrite Hrows', Hseq'. split; [exact Hseq|].
  assert (forall l : list Row,
            map finding_id
              (map (fun row => if has_id finding_id' row
                               then set_status status' notes' now_updated
                                      now_submitted row
                               else row) l)
            = map finding_id l) as Hsame.
  { induction l as [|r l IH]; cbn [map]; [reflexivity|].
    rewrite IH. destruct (has_id finding_id' r); reflexivity. }
  split; [rewrite Hsame; exact Hids|]. split.
  - apply List.Forall_forall. intros new Hin.
    apply List.in_map_iff in Hin as (old & <- & Hin).
    rewrite List.Forall_forall in Hrows. specialize (Hrows old Hin).
    destruct (has_id finding_id' old) eqn:Hsel; [|unfold row_ok; rewrite Hseq'; exact Hrows].
    destruct Hrows as (Hsev & _ & Hrowid).
    unfold row_ok. cbn [set_status severity status rowid]. rewrite Hseq'.
    repeat split; auto; try lia.
    apply Hcheck, existsb_exists. eauto.
  - clear -Hsorted. induction Hsorted as [|r l Hl IH Hr]; cbn [map]; constructor.
    + exact IH.
    + apply List.Forall_forall. intros new Hin.
      apply List.in_map_iff in Hin as (old & <- & Hin).
      rewrite List.Forall_forall in Hr. specialize (Hr old Hin).
      destruct (has_id finding_id' r), (has_id finding_id' old); exact Hr.
Qed.

Lemma exec_keeps_well_formed (strftime_Ymd : timestamp -> string) (db : Db) (op : Op) :
  well_formed db -> well_formed (exec strftime_Ymd db op).
Proof.
  intros Hwf. destruct op as [finding now current_timestamp|c]; cbn [exec].
  - destruct (add_finding _ _ _ _ _) as [[db' n]|e] eqn:Hadd; [|exact Hwf].
    eapply add_finding_keeps_well_formed; eassumption.
  - unfold step. destruct (update_finding_status _ _ _ _ _ _) as [db'|e] eqn:Hupd;
      [|exact Hwf].
    eapply update_keeps_well_formed; eassumption.
Qed.

(** Whatever calls of [add_finding] and [update_finding_status] a
    session makes on a database that starts empty, with whatever
    arguments, the table stays in order: no two findings share an
    identifier, every severity is one of the five and every status one
    of the six, and the row numbers are positive, grow with the order of
    insertion and never pass the sequence counter. *)
Theorem session_keeps_table_in_order (strftime_Ymd : timestamp -> string)
    (ops : list Op) :
  well_formed (exec_all strftime_Ymd empty_db ops).
Proof.
  unfold exec_all.
  assert (well_formed empty_db) as Hwf.
  { unfold well_formed. cbn. repeat split; try constructor. lia. }
  revert Hwf. generalize empty_db.
  induction ops as [|op ops IH]; intros db Hwf; cbn [fold_left]; [exact Hwf|].
  apply IH, exec_keeps_well_formed, Hwf.
Qed.

(** *** Bounties *)

Lemma exec_keeps_no_bounty (strftime_Ymd : timestamp -> string) (db : Db) (op : Op) :
  Forall no_bounty (findings db) ->
  Forall no_bounty (findings (exec strftime_Ymd db op)).
Proof.
  intros Hnb. destruct op as [finding now current_timestamp|c]; cbn [exec].
  - destruct (add_finding _ _ _ _ _) as [[db' n]|e] eqn:Hadd; [|exact Hnb].
    destruct (add_finding_ok _ _ _ _ _ _ _ Hadd) as (row & -> & H).
    apply List.Forall_app. split; [exact Hnb|]. constructor; [|constructor]. tauto.
  - unfold step. destruct (update_finding_status _ _ _ _ _ _) as [db'|e] eqn:Hupd;
      [|exact Hnb].
    apply update_ok in Hupd as (-> & _).
    apply List.Forall_forall. intros new Hin.
    apply List.in_map_iff in Hin as (old & <- & Hin).
    rewrite List.Forall_forall in Hnb. specialize (Hnb old Hin).
    destruct (has_id _ old); exact Hnb.
Qed.

Lemma session_records_no_bounty (strftime_Ymd : timestamp -> string) (ops : list Op) :
  Forall no_bounty (findings (exec_all strftime_Ymd empty_db ops)).
Proof.
  unfold exec_all.
  assert (Forall no_bounty (findings empty_db)) as Hnb by constructor.
  revert Hnb. generalize empty_db.
  induction ops as [|op ops IH]; intros db Hnb; cbn [fold_left]; [exact Hnb|].
  apply IH, exec_keeps_no_bounty, Hnb.
Qed.

Lemma sum_real_all_null (values : list (option Q)) :
  Forall (fun v => v = None) values -> Statistics.sum_real values = None.
Proof.
  unfold Statistics.sum_real. induction 1 as [|v values -> _ IH]; [reflexivity|].
  exact IH.
Qed.

(** Neither writer of [findings] ever stores a bounty: in any session
    that starts from the empty database every row has null
    [bounty_platform], [bounty_url] and [bounty_amount], whatever its
    status, and the [total_earnings] of [get_statistics] is 0. *)
Theorem session_never_records_a_bounty (strftime_Ymd : timestamp -> string)
    (ops : list Op) (now : timestamp) :
  Forall no_bounty (findings (exec_all strftime_Ymd empty_db ops))
  /\ Statistics.total_earnings
       (Statistics.get_statistics (exec_all strftime_Ymd empty_db ops) now) = 0%Q.
Proof.
  pose proof (session_records_no_bounty strftime_Ymd ops) as Hnb.
  split; [exact Hnb|].
  unfold Statistics.get_statistics. cbn [Statistics.total_earnings].
  rewrite sum_real_all_null; [reflexivity|].
  apply List.Forall_forall. intros v Hin.
  apply List.in_map_iff in Hin as (row & <- & Hin).
  apply List.filter_In in Hin as [Hin _].
  rewrite List.Forall_forall in Hnb. now destruct (Hnb row Hin) as (_ & _ & ?).
Qed.

(** *** The review queue *)

Lemma at_or_above_trans (a b c : string) :
  at_or_above a b = true -> at_or_above b c = true -> at_or_above a c = true.
Proof.
  unfold at_or_above.
  destruct (rank a) as [i|], (rank b) as [j|], (rank c) as [k|]; try discriminate.
  rewrite !Nat.leb_le. lia.
Qed.

Lemma pending_In (db : Db) (min_severity : string) (row : Row) :
  check_severity min_severity = true ->
  In row (get_pending_findings db min_severity) <->
  In row (findings db) /\ status row = "pending"
  /\ at_or_above (severity row) min_severity = true.
Proof.
  intros Hvalid. unfold get_pending_findings.
  change (PyStr.mem min_severity severity_order) with (check_severity min_severity).
  rewrite Hvalid, FindingsDbFacts.sort_rows_In, List.filter_In, andb_true_iff.
  rewrite FindingsDbFacts.allowed_at_or_above by exact Hvalid.
  rewrite String.eqb_eq. reflexivity.
Qed.

(** Lowering the threshold only adds findings: for two thresholds among
    the five, every finding [get_pending_findings] returns for the
    higher one it returns for the lower one too. *)
Theorem pending_findings_grow_with_lower_threshold (db : Db)
    (higher lower : string) (row : Row) :
  check_severity higher = true ->
  check_severity lower = true ->
  at_or_above higher lower = true ->
  In row (get_pending_findings db higher) ->
  In row (get_pending_findings db lower).
Proof.
  intros Hh Hl Hrank. rewrite !pending_In by assumption.
  intros (Hin & Hst & Hsev). split; [exact Hin|]. split; [exact Hst|].
  eapply at_or_above_trans; eassumption.
Qed.

Lemma pending_findings_grow_with_lower_threshold_witness :
  In Ledger.high_row (get_pending_findings Ledger.one_high "Low").
Proof.
  apply (pending_findings_grow_with_lower_threshold Ledger.one_high "High" "Low"
           Ledger.high_row).
  - reflexivity.
  - reflexivity.
  - reflexivity.
  - vm_compute. left. reflexivity.
Defined.

Lemma pending_is_pending (db : Db) (min_severity : string) (row : Row) :
  In row (get_pending_findings db min_severity) ->
  In row (findings db) /\ status row = "pending".
Proof.
  unfold get_pending_findings.
  rewrite FindingsDbFacts.sort_rows_In, List.filter_In, andb_true_iff, String.eqb_eq.
  tauto.
Qed.

(** A decision takes a finding out of the review queue: after a
    successful update of a finding to any status but pending,
    [get_pending_findings] returns no finding with its identifier,
    whatever the threshold. *)
Theorem decided_finding_leaves_the_queue (db db' : Db)
    (finding_id' status' : string) (notes' : option string)
    (now_updated now_submitted : timestamp) (min_severity : string) (row : Row) :
  update_finding_status db finding_id' status' notes' now_updated now_submitted
    = Ok db' ->
  status' <> "pending" ->
  In row (get_pending_findings db' min_severity) ->
  finding_id row <> finding_id'.
Proof.
  intros Hupd Hst Hin Hid.
  apply pending_is_pending in Hin as [Hin Hpending].
  apply update_ok in Hupd as (Hrows & _). rewrite Hrows in Hin.
  apply List.in_map_iff in Hin as (old & Hnew & _).
  unfold has_id in Hnew.
  destruct (String.eqb_spec (finding_id old) finding_id') as [Heq|Hne].
  - subst row. cbn [set_status status] in Hpending. congruence.
  - subst row. congruence.
Qed.

Lemma decided_finding_leaves_the_queue_witness :
  finding_id Samples.critical_row
  <> "FND-H".
Proof.
  apply (decided_finding_leaves_the_queue Ledger.four
           (run Ledger.four [Ledger.call "FND-H" "rejected" 200])
           "FND-H" "rejected" None 200 200 "Medium" Samples.critical_row).
  - reflexivity.
  - discriminate.
  - vm_compute. left. reflexivity.
Defined.

(** A new finding enters the review queue according to its severity:
    after a successful [add_finding], [get_pending_findings] with a
    threshold among the five returns the row of the new finding exactly
    when the severity supplied is at or above the threshold. *)
Theorem added_finding_enters_the_queue (strftime_Ymd : timestamp -> string)
    (db db' : Db) (finding : Input.Finding) (now current_timestamp : timestamp)
    (lastrowid : Z) (min_severity : string) :
  add_finding strftime_Ymd db finding now current_timestamp = Ok (db', lastrowid) ->
  check_severity min_severity = true ->
  (exists row : Row,
     In row (get_pending_findings db' min_severity) /\ rowid row = lastrowid
     /\ finding_id row = effective_id strftime_Ymd finding now)
  <-> (exists s, Input.severity finding = Some s /\ at_or_above s min_severity = true).
Proof.
  intros Hadd Hvalid.
  destruct (add_finding_ok _ _ _ _ _ _ _ Hadd)
    as (new & Hrows & _ & Hlast & Hnew & Hrowid & Hid & _ & _ & _ & _ & _ & _ & _
        & _ & Hsev & _ & _ & _ & _ & Hst & _).
  split.
  - intros (row & Hin & _ & Hrow_id).
    apply pending_In in Hin as (Hin & _ & Hrank); [|exact Hvalid].
    rewrite Hrows in Hin. apply List.in_app_iff in Hin as [Hold|[<-|[]]].
    + exfalso. apply (existsb_has_id_false _ _ Hnew).
      rewrite <- Hrow_id. now apply List.in_map.
    + exists (severity new). split; [now symmetry | exact Hrank].
  - intros (s & Hs & Hrank). exists new.
    rewrite pending_In by exact Hvalid. rewrite Hrows.
    split; [|split; [congruence | exact Hid]].
    split; [apply List.in_app_iff; right; now left|].
    split; [exact Hst|]. congruence.
Qed.

Lemma added_finding_enters_the_queue_witness :
  (exists row : Row,
     In row (get_pending_findings Ledger.one_high "Medium") /\ rowid row = 1
     /\ finding_id row = "FND-1")
  <-> (exists s, Some "High" = Some s /\ at_or_above s "Medium" = true).
Proof.
  apply (added_finding_enters_the_queue Ledger.strftime_Ymd empty_db Ledger.one_high
           (Ledger.finding (Some "FND-1") "High" 80) 100 100 1 "Medium").
  - reflexivity.
  - reflexivity.
Defined.

End SessionFacts.

(** ** Properties of the statistics *)

Module StatisticsFacts.

Import FindingsDb Statistics.

Lemma occurrences_cons (column : Row -> string) (value : string) (row : Row)
    (rows : list Row) :
  occurrences column value (row :: rows)
  = (if String.eqb (column row) value then 1 else 0) + occurrences column value rows.
Proof.
  unfold occurrences, count_where. cbn [List.filter].
  destruct (String.eqb (column row) value); cbn [length]; lia.
Qed.

Lemma occurrences_nonneg (column : Row -> string) (value : string) (rows : list Row) :
  0 <= occurrences column value rows.
Proof. unfold occurrences, count_where. lia. Qed.

(** The grouping loop, from any dictionary it starts with. *)
Lemma group_fold_lookup (column : Row -> string) (rows : list Row)
    (groups : gmap string Z) (value : string) :
  fold_left
    (fun groups row => <[column row := default 0 (groups !! column row) + 1]> groups)
    rows groups !! value
  = (if occurrences column value rows =? 0 then groups !! value
     else Some (default 0 (groups !! value) + occurrences column value rows)).
Proof.
  revert groups; induction rows as [|row rows IH]; intros groups.
  - reflexivity.
  - cbn [fold_left]. rewrite IH, occurrences_cons.
    pose proof (occurrences_nonneg column value rows) as Hn.
    destruct (String.eqb_spec (column row) value) as [Heq|Hne].
    + rewrite Heq, lookup_insert_eq. cbn [default].
      destruct (Z.eqb_spec (occurrences column value rows) 0) as [Hc|Hc],
        (Z.eqb_spec (1 + occurrences column value rows) 0) as [Hc'|Hc'];
        try lia; unfold id; f_equal; lia.
    + rewrite lookup_insert_ne by exact Hne.
      rewrite Z.add_0_l. reflexivity.
Qed.

Lemma group_count_lookup (column : Row -> string) (rows : list Row) (value : string) :
  group_count column rows !! value
  = (if occurrences column value rows =? 0 then None
     else Some (occurrences column value rows)).
Proof.
  unfold group_count. rewrite group_fold_lookup, lookup_empty. reflexivity.
Qed.

Lemma total_of_insert (groups : gmap string Z) (value : string) :
  total_of (<[value := default 0 (groups !! value) + 1]> groups) = total_of groups + 1.
Proof.
  unfold total_of.
  assert (forall m : gmap string Z,
            forall (j1 j2 : string) (z1 z2 y : Z),
              j1 <> j2 -> m !! j1 = Some z1 -> m !! j2 = Some z2 ->
              z1 + (z2 + y) = z2 + (z1 + y)) as Hcomm by (intros; lia).
  destruct (groups !! value) as [n|] eqn:Hlookup; cbn [default].
  - rewrite <- insert_delete_eq.
    rewrite map_fold_insert_L; [|apply Hcomm | apply lookup_delete_eq].
    rewrite (map_fold_delete_L _ _ value n groups); [|apply Hcomm | exact Hlookup].
    unfold id. lia.
  - rewrite map_fold_insert_L; [lia | apply Hcomm | exact Hlookup].
Qed.

Lemma group_fold_total (column : Row -> string) (rows : list Row)
    (groups : gmap string Z) :
  total_of
    (fold_left
       (fun groups row => <[column row := default 0 (groups !! column row) + 1]> groups)
       rows groups)
  = total_of groups + Z.of_nat (length rows).
Proof.
  revert groups; induction rows as [|row rows IH]; intros groups.
  - cbn. lia.
  - cbn [fold_left length]. rewrite IH, total_of_insert. lia.
Qed.

(** The groupings of [get_statistics] count the findings. [by_status]
    maps a status to the number of findings that have it, with no entry
    for a status no finding has, and its counts add up to
    [total_findings]; [by_severity] does the same for the severities. *)
Theorem statistics_group_the_findings (db : Db) (now : timestamp) (value : string) :
  by_status (get_statistics db now) !! value
  = (if occurrences status value (findings db) =? 0 then None
     else Some (occurrences status value (findings db)))
  /\ by_severity (get_statistics db now) !! value
     = (if occurrences severity value (findings db) =? 0 then None
        else Some (occurrences severity value (findings db)))
  /\ total_of (by_status (get_statistics db now)) = total_findings (get_statistics db now)
  /\ total_of (by_severity (get_statistics db now))
     = total_findings (get_statistics db now)
  /\ total_findings (get_statistics db now) = Z.of_nat (length (findings db)).
Proof.
  unfold get_statistics.
  cbn [by_status by_severity total_findings].
  split; [apply group_count_lookup|]. split; [apply group_count_lookup|].
  assert (count_where (fun _ => true) (findings db) = Z.of_nat (length (findings db)))
    as Htotal.
  { unfold count_where. f_equal. f_equal.
    induction (findings db) as [|r l IH]; cbn [List.filter]; [reflexivity|].
    now rewrite IH. }
  rewrite Htotal. unfold group_count. rewrite !group_fold_total.
  unfold total_of. rewrite map_fold_empty. repeat split; lia.
Qed.

(** *** The ten repositories with most findings *)

Lemma StronglySorted_across {A} (R : A -> A -> Prop) (l1 l2 : list A) (x y : A) :
  StronglySorted R (l1 ++ l2) -> In x l1 -> In y l2 -> R x y.
Proof.
  induction l1 as [|z l1 IH]; cbn [app]; intros Hs Hx Hy; [contradiction|].
  apply StronglySorted_inv in Hs as [Hs Hz].
  destruct Hx as [->|Hx]; [|now apply IH].
  rewrite List.Forall_forall in Hz. apply Hz, List.in_app_iff. now right.
Qed.

Lemma count_first_total (a b : string * Z) :
  (snd b <=? snd a) = false -> (snd a <=? snd b) = true.
Proof. rewrite Z.leb_gt, Z.leb_le. lia. Qed.

Lemma count_first_trans (a b c : string * Z) :
  (snd b <=? snd a) = true -> (snd c <=? snd b) = true -> (snd c <=? snd a) = true.
Proof. rewrite !Z.leb_le. lia. Qed.

(** [by_repo] is a top ten. It has at most ten entries; an entry maps a
    repository to the number of its findings, which is not 0; and a
    repository without an entry has no more findings than any
    repository that has one. *)
Theorem statistics_by_repo_is_a_top_ten (db : Db) (now : timestamp)
    (repo : string) (n : Z) :
  by_repo (get_statistics db now) !! repo = Some n ->
  n = occurrences repo_name repo (findings db)
  /\ 0 < n
  /\ (size (by_repo (get_statistics db now)) <= 10)%nat
  /\ (forall other : string,
        by_repo (get_statistics db now) !! other = None ->
        occurrences repo_name other (findings db) <= n).
Proof.
  unfold get_statistics. cbn [by_repo]. unfold top_groups.
  set (groups := group_count repo_name (findings db)).
  set (sorted := Sorting.sort_by (fun a b : string * Z => snd b <=? snd a)
                   (map_to_list groups)).
  assert (Permutation sorted (map_to_list groups)) as Hperm
    by apply SortingFacts.sort_by_perm.
  assert (NoDup (sorted.*1)) as Hnodup.
  { rewrite Hperm. apply NoDup_fst_map_to_list. }
  assert (NoDup ((take 10 sorted).*1)) as Hnodup10.
  { rewrite fmap_take. eapply sublist_NoDup; [exact Hnodup | apply sublist_take]. }
  assert (forall k v, In (k, v) sorted -> v = occurrences repo_name k (findings db)
                                          /\ 0 < v) as Hcount.
  { intros k v Hin. apply list_elem_of_In in Hin. rewrite Hperm in Hin.
    apply elem_of_map_to_list in Hin. subst groups.
    rewrite group_count_lookup in Hin.
    pose proof (occurrences_nonneg repo_name k (findings db)).
    destruct (Z.eqb_spec (occurrences repo_name k (findings db)) 0);
      [discriminate|]. injection Hin as <-. split; [reflexivity | lia]. }
  intros Hentry.
  apply elem_of_list_to_map in Hentry; [|exact Hnodup10].
  apply list_elem_of_In in Hentry.
  destruct (Hcount repo n (SortingFacts.In_firstn _ _ _ Hentry)) as [Hn Hpos].
  split; [exact Hn|]. split; [exact Hpos|]. split.
  - rewrite map_size_list_to_map by exact Hnodup10.
    apply firstn_le_length.
  - intros other Hother.
    pose proof (occurrences_nonneg repo_name other (findings db)) as Hnonneg.
    destruct (Z.eqb_spec (occurrences repo_name other (findings db)) 0) as [H0|Hne];
      [lia|].
    assert (In (other, occurrences repo_name other (findings db)) sorted) as Hin.
    { apply list_elem_of_In. rewrite Hperm. apply elem_of_map_to_list.
      subst groups. rewrite group_count_lookup.
      destruct (Z.eqb_spec (occurrences repo_name other (findings db)) 0);
        [contradiction | reflexivity]. }
    rewrite <- (take_drop 10 sorted) in Hin.
    apply List.in_app_iff in Hin as [Hin|Hin].
    + exfalso. apply not_elem_of_list_to_map in Hother. apply Hother.
      apply list_elem_of_In, List.in_map_iff. eexists. split; [|exact Hin]. reflexivity.
    + assert (StronglySorted (fun a b : string * Z => (snd b <=? snd a) = true)
                (take 10 sorted ++ drop 10 sorted)) as Hs.
      { rewrite take_drop. apply SortingFacts.sort_by_sorted.
        - intros a b. apply count_first_total.
        - intros a b c. apply count_first_trans. }
      pose proof (StronglySorted_across _ _ _ _ _ Hs Hentry Hin) as Hle.
      cbn [snd] in Hle. apply Z.leb_le in Hle. exact Hle.
Qed.

Lemma statistics_by_repo_is_a_top_ten_witness :
  4 = occurrences repo_name "acme/lend" (findings Ledger.four)
  /\ 0 < 4
  /\ (size (by_repo (get_statistics Ledger.four 1000%Z)) <= 10)%nat
  /\ (forall other : string,
        by_repo (get_statistics Ledger.four 1000) !! other = None ->
        occurrences repo_name other (findings Ledger.four) <= 4).
Proof.
  apply (statistics_by_repo_is_a_top_ten Ledger.four 1000 "acme/lend" 4).
  vm_compute. reflexivity.
Defined.

End StatisticsFacts.

(** ** Properties of the table of repositories *)

Module RepositoriesFacts.

Import FindingsDb Repositories.

Lemma filter_named_others (name other : string) (rows : list RepoRow) :
  other <> name ->
  List.filter (named other) (List.filter (fun old => negb (named name old)) rows)
  = List.filter (named other) rows.
Proof.
  intros Hne. induction rows as [|r rows IH]; cbn [List.filter]; [reflexivity|].
  destruct (named name r) eqn:Hr; cbn [negb List.filter].
  - destruct (named other r) eqn:Ho; [|exact IH].
    unfold named in Hr, Ho. apply String.eqb_eq in Hr, Ho. congruence.
  - destruct (named other r); [f_equal|]; exact IH.
Qed.

Lemma filter_named_removed (name : string) (rows : list RepoRow) :
  List.filter (named name) (List.filter (fun old => negb (named name old)) rows) = [].
Proof.
  induction rows as [|r rows IH]; cbn [List.filter]; [reflexivity|].
  destruct (named name r) eqn:Hr; cbn [negb List.filter]; [exact IH|].
  rewrite Hr. exact IH.
Qed.

(** Insert or replace, then look up. After a successful
    [add_repository] the table holds exactly one row for the name, with
    the values of the call, a fresh [id], no findings counted, status
    active and the time of the call as [created_at], whatever a row of
    that name held before; the rows of the other names are as they
    were. *)
Theorem add_repository_then_lookup (t t' : Table) (repo_info : Input.RepoInfo)
    (current_timestamp : timestamp) :
  add_repository t repo_info current_timestamp = Ok t' ->
  exists (name : string) (row : RepoRow),
    Input.repo_name repo_info = Some name
    /\ lookup t' name = [row]
    /\ id row = sqlite_sequence t + 1
    /\ repo_name row = name
    /\ Some (repo_url row) = Input.repo_url repo_info
    /\ owner row = Input.owner repo_info
    /\ stars row = Input.stars repo_info
    /\ forks row = Input.forks repo_info
    /\ audit_priority row = Input.audit_priority repo_info
    /\ last_scan_id row = Input.last_scan_id repo_info
    /\ last_scan_date row = Input.last_scan_date repo_info
    /\ total_findings row = 0
    /\ status row = "active"
    /\ created_at row = current_timestamp
    /\ (forall other : string, other <> name -> lookup t' other = lookup t other).
Proof.
  unfold add_repository.
  destruct (Input.repo_name repo_info) as [name|]; [|discriminate].
  destruct (Input.repo_url repo_info) as [url|]; [|discriminate].
  intros [= <-]. eexists name, _. split; [reflexivity|].
  unfold lookup. cbn [repositories]. split.
  - rewrite List.filter_app, filter_named_removed. cbn [List.filter app].
    unfold named. cbn [repo_name]. rewrite String.eqb_refl. reflexivity.
  - cbn. repeat split.
    intros other Hother. rewrite List.filter_app, filter_named_others by exact Hother.
    cbn [List.filter]. unfold named at 2. cbn [repo_name].
    destruct (String.eqb_spec name other); [congruence|]. apply app_nil_r.
Qed.

Lemma add_repository_then_lookup_witness :
  exists (name : string) (row : RepoRow),
    Input.repo_name (Samples.repo_info "acme/lend" 4100) = Some name
    /\ lookup Samples.three_upserts name = [row]
    /\ id row = 2 + 1
    /\ repo_name row = name
    /\ Some (repo_url row) = Some "https://github.com/acme/lend"
    /\ owner row = Some "acme"
    /\ stars row = Some 4100
    /\ forks row = Some 80
    /\ audit_priority row = Some 76
    /\ last_scan_id row = None
    /\ last_scan_date row = None
    /\ total_findings row = 0
    /\ status row = "active"
    /\ created_at row = 30
    /\ (forall other : string,
          other <> name ->
          lookup Samples.three_upserts other
          = lookup
              (upsert_all empty
                 [ (Samples.repo_info "acme/lend" 4000, 10);
                   (Samples.repo_info "acme/swap" 100, 20) ])
              other).
Proof.
  apply (add_repository_then_lookup
           (upsert_all empty
              [ (Samples.repo_info "acme/lend" 4000, 10);
                (Samples.repo_info "acme/swap" 100, 20) ])
           Samples.three_upserts (Samples.repo_info "acme/lend" 4100) 30).
  reflexivity.
Defined.

(** The same call twice. A second [add_repository] with the dictionary
    of a first successful one succeeds too and the table has as many
    rows as before, in the same order; the row of the repository holds
    the same values, except that its [id] is the next number of the
    sequence and its [created_at] the time of the second call. *)
Theorem add_repository_twice (t t1 : Table) (repo_info : Input.RepoInfo)
    (first second : timestamp) :
  add_repository t repo_info first = Ok t1 ->
  exists (t2 : Table) (others : list RepoRow) (row : RepoRow),
    add_repository t1 repo_info second = Ok t2
    /\ repositories t1 = others ++ [row]
    /\ repositories t2
       = others ++ [ {| id := id row + 1;
                        repo_name := repo_name row;
                        repo_url := repo_url row;
                        owner := owner row;
                        stars := stars row;
                        forks := forks row;
                        audit_priority := audit_priority row;
                        last_scan_id := last_scan_id row;
                        last_scan_date := last_scan_date row;
                        total_findings := total_findings row;
                        status := status row;
                        created_at := second |} ]
    /\ sqlite_sequence t2 = sqlite_sequence t1 + 1.
Proof.
  unfold add_repository.
  destruct (Input.repo_name repo_info) as [name|]; [|discriminate].
  destruct (Input.repo_url repo_info) as [url|]; [|discriminate].
  intros [= <-]. eexists _, _, _. split; [reflexivity|].
  cbn [repositories sqlite_sequence]. split; [reflexivity|]. split; [|reflexivity].
  rewrite List.filter_app. cbn [List.filter].
  unfold named at 3. cbn [repo_name]. rewrite String.eqb_refl. cbn [negb].
  rewrite app_nil_r. f_equal.
  induction (repositories t) as [|r rows IH]; cbn [List.filter]; [reflexivity|].
  destruct (named name r) eqn:Hr; cbn [negb List.filter]; [exact IH|].
  rewrite Hr. cbn [negb]. f_equal. exact IH.
Qed.

Lemma add_repository_twice_witness :
  exists (t2 : Table) (others : list RepoRow) (row : RepoRow),
    add_repository
      (upsert_all empty [ (Samples.repo_info "acme/lend" 4000, 10) ])
      (Samples.repo_info "acme/lend" 4000) 20 = Ok t2
    /\ repositories (upsert_all empty [ (Samples.repo_info "acme/lend" 4000, 10) ])
       = others ++ [row]
    /\ repositories t2
       = others ++ [ {| id := id row + 1;
                        repo_name := repo_name row;
                        repo_url := repo_url row;
                        owner := owner row;
                        stars := stars row;
                        forks := forks row;
                        audit_priority := audit_priority row;
                        last_scan_id := last_scan_id row;
                        last_scan_date := last_scan_date row;
                        total_findings := total_findings row;
                        status := status row;
                        created_at := 20 |} ]
    /\ sqlite_sequence t2
       = sqlite_sequence (upsert_all empty [ (Samples.repo_info "acme/lend" 4000, 10) ])
         + 1.
Proof.
  apply (add_repository_twice empty
           (upsert_all empty [ (Samples.repo_info "acme/lend" 4000, 10) ])
           (Samples.repo_info "acme/lend" 4000) 10 20).
  reflexivity.
Defined.



End RepositoriesFacts.

(** ** Properties of the scan history *)

Module ScanHistoryFacts.

Import FindingsDb ScanHistory.

Lemma add_scan_history_ok (t t' : Table) (scan_info : Input.ScanInfo) :
  add_scan_history t scan_info = Ok t' ->
  exists row : ScanRow,
    scan_history t' = scan_history t ++ [row]
    /\ existsb (has_scan_id (scan_id row)) (scan_history t) = false
    /\ check_scan_status (status row) = true
    /\ status row = PyDict.get_default (Input.status scan_info) "completed"
    /\ error_message row = None.
Proof.
  unfold add_scan_history.
  destruct (negb _) eqn:Hfits; [discriminate|].
  destruct (Input.scan_id scan_info) as [scan_id'|]; [|discriminate].
  destruct (Input.repo_name scan_info) as [repo_name'|]; [|discriminate].
  destruct (check_scan_status _) eqn:Hst; [|discriminate]. cbn [negb].
  destruct (existsb _ _) eqn:Hnew; [discriminate|].
  intros [= <-]. eexists. cbn [scan_history]. split; [reflexivity|].
  cbn [scan_id status error_message]. auto.
Qed.

(** The history only grows. Whatever calls of [add_scan_history] follow,
    the table still begins with the rows it had, unchanged and in the
    same order, followed by at most one new row per call; and in a
    history that started empty no two rows share a [scan_id], every
    status is one of running, completed, failed or is null, and no row
    has an [error_message]. A null status does occur: it is what a
    dictionary with a null under [status] leaves in the table. *)
Theorem scan_history_only_grows (t : Table) (calls : list Input.ScanInfo) :
  (exists added : list ScanRow,
     scan_history (record_all t calls) = scan_history t ++ added
     /\ (length added <= length calls)%nat)
  /\ List.NoDup (map scan_id (scan_history (record_all empty calls)))
  /\ Forall (fun row => status_ok row /\ error_message row = None)
       (scan_history (record_all empty calls))
  /\ (forall (scan_info : Input.ScanInfo) (t' : Table),
        Input.status scan_info = PyDict.Null ->
        add_scan_history t scan_info = Ok t' ->
        exists row : ScanRow,
          scan_history t' = scan_history t ++ [row] /\ status row = None).
Proof.
  split; [|split; [|split]].
  - unfold record_all. revert t.
    induction calls as [|call calls IH]; intros t; cbn [fold_left length].
    + exists []. rewrite app_nil_r. split; [reflexivity | cbn [length]; lia].
    + destruct (IH (record t call)) as (added & Heq & Hlen). unfold record in *.
      destruct (add_scan_history t call) as [t'|e] eqn:Hadd.
      * destruct (add_scan_history_ok _ _ _ Hadd) as (row & Hrows & _).
        exists (row :: added). rewrite Heq, Hrows, <- app_assoc.
        split; [reflexivity | cbn [length]; lia].
      * exists added. split; [exact Heq | lia].
  - clear t. unfold record_all.
    assert (List.NoDup (map scan_id (scan_history empty))) as Hinv by constructor.
    revert Hinv. generalize empty.
    induction calls as [|call calls IH]; intros t Hids; cbn [fold_left]; [exact Hids|].
    apply IH. unfold record.
    destruct (add_scan_history t call) as [t'|e] eqn:Hadd; [|exact Hids].
    destruct (add_scan_history_ok _ _ _ Hadd) as (row & -> & Hnew & _).
    rewrite List.map_app. cbn [map].
    apply List.NoDup_app; [exact Hids | repeat constructor; intros [] |].
    intros x Hx [<-|[]]. apply List.in_map_iff in Hx as (old & Hid & Hin).
    assert (existsb (has_scan_id (scan_id row)) (scan_history t) = true) as Habs.
    { apply existsb_exists. exists old. split; [exact Hin|].
      unfold has_scan_id. now apply String.eqb_eq. }
    congruence.
  - clear t. unfold record_all.
    assert (Forall (fun row => status_ok row /\ error_message row = None)
              (scan_history empty)) as Hinv by constructor.
    revert Hinv. generalize empty.
    induction calls as [|call calls IH]; intros t Hrows; cbn [fold_left];
      [exact Hrows|].
    apply IH. unfold record.
    destruct (add_scan_history t call) as [t'|e] eqn:Hadd; [|exact Hrows].
    destruct (add_scan_history_ok _ _ _ Hadd) as (row & -> & _ & Hst & _ & Herr).
    apply List.Forall_app. split; [exact Hrows|].
    constructor; [|constructor]. split; [|exact Herr].
    unfold status_ok, check_scan_status in *.
    destruct (status row) as [s|]; [right; eauto | left; reflexivity].
  - intros scan_info t' Hnull Hadd.
    destruct (add_scan_history_ok _ _ _ Hadd) as (row & Hrows & _ & _ & Hst & _).
    exists row. split; [exact Hrows|]. rewrite Hst, Hnull. reflexivity.
Qed.

Lemma scan_history_only_grows_witness :
  (exists added : list ScanRow,
     scan_history (record_all empty Samples.three_scans) = scan_history empty ++ added
     /\ (length added <= length Samples.three_scans)%nat)
  /\ List.NoDup (map scan_id (scan_history (record_all empty Samples.three_scans)))
  /\ Forall (fun row => status_ok row /\ error_message row = None)
       (scan_history (record_all empty Samples.three_scans))
  /\ (exists row : ScanRow,
        scan_history (record empty (Samples.scan_info "SCAN-2" PyDict.Null))
        = scan_history empty ++ [row]
        /\ status row = None).
Proof.
  destruct (scan_history_only_grows empty Samples.three_scans)
    as (Hgrows & Hids & Hrows & Hnull).
  split; [exact Hgrows|]. split; [exact Hids|]. split; [exact Hrows|].
  apply (Hnull (Samples.scan_info "SCAN-2" PyDict.Null)); reflexivity.
Defined.

End ScanHistoryFacts.

(** ** More properties of the discovery ranker *)

Module DiscoveryFacts.

Import Monitor.

Section Returned.

Variable fromisoformat : string -> option Z.
Variable now : Z.
Variable strftime_Ymd : Z -> string.
Variable search_repositories : string -> Z -> list Repo.

(** With a bound that is not positive the inner loop stops at the first
    candidate it admits. *)
Lemma scan_repos_nonpositive (max_repos min_stars : Z) (repos : list Repo)
    (d : list Discovered) (seen : gset Z) :
  max_repos <= 0 ->
  (length (fst (scan_repos fromisoformat now max_repos min_stars repos d seen))
   <= length d + 1)%nat.
Proof.
  intros Hmax. revert d seen; induction repos as [|repo rest IH]; intros d seen;
    cbn [scan_repos].
  - cbn. lia.
  - destruct (bool_decide _); [apply IH|].
    destruct (should_audit repo min_stars); [|apply IH].
    assert (full max_repos (d ++ [entry fromisoformat now repo]) = true) as ->
      by (apply MonitorFacts.full_true; lia).
    cbn [fst]. rewrite length_app. cbn. lia.
Qed.

Lemma discover_nonpositive (max_repos min_stars days_since_update : Z) :
  max_repos <= 0 ->
  discover_repositories fromisoformat now strftime_Ymd search_repositories
    max_repos min_stars days_since_update = [].
Proof.
  intros Hmax. unfold discover_repositories.
  set (since_date := strftime_Ymd _).
  set (d := scan_queries _ _ _ _ _ _ _ _ _).
  assert (length d <= 1)%nat as Hlen.
  { subst d. unfold SOLANA_QUERIES. cbn [scan_queries].
    set (repos := search_repositories _ 30).
    pose proof (scan_repos_nonpositive max_repos min_stars repos [] ∅ Hmax) as H.
    destruct (scan_repos fromisoformat now max_repos min_stars repos [] ∅)
      as [d1 seen1].
    cbn [fst length] in H.
    assert (full max_repos d1 = true) as -> by (apply MonitorFacts.full_true; lia).
    lia. }
  unfold PyNum.slice_to. rewrite MonitorFacts.sort_desc_length.
  destruct (Z.leb_spec 0 max_repos).
  - replace max_repos with 0 by lia. reflexivity.
  - replace (Z.to_nat (Z.of_nat (length d) + max_repos)) with 0%nat by lia.
    reflexivity.
Qed.

(** The two shapes of the answer. *)
Lemma discover_cases (max_repos min_stars days_since_update : Z) :
  discover_repositories fromisoformat now strftime_Ymd search_repositories
    max_repos min_stars days_since_update
  = (if 1 <=? max_repos
     then sort_desc
            (firstn (Z.to_nat max_repos)
               (admitted fromisoformat now search_repositories min_stars
                  (strftime_Ymd (now - days_since_update * PyNum.usec_per_day))))
     else []).
Proof.
  destruct (Z.leb_spec 1 max_repos) as [Hmax|Hmax];
    [|apply discover_nonpositive; lia].
  unfold discover_repositories.
  rewrite MonitorFacts.scan_queries_spec
    by (apply MonitorFacts.full_false; cbn [length]; lia).
  cbn [app length]. rewrite Nat.sub_0_r.
  change (map (entry fromisoformat now) _)
    with (admitted fromisoformat now search_repositories min_stars
            (strftime_Ymd (now - days_since_update * PyNum.usec_per_day))).
  unfold PyNum.slice_to.
  assert ((0 <=? max_repos) = true) as -> by (apply Z.leb_le; lia).
  apply firstn_all2. rewrite MonitorFacts.sort_desc_length. apply firstn_le_length.
Qed.

(** [discover_repositories] returns at most [max_repos] repositories,
    and none when [max_repos] is 0 or negative. *)
Theorem discover_returns_at_most_max_repos (max_repos min_stars days_since_update : Z) :
  Z.of_nat
    (length
       (discover_repositories fromisoformat now strftime_Ymd search_repositories
          max_repos min_stars days_since_update))
  <= Z.max 0 max_repos.
Proof.
  rewrite discover_cases. destruct (Z.leb_spec 1 max_repos) as [Hmax|Hmax].
  - rewrite MonitorFacts.sort_desc_length.
    pose proof (firstn_le_length (Z.to_nat max_repos)
                  (admitted fromisoformat now search_repositories min_stars
                     (strftime_Ymd (now - days_since_update * PyNum.usec_per_day)))).
    lia.
  - cbn [length]. lia.
Qed.

Lemma dedup_fresh (repos : list Repo) (seen : gset Z) (repo : Repo) :
  In repo (dedup repos seen) -> In repo repos /\ repo_id repo ∉ seen.
Proof.
  revert seen; induction repos as [|r rest IH]; intros seen; cbn [dedup];
    [contradiction|].
  destruct (bool_decide (repo_id r ∈ seen)) eqn:Hseen.
  - intros Hin. destruct (IH _ Hin). split; [now right | assumption].
  - apply bool_decide_eq_false in Hseen.
    intros [<-|Hin]; [split; [now left | exact Hseen]|].
    destruct (IH _ Hin) as [Hin' Hfresh]. split; [now right|].
    intros Hseen'. apply Hfresh, elem_of_union. now right.
Qed.

Lemma dedup_NoDup (repos : list Repo) (seen : gset Z) :
  List.NoDup (map repo_id (dedup repos seen)).
Proof.
  revert seen; induction repos as [|r rest IH]; intros seen; cbn [dedup];
    [constructor|].
  destruct (bool_decide (repo_id r ∈ seen)); [apply IH|].
  cbn [map]. constructor; [|apply IH].
  intros Hin. apply List.in_map_iff in Hin as (r' & Hid & Hin).
  apply dedup_fresh in Hin as [_ Hfresh]. set_solver.
Qed.

Lemma NoDup_map_filter {A B} (f : A -> B) (p : A -> bool) (l : list A) :
  List.NoDup (map f l) -> List.NoDup (map f (List.filter p l)).
Proof.
  induction l as [|x l IH]; cbn [map List.filter]; [auto|].
  intros Hnd. apply List.NoDup_cons_iff in Hnd as [Hx Hnd].
  destruct (p x); [|now apply IH].
  cbn [map]. constructor; [|now apply IH].
  intros Hin. apply Hx. apply List.in_map_iff in Hin as (y & Hy & Hin).
  apply List.filter_In in Hin as [Hin _]. apply List.in_map_iff. eauto.
Qed.

Lemma NoDup_firstn {A} (n : nat) (l : list A) :
  List.NoDup l -> List.NoDup (firstn n l).
Proof.
  revert n; induction l as [|x l IH]; intros [|n] Hnd; cbn [firstn];
    try constructor.
  - apply List.NoDup_cons_iff in Hnd as [Hx _].
    intros Hin. apply Hx. eapply SortingFacts.In_firstn; exact Hin.
  - apply IH. now apply List.NoDup_cons_iff in Hnd as [_ Hnd].
Qed.

(** No repository is returned twice: the entries of the answer of
    [discover_repositories] have distinct [id]s, even when several
    queries answer the same repository. *)
Theorem discover_returns_no_duplicates (max_repos min_stars days_since_update : Z) :
  List.NoDup
    (map out_id
       (discover_repositories fromisoformat now strftime_Ymd search_repositories
          max_repos min_stars days_since_update)).
Proof.
  rewrite discover_cases. destruct (1 <=? max_repos); [|constructor].
  eapply Permutation_NoDup.
  { symmetry. apply Permutation_map, MonitorFacts.sort_desc_perm. }
  rewrite <- List.firstn_map. apply NoDup_firstn.
  unfold admitted. rewrite List.map_map. cbn [entry out_id].
  apply NoDup_map_filter, dedup_NoDup.
Qed.

(** Every entry returned was built from a repository that some query
    answered and that passed the admission test: it has at least
    [min_stars] stars, its full name is not on the exclusion list, it is
    not archived and it looks like a Solana project; its priority is the
    one [_calculate_priority] gives it. *)
Theorem discover_returns_admitted_only (max_repos min_stars days_since_update : Z)
    (e : Discovered) :
  In e (discover_repositories fromisoformat now strftime_Ymd search_repositories
          max_repos min_stars days_since_update) ->
  exists repo : Repo,
    In repo (all_results search_repositories
               (strftime_Ymd (now - days_since_update * PyNum.usec_per_day)))
    /\ e = entry fromisoformat now repo
    /\ audit_priority e = _calculate_priority fromisoformat now repo
    /\ min_stars <= get (stargazers_count repo) 0
    /\ ~ In (get (full_name repo) "") EXCLUDED_REPOS
    /\ archived repo <> Some true
    /\ is_solana_project repo = true.
Proof.
  rewrite discover_cases. destruct (1 <=? max_repos); [|contradiction].
  intros Hin.
  apply (Permutation_in _ (MonitorFacts.sort_desc_perm _)) in Hin.
  apply SortingFacts.In_firstn in Hin. unfold admitted in Hin.
  apply List.in_map_iff in Hin as (repo & <- & Hin).
  apply List.filter_In in Hin as [Hin Haudit].
  apply dedup_fresh in Hin as [Hin _].
  exists repo. split; [exact Hin|]. split; [reflexivity|]. split; [reflexivity|].
  unfold should_audit in Haudit.
  destruct (Z.ltb_spec (get (stargazers_count repo) 0) min_stars); [discriminate|].
  destruct (PyStr.mem (get (full_name repo) "") EXCLUDED_REPOS) eqn:Hex;
    [discriminate|].
  destruct (is_solana_project repo); [|discriminate]. cbn [negb] in Haudit.
  split; [assumption|]. split; [|split; [|reflexivity]].
  - intros Hexcl. unfold PyStr.mem in Hex.
    assert (existsb (String.eqb (get (full_name repo) "")) EXCLUDED_REPOS = true) as H'.
    { apply existsb_exists. eexists. split; [exact Hexcl | apply String.eqb_refl]. }
    congruence.
  - intros Harch. rewrite Harch in Haudit. discriminate Haudit.
Qed.

End Returned.

Lemma discover_returns_admitted_only_witness :
  exists repo : Repo,
    In repo (all_results Scenario.search_repositories "2026-10-27")
    /\ entry Iso.fromisoformat Scenario.now Scenario.lending
       = entry Iso.fromisoformat Scenario.now repo
    /\ audit_priority (entry Iso.fromisoformat Scenario.now Scenario.lending)
       = _calculate_priority Iso.fromisoformat Scenario.now repo
    /\ 50 <= get (stargazers_count repo) 0
    /\ ~ In (get (full_name repo) "") EXCLUDED_REPOS
    /\ archived repo <> Some true
    /\ is_solana_project repo = true.
Proof.
  apply (discover_returns_admitted_only Iso.fromisoformat Scenario.now
           Scenario.strftime_Ymd Scenario.search_repositories 5 50 7
           (entry Iso.fromisoformat Scenario.now Scenario.lending)).
  vm_compute. left. reflexivity.
Defined.

End DiscoveryFacts.

(** ** More properties of the priority score *)

Module PriorityFacts.

Import Monitor.

Lemma priority_range_witness :
  0 <= _calculate_priority Iso.fromisoformat Scenario.now Scenario.saturated <= 104.
Proof.
  apply (MonitorFacts.priority_range Iso.fromisoformat Scenario.now Scenario.saturated).
  - cbn. lia.
  - cbn. lia.
Defined.

Lemma int_monotone (x y : Q) : (x <= y)%Q -> PyNum.int x <= PyNum.int y.
Proof.
  intros Hxy. unfold PyNum.int.
  destruct (Qle_bool 0 x) eqn:Hx, (Qle_bool 0 y) eqn:Hy.
  - now apply Qfloor_resp_le.
  - apply Qle_bool_iff in Hx.
    assert (Qle_bool 0 y = true) by (apply Qle_bool_iff; lra). congruence.
  - assert (x < 0)%Q as Hneg.
    { apply Qnot_le_lt. intros H. apply Qle_bool_iff in H. congruence. }
    apply Qle_bool_iff in Hy.
    transitivity 0.
    + change 0 with (Qceiling 0). apply Qceiling_resp_le. lra.
    + change 0 with (Qfloor 0). now apply Qfloor_resp_le.
  - now apply Qceiling_resp_le.
Qed.

Lemma truediv_monotone (a b c : Z) : 0 < c -> a <= b ->
  (PyNum.truediv a c <= PyNum.truediv b c)%Q.
Proof.
  intros Hc Hab. unfold PyNum.truediv, Qdiv.
  apply Qmult_le_compat_r.
  - rewrite <- Zle_Qle. exact Hab.
  - apply Qinv_le_0_compat. change 0%Q with (inject_Z 0). rewrite <- Zle_Qle. lia.
Qed.

(** The keyword loop adds 2 for each keyword the description holds. *)
Lemma keyword_fold_sum (description : string) (kws : list string) (score : Q) :
  (fold_left (fun score kw =>
                if PyStr.contains kw description then score + 2 else score)
             kws score
   == score
      + inject_Z
          (2 * Z.of_nat
                 (length (List.filter (fun kw => PyStr.contains kw description) kws))))%Q.
Proof.
  revert score; induction kws as [|kw kws IH]; intros score;
    cbn [fold_left List.filter].
  - cbn [length]. change (inject_Z (2 * Z.of_nat 0)) with 0%Q. lra.
  - rewrite IH. destruct (PyStr.contains kw description); [|reflexivity].
    cbn [length]. rewrite Nat2Z.inj_succ, <- Z.add_1_r, Z.mul_add_distr_l.
    rewrite inject_Z_plus. change (inject_Z (2 * 1)) with 2%Q. lra.
Qed.

Section Priority.

Variable fromisoformat : string -> option Z.
Variable now : Z.

(** More stars or more forks never lower the score: of two repositories
    with the same description and the same [updated_at], the one with
    at least as many stars and at least as many forks scores at least
    as much. *)
Theorem priority_grows_with_stars_and_forks (a b : Repo) :
  get (stargazers_count a) 0 <= get (stargazers_count b) 0 ->
  get (forks_count a) 0 <= get (forks_count b) 0 ->
  description a = description b ->
  updated_at a = updated_at b ->
  _calculate_priority fromisoformat now a <= _calculate_priority fromisoformat now b.
Proof.
  intros Hstars Hforks Hdescr Hupd.
  unfold _calculate_priority, keyword_loop. apply int_monotone.
  rewrite !keyword_fold_sum, Hdescr.
  assert (recent_activity fromisoformat now a = recent_activity fromisoformat now b)
    as -> by (unfold recent_activity; now rewrite Hupd).
  pose proof (Q.min_le_compat_r _ _ 40%Q (truediv_monotone _ _ 100 eq_refl Hstars)).
  pose proof (Q.min_le_compat_r _ _ 20%Q (truediv_monotone _ _ 20 eq_refl Hforks)).
  lra.
Qed.

Lemma min_truediv (a c cap : Z) :
  0 < c ->
  (Qmin (PyNum.truediv a c) (inject_Z cap) == PyNum.truediv (Z.min a (cap * c)) c)%Q.
Proof.
  intros Hc.
  assert (inject_Z cap == PyNum.truediv (cap * c) c)%Q as Hcap.
  { unfold PyNum.truediv. rewrite inject_Z_mult. field.
    intros H. unfold Qeq in H. cbn in H. lia. }
  destruct (Z.le_ge_cases a (cap * c)) as [Hle|Hge].
  - rewrite Z.min_l by exact Hle. apply Q.min_l.
    rewrite Hcap. now apply truediv_monotone.
  - rewrite Z.min_r by exact Hge. rewrite Q.min_r; [exact Hcap|].
    rewrite Hcap. now apply truediv_monotone.
Qed.

Lemma recent_activity_points (repo : Repo) :
  (recent_activity fromisoformat now repo
   == inject_Z (PyNum.int (recent_activity fromisoformat now repo)))%Q
  /\ In (PyNum.int (recent_activity fromisoformat now repo)) [0; 10; 20; 30].
Proof.
  unfold recent_activity.
  destruct (updated_at repo) as [[|c s]|]; try (cbn; split; [reflexivity | tauto]).
  destruct (fromisoformat _) as [updated|]; try (cbn; split; [reflexivity | tauto]).
  repeat (match goal with |- context [if ?b then _ else _] => destruct b end);
    cbn; split; try reflexivity; tauto.
Qed.

(** The score in whole numbers. For counts that are not negative the
    score is the whole part of (min(stars, 4000) + 5 min(forks, 400)) /
    100, plus the points for recent activity (0, 10, 20 or 30), plus 2
    for each keyword the lower-cased description holds: the fractions
    of the stars term and of the forks term are added before the sum is
    truncated. An [updated_at] that is absent, empty or not a date
    gives 0 points for recent activity. *)
Theorem priority_in_whole_numbers (repo : Repo) :
  0 <= get (stargazers_count repo) 0 ->
  0 <= get (forks_count repo) 0 ->
  _calculate_priority fromisoformat now repo
  = (Z.min (get (stargazers_count repo) 0) 4000
     + 5 * Z.min (get (forks_count repo) 0) 400) / 100
    + PyNum.int (recent_activity fromisoformat now repo)
    + 2 * Z.of_nat
            (length
               (List.filter
                  (fun kw => PyStr.contains kw (PyStr.lower (get (description repo) "")))
                  keywords))
  /\ In (PyNum.int (recent_activity fromisoformat now repo)) [0; 10; 20; 30]
  /\ (match updated_at repo with
      | None => True
      | Some s => s = "" \/ fromisoformat (PyStr.replace_char "Z" "+00:00" s) = None
      end ->
      PyNum.int (recent_activity fromisoformat now repo) = 0).
Proof.
  intros Hstars Hforks.
  destruct (recent_activity_points repo) as [Hr Hin].
  split; [|split; [exact Hin|]].
  - set (s := get (stargazers_count repo) 0) in *.
    set (f := get (forks_count repo) 0) in *.
    set (r := PyNum.int (recent_activity fromisoformat now repo)) in *.
    set (k := Z.of_nat (length _)).
    assert (0 <= r) as Hr0 by (cbn in Hin; lia).
    assert (0 <= k) as Hk0 by (subst k; lia).
    rewrite <- Z.add_assoc, <- (Z.div_add _ (r + 2 * k) 100) by lia.
    unfold _calculate_priority, keyword_loop. fold s f.
    rewrite Zdiv_Qdiv.
    assert (forall x y : Q, (x == y)%Q -> (0 <= y)%Q -> PyNum.int x = Qfloor y) as Hint.
    { intros x y Hxy Hy. unfold PyNum.int.
      assert (Qle_bool 0 x = true) as -> by (apply Qle_bool_iff; lra).
      now apply Qfloor_comp. }
    apply Hint.
    + rewrite keyword_fold_sum. fold k. rewrite Hr. fold r.
      change 40%Q with (inject_Z 40). change 20%Q with (inject_Z 20).
      rewrite (min_truediv s 100 40), (min_truediv f 20 20) by lia.
      unfold PyNum.truediv.
      rewrite !inject_Z_plus, !inject_Z_mult.
      change (40 * 100) with 4000. change (20 * 20) with 400.
      change (inject_Z 100) with 100%Q. change (inject_Z 20) with 20%Q.
      change (inject_Z 5) with 5%Q.
      rewrite !inject_Z_plus, !inject_Z_mult. change (inject_Z 2) with 2%Q.
      generalize (inject_Z (Z.min s 4000)) (inject_Z (Z.min f 400))
        (inject_Z r) (inject_Z k).
      intros qs qf qr qk. field.
    + apply Qle_shift_div_l; [reflexivity|].
      rewrite Qmult_0_l. change 0%Q with (inject_Z 0). rewrite <- Zle_Qle. lia.
  - unfold recent_activity.
    destruct (updated_at repo) as [[|c s]|]; try reflexivity.
    intros [H|H]; [discriminate H|]. rewrite H. reflexivity.
Qed.

End Priority.

Lemma priority_grows_with_stars_and_forks_witness :
  _calculate_priority Iso.fromisoformat Scenario.now Scenario.lending
  <= _calculate_priority Iso.fromisoformat Scenario.now
       (Scenario.repo 1 "acme/lend" 4050 90 "solana lending protocol"
          "2026-11-01T12:00:00Z").
Proof.
  apply (priority_grows_with_stars_and_forks Iso.fromisoformat Scenario.now
           Scenario.lending
           (Scenario.repo 1 "acme/lend" 4050 90 "solana lending protocol"
              "2026-11-01T12:00:00Z")).
  - cbn. lia.
  - cbn. lia.
  - reflexivity.
  - reflexivity.
Defined.

Lemma priority_in_whole_numbers_witness :
  _calculate_priority Iso.fromisoformat Scenario.now
    (Scenario.repo 4 "acme/half" 50 10 "staking pool" "not a date")
  = (Z.min 50 4000 + 5 * Z.min 10 400) / 100
    + PyNum.int (recent_activity Iso.fromisoformat Scenario.now
                   (Scenario.repo 4 "acme/half" 50 10 "staking pool" "not a date"))
    + 2 * Z.of_nat
            (length
               (List.filter
                  (fun kw => PyStr.contains kw (PyStr.lower "staking pool"))
                  keywords))
  /\ In (PyNum.int (recent_activity Iso.fromisoformat Scenario.now
                      (Scenario.repo 4 "acme/half" 50 10 "staking pool" "not a date")))
       [0; 10; 20; 30]
  /\ ("not a date" = ""
      \/ Iso.fromisoformat (PyStr.replace_char "Z" "+00:00" "not a date") = None ->
      PyNum.int (recent_activity Iso.fromisoformat Scenario.now
                   (Scenario.repo 4 "acme/half" 50 10 "staking pool" "not a date"))
      = 0).
Proof.
  apply (priority_in_whole_numbers Iso.fromisoformat Scenario.now
           (Scenario.repo 4 "acme/half" 50 10 "staking pool" "not a date")).
  - cbn. lia.
  - cbn. lia.
Defined.

End PriorityFacts.

(** ** Properties of the command line *)

Module CliFacts.

Import FindingsDb Cli.

Lemma at_or_above_high (severity' : string) :
  at_or_above severity' "High" = true <-> severity' = "Critical" \/ severity' = "High".
Proof.
  unfold at_or_above, rank.
  destruct (String.eqb_spec severity' "Critical") as [->|Hc].
  { cbn. split; [now left | reflexivity]. }
  destruct (String.eqb_spec severity' "High") as [->|Hh].
  { cbn. split; [now right | reflexivity]. }
  destruct (String.eqb severity' "Medium"), (String.eqb severity' "Low"),
    (String.eqb severity' "Informational"); cbn;
    (split; [discriminate | intros [?|?]; contradiction]).
Qed.

Section Main.

Variable strftime_Ymd : timestamp -> string.
Variable json_load : string -> Input.Finding.

(** The command [--pending] has a fixed threshold. When it is the
    command that runs, [main] writes nothing and shows exactly the
    pending findings of severity Critical or High, whatever [--severity]
    says: pending findings of severity Medium, Low or Informational
    cannot be listed with it. *)
Theorem pending_command_shows_critical_and_high (args : Args) (clock : Clock) (db : Db) :
  init args = false ->
  Queries.given (add args) = false ->
  stats args = false ->
  pending args = true ->
  exists rows : list Row,
    main strftime_Ymd json_load args clock db = (db, ShowFindings rows)
    /\ (forall row : Row,
          In row rows <->
          In row (findings db) /\ FindingsDb.status row = "pending"
          /\ (FindingsDb.severity row = "Critical" \/ FindingsDb.severity row = "High")).
Proof.
  intros Hinit Hadd Hstats Hpending. unfold main.
  rewrite Hinit, Hadd, Hstats, Hpending.
  eexists. split; [reflexivity|]. intros row.
  rewrite SessionFacts.pending_In by reflexivity.
  rewrite at_or_above_high. reflexivity.
Qed.

(** An update of a finding that does not exist is reported as done.
    When [--update-status] runs with a [--finding-id] that no finding
    has, [main] raises nothing, leaves the database as it is and shows
    the same message as for a finding it has updated, even for a status
    that is not one of the six. *)
Theorem update_command_reports_unknown_id_as_updated (args : Args) (clock : Clock)
    (db : Db) (finding_id' status' : string) :
  init args = false ->
  Queries.given (add args) = false ->
  stats args = false ->
  pending args = false ->
  list_ args = false ->
  update_status args = Some status' ->
  status' <> "" ->
  finding_id args = Some finding_id' ->
  finding_id' <> "" ->
  get_finding_by_id db finding_id' = None ->
  main strftime_Ymd json_load args clock db = (db, Updated finding_id' status').
Proof.
  intros Hinit Hadd Hstats Hpending Hlist Hst Hst' Hid Hid' Hnone. unfold main.
  rewrite Hinit, Hadd, Hstats, Hpending, Hlist, Hst, Hid.
  destruct status' as [|c s]; [contradiction|].
  destruct finding_id' as [|c' s']; [contradiction|].
  cbn [Queries.given andb Monitor.get].
  apply FindingsDbFacts.find_none_existsb in Hnone.
  unfold update_finding_status. rewrite Hnone. cbn [andb].
  rewrite FindingsDbFacts.map_unselected by exact Hnone.
  destruct db; reflexivity.
Qed.

End Main.

Lemma pending_command_shows_critical_and_high_witness :
  exists rows : list Row,
    main Ledger.strftime_Ymd (fun _ => Ledger.finding_without_title)
      {| init := false; add := None; list_ := true; pending := true;
         severity := Some "Low"; status := None; repo := None; stats := false;
         update_status := None; finding_id := None; notes := None; limit := 50 |}
      {| now := 200; later := 201; current_timestamp := 200 |} Ledger.four
    = (Ledger.four, ShowFindings rows)
    /\ (forall row : Row,
          In row rows <->
          In row (findings Ledger.four) /\ FindingsDb.status row = "pending"
          /\ (FindingsDb.severity row = "Critical" \/ FindingsDb.severity row = "High")).
Proof.
  apply (pending_command_shows_critical_and_high Ledger.strftime_Ymd
           (fun _ => Ledger.finding_without_title)
           {| init := false; add := None; list_ := true; pending := true;
              severity := Some "Low"; status := None; repo := None; stats := false;
              update_status := None; finding_id := None; notes := None; limit := 50 |}
           {| now := 200; later := 201; current_timestamp := 200 |} Ledger.four).
  - reflexivity.
  - reflexivity.
  - reflexivity.
  - reflexivity.
Defined.

Lemma update_command_reports_unknown_id_as_updated_witness :
  main Ledger.strftime_Ymd (fun _ => Ledger.finding_without_title)
    {| init := false; add := None; list_ := false; pending := false;
       severity := None; status := None; repo := None; stats := false;
       update_status := Some "done"; finding_id := Some "FND-404"; notes := None;
       limit := 50 |}
    {| now := 200; later := 201; current_timestamp := 200 |} Ledger.four
  = (Ledger.four, Updated "FND-404" "done").
Proof.
  apply (update_command_reports_unknown_id_as_updated Ledger.strftime_Ymd
           (fun _ => Ledger.finding_without_title)
           {| init := false; add := None; list_ := false; pending := false;
              severity := None; status := None; repo := None; stats := false;
              update_status := Some "done"; finding_id := Some "FND-404";
              notes := None; limit := 50 |}
           {| now := 200; later := 201; current_timestamp := 200 |} Ledger.four
           "FND-404" "done").
  - reflexivity.
  - reflexivity.
  - reflexivity.
  - reflexivity.
  - reflexivity.
  - reflexivity.
  - discriminate.
  - reflexivity.
  - discriminate.
  - reflexivity.
Defined.

End CliFacts.

(** ** Properties of the notifier *)

Module TelegramFacts.

Import Telegram.

Section Notifier.

Variable str_int : Z -> text.
Variable str_real : Q -> text.

(** Whatever the finding holds, the text [send_finding] hands to
    [send_message] has at most 4000 characters. *)
Theorem send_finding_fits_4000 (finding : gmap string value) (message : text) :
  send_finding str_int str_real finding = Message message ->
  (length message <= 4000)%nat.
Proof.
  unfold send_finding.
  destruct (slice 500 _) as [description|]; [|discriminate].
  destruct (slice 300 _) as [impact|]; [|discriminate].
  destruct (Nat.ltb_spec 4000
              (length (finding_template str_int str_real finding description impact)))
    as [Hlong|Hshort]; intros [= <-]; [|exact Hshort].
  rewrite length_app.
  pose proof (firstn_le_length 3900
                (finding_template str_int str_real finding description impact)).
  change (length truncation_notice) with 58%nat. lia.
Qed.

Lemma slice_none (n : nat) (v : value) :
  slice n v = None <-> (forall t, v <> VStr t).
Proof.
  destruct v; cbn [slice]; split; try discriminate; try reflexivity.
  intros H. now elim (H t).
Qed.

(** The two slices are the only places where [send_finding] can raise. *)
Lemma send_finding_type_error (finding : gmap string value) :
  send_finding str_int str_real finding = TypeError
  <-> slice 500 (get finding "description" (VStr (lit "No description"))) = None
      \/ slice 300 (get finding "impact" (VStr (lit "No impact analysis"))) = None.
Proof.
  unfold send_finding.
  destruct (slice 500 _) as [description|]; [|split; [now left | reflexivity]].
  destruct (slice 300 _) as [impact|]; [|split; [now right | reflexivity]].
  split; [discriminate | intros [H|H]; discriminate H].
Qed.

Variable isoformat : FindingsDb.timestamp -> text.

Lemma text_or_null_not_text (o : option string) :
  (forall t, text_or_null o <> VStr t) <-> o = None.
Proof.
  destruct o as [s|]; cbn [text_or_null].
  - split; [intros H; now elim (H (lit s)) | discriminate].
  - split; [reflexivity | discriminate].
Qed.

(** A stored finding can be sent by its identifier only if it has a
    description and an impact: for a finding of the table,
    [load_finding_from_db] returns its dictionary, and [send_finding]
    on that dictionary raises [TypeError] exactly when the column
    [description] or the column [impact] is null. *)
Theorem stored_finding_needs_description_and_impact (db : FindingsDb.Db)
    (finding_id : string) (row : FindingsDb.Row) :
  FindingsDb.get_finding_by_id db finding_id = Some row ->
  exists finding : gmap string value,
    load_finding_from_db isoformat db finding_id = Some finding
    /\ (send_finding str_int str_real finding = TypeError
        <-> (FindingsDb.description row = None \/ FindingsDb.impact row = None)).
Proof.
  intros Hrow. unfold load_finding_from_db. rewrite Hrow. cbn [option_map].
  eexists. split; [reflexivity|].
  rewrite send_finding_type_error, !slice_none.
  assert (get (dict_of_row isoformat row) "description" (VStr (lit "No description"))
          = text_or_null (FindingsDb.description row)) as -> by reflexivity.
  assert (get (dict_of_row isoformat row) "impact" (VStr (lit "No impact analysis"))
          = text_or_null (FindingsDb.impact row)) as -> by reflexivity.
  rewrite !text_or_null_not_text. reflexivity.
Qed.

End Notifier.

Lemma send_finding_fits_4000_witness :
  (length Notices.long_finding_message <= 4000)%nat.
Proof.
  apply (send_finding_fits_4000 Notices.str_int Notices.str_real Notices.long_finding
           Notices.long_finding_message).
  vm_compute. reflexivity.
Defined.

Lemma stored_finding_needs_description_and_impact_witness :
  exists finding : gmap string value,
    load_finding_from_db Notices.isoformat Ledger.one_high "FND-1" = Some finding
    /\ (send_finding Notices.str_int Notices.str_real finding = TypeError
        <-> (FindingsDb.description Ledger.high_row = None
             \/ FindingsDb.impact Ledger.high_row = None)).
Proof.
  apply (stored_finding_needs_description_and_impact Notices.str_int Notices.str_real
           Notices.isoformat Ledger.one_high "FND-1" Ledger.high_row).
  reflexivity.
Defined.

End TelegramFacts.
